(** * Sheet ingestion and parsing engine: a shallow embedding

    The development follows the sheet service of the scheduler
    ([fetchWithRetry], [findSheetNameForDate], [normalizeName],
    [fetchSalesRankings], [fetchRepSkills], [fetchSheetData]) function by
    function.

    Conventions of the embedding.
    - Text is a [string] of bytes, the UTF-8 encoding of the text.  Case
      mapping and the whitespace class of [trim] and of the regular
      expression class [\s] are those of the ASCII range; bytes above 127
      are carried through unchanged (the check mark glyph is its three UTF-8
      bytes).  On text made of ASCII characters ([asciiText]) these are the
      functions of the runtime; on other text the runtime also strips the
      blanks outside ASCII and maps the case of letters outside ASCII, which
      is not modelled.  The properties that depend on these functions are
      stated for ASCII text.  The one exception is the regular expression of
      the sheet selector, whose class [\s] is the runtime's on every text
      ([DateRangeRegex.blankLength]).
    - A time-slot label is compiled by the source into a regular
      expression.  The pattern is modelled for labels without a character
      that the regular expression syntax gives a meaning to ([plainLabel]).
    - A number read by [parseInt] is kept as the integer it denotes, which
      is the runtime's number up to 2^53 in absolute value ([exactNumber]).
    - A [Date] object is a time value.  The functions without a zone
      argument are the methods of a [Date] in universal time (equally, of
      its local time value in any zone with a constant offset); the
      functions of [Zoned] take the time zone as an argument.
    - A cell of a sheet row is [null]/[undefined], a boolean or a string.
    - The network is a family of servers: for each request target, the
      outcome of the n-th attempt made at it.
    - Exceptions are values of [completion]; the warning of the sheet
      selector is returned as a log.
    - The constants of the configuration module ([TIME_SLOTS],
      [SHEET_TITLE_PREFIX], [USE_MOCK_DATA_ON_FAILURE]) are Section
      variables; the request targets stand for the URLs built from the
      others. *)

From Stdlib Require Import ZArith Ascii String Lia Bool Sorted.
From stdpp Require Import base list gmap strings pretty.

Local Open Scope Z_scope.

(** ** Characters and strings *)

Module Text.

Definition code (c : ascii) : N := N_of_ascii c.

(** [\s] and the characters stripped by [trim], within ASCII: tab, line
    feed, vertical tab, form feed, carriage return and space. The runtime's
    class also holds U+00A0, U+FEFF and the other Unicode blanks, which are
    not characters of ASCII text. *)
Definition isSpace (c : ascii) : bool :=
  let n := code c in
  ((9 <=? n) && (n <=? 13))%N || (n =? 32)%N.

(** [\d] *)
Definition isDigit (c : ascii) : bool :=
  let n := code c in ((48 <=? n) && (n <=? 57))%N.

(** [A-Z] *)
Definition isUpperAZ (c : ascii) : bool :=
  let n := code c in ((65 <=? n) && (n <=? 90))%N.

(** [a-z] *)
Definition isLowerAZ (c : ascii) : bool :=
  let n := code c in ((97 <=? n) && (n <=? 122))%N.

Definition toUpperChar (c : ascii) : ascii :=
  if isLowerAZ c then ascii_of_N (code c - 32) else c.

Definition toLowerChar (c : ascii) : ascii :=
  if isUpperAZ c then ascii_of_N (code c + 32) else c.

Fixpoint mapChars (f : ascii -> ascii) (s : string) : string :=
  match s with
  | EmptyString => EmptyString
  | String c s' => String (f c) (mapChars f s')
  end.

Fixpoint filterChars (p : ascii -> bool) (s : string) : string :=
  match s with
  | EmptyString => EmptyString
  | String c s' => if p c then String c (filterChars p s') else filterChars p s'
  end.

(** [s.toUpperCase()] and [s.toLowerCase()] on ASCII text; a letter outside
    ASCII is left as it is, where the runtime maps it. *)
Definition toUpperCase : string -> string := mapChars toUpperChar.
Definition toLowerCase : string -> string := mapChars toLowerChar.

Definition isEmpty (s : string) : bool :=
  match s with EmptyString => true | _ => false end.

Fixpoint trimStart (s : string) : string :=
  match s with
  | EmptyString => EmptyString
  | String c s' => if isSpace c then trimStart s' else s
  end.

Fixpoint trimEnd (s : string) : string :=
  match s with
  | EmptyString => EmptyString
  | String c s' =>
      let t := trimEnd s' in
      if isSpace c && isEmpty t then EmptyString else String c t
  end.

Definition trim (s : string) : string := trimEnd (trimStart s).

(** [s.startsWith(p)] *)
Fixpoint startsWith (s p : string) : bool :=
  match p, s with
  | EmptyString, _ => true
  | String a p', String b s' => Ascii.eqb a b && startsWith s' p'
  | String _ _, EmptyString => false
  end.

(** [s.includes(sub)] *)
Fixpoint includes (s sub : string) : bool :=
  startsWith s sub
  || match s with
     | EmptyString => false
     | String _ s' => includes s' sub
     end.

(** [s.substring(0, n)] *)
Fixpoint substring0 (n : nat) (s : string) : string :=
  match n, s with
  | S n', String c s' => String c (substring0 n' s')
  | _, _ => EmptyString
  end.

(** [s.replace(/:$/, '')] *)
Fixpoint stripTrailingColon (s : string) : string :=
  match s with
  | EmptyString => EmptyString
  | String c s' =>
      if Ascii.eqb c ":" && isEmpty s' then EmptyString
      else String c (stripTrailingColon s')
  end.

(** [parts.join(sep)] *)
Fixpoint join (sep : string) (parts : list string) : string :=
  match parts with
  | [] => ""
  | [p] => p
  | p :: rest => p +:+ sep +:+ join sep rest
  end.

Definition digitValue (c : ascii) : Z := Z.of_N (code c) - 48.

(** Every character of [s] satisfies [p]. *)
Fixpoint allChars (p : ascii -> bool) (s : string) : bool :=
  match s with
  | EmptyString => true
  | String c s' => p c && allChars p s'
  end.

(** A character of the ASCII range, and text made of such characters: the
    text on which [trim], [isSpace], [toUpperCase] and [toLowerCase] are the
    runtime's [trim], [\s], [toUpperCase()] and [toLowerCase()]. *)
Definition isAscii (c : ascii) : bool := (code c <? 128)%N.

Definition asciiText (s : string) : bool := allChars isAscii s.

End Text.

Import Text.

(** ** Values *)

(** A cell as it arrives in a row of a [values] grid. [CNull] stands for both
    [null] and a position past the end of the row ([undefined]). *)
Inductive cell : Type :=
| CNull
| CBool (b : bool)
| CStr (s : string).

(** Truthiness of a cell ([cell || ''], [if (cell)], [Boolean]). *)
Definition truthy (c : cell) : bool :=
  match c with
  | CNull => false
  | CBool b => b
  | CStr s => negb (isEmpty s)
  end.

(** [String(c)] for a cell that is not nullish. *)
Definition jsString (c : cell) : string :=
  match c with
  | CNull => "undefined"
  | CBool true => "true"
  | CBool false => "false"
  | CStr s => s
  end.

(** [row[i]] *)
Definition cellAt (row : list cell) (i : nat) : cell := nth i row CNull.

(** A cell whose text, if it is a string, is ASCII text. *)
Definition asciiCell (c : cell) : bool :=
  match c with
  | CStr s => asciiText s
  | CNull | CBool _ => true
  end.

(** The fields of a JSON body that the service reads. *)
Record Json : Type := mkJson {
  sheets : option (list string);        (* [sheets[k].properties.title] *)
  values : option (list (list cell))
}.

Record Response : Type := mkResponse {
  status : Z;
  statusText : string;
  body : option Json                    (* [None]: [response.json()] throws *)
}.

(** [response.ok]: the status is in the range 200-299. *)
Definition ok (r : Response) : bool := (200 <=? status r) && (status r <=? 299).

(** What the service throws; each [new Error(...)] of the source has its own
    constructor. *)
Inductive Error : Type :=
| TransportError (cause : string)       (* [fetch] rejected *)
| FetchFailedUnexpectedly               (* line 46 *)
| MetadataFailed (st : Z)               (* line 215 *)
| NoSheetFound                          (* line 222 *)
| SheetDataFailed (st : Z)              (* line 230 *)
| NoDayHeaders                          (* line 256 *)
| TypeError                             (* a method call on a value without it *)
| SyntaxError.                          (* [response.json()] on a malformed body *)

Inductive completion (A : Type) : Type :=
| Return (a : A)
| Throw (e : Error).
Arguments Return {A} a.
Arguments Throw {A} e.

(** [await]/sequencing inside a [try] block: a throw skips what follows. *)
#[global] Instance completion_bind : MBind completion :=
  fun A B k c =>
    match c with
    | Return a => k a
    | Throw e => Throw e
    end.

(** ** The resilient fetcher *)

(** What one call of [fetch(url)] does. *)
Inductive outcome : Type :=
| Responds (r : Response)
| Rejects (cause : string).

Inductive Event : Type :=
| EvFetch (attempt : nat)
| EvSleep (ms : Z).

(** The test of line 19: the response is handed to the caller as it is. *)
Definition returnedAtOnce (r : Response) : bool :=
  ok r || ((status r <? 500) && negb (status r =? 429)).

Section Fetcher.

(** [server i] is the outcome of attempt [i] (counted from 0) at the URL. *)
Variable server : nat -> outcome.
Variable retries : Z.

(** The [for] loop of [fetchWithRetry] from attempt [i] on; [remaining]
    counts the iterations for which [i <= retries] still holds. *)
Fixpoint attemptsFrom (remaining : nat) (i : nat) (currentDelay : Z)
  : completion Response * list Event :=
  match remaining with
  | O => (Throw FetchFailedUnexpectedly, [])
  | S rest =>
      match server i with
      | Responds response =>
          if returnedAtOnce response then (Return response, [EvFetch i])
          else if Z.of_nat i <? retries then
            let '(res, evs) := attemptsFrom rest (S i) (currentDelay * 2) in
            (res, EvFetch i :: EvSleep currentDelay :: evs)
          else (Return response, [EvFetch i])
      | Rejects error =>
          if Z.of_nat i <? retries then
            let '(res, evs) := attemptsFrom rest (S i) (currentDelay * 2) in
            (res, EvFetch i :: EvSleep currentDelay :: evs)
          else (Throw (TransportError error), [EvFetch i])
      end
  end.

Definition fetchWithRetry (initialDelay : Z) : completion Response * list Event :=
  attemptsFrom (Z.to_nat (retries + 1)) 0 initialDelay.

End Fetcher.

(** The defaults [retries = 3, initialDelay = 1000], as every caller in the
    service uses them. *)
Definition fetchDefault (server : nat -> outcome) : completion Response :=
  fst (fetchWithRetry server 3 1000).

(** An attempt after which [fetchWithRetry] tries again when any are left. *)
Definition retried (o : outcome) : bool :=
  match o with
  | Responds r => negb (returnedAtOnce r)
  | Rejects _ => true
  end.

(** What the last attempt hands to the caller. *)
Definition handed (o : outcome) : completion Response :=
  match o with
  | Responds r => Return r
  | Rejects cause => Throw (TransportError cause)
  end.

(** The events of [k] failed attempts followed by one more attempt, numbered
    from [i], with the sleep starting at [d] and doubling. *)
Fixpoint backoffTrace (k : nat) (i : nat) (d : Z) : list Event :=
  match k with
  | O => [EvFetch i]
  | S k' => EvFetch i :: EvSleep d :: backoffTrace k' (S i) (d * 2)
  end.

(** The sleeps of a trace, in order. *)
Definition sleeps (evs : list Event) : list Z :=
  omap (fun e => match e with EvSleep ms => Some ms | EvFetch _ => None end) evs.

(** The number of calls of [fetch] in a trace. *)
Definition attempts (evs : list Event) : nat :=
  length (omap (fun e => match e with EvFetch i => Some i | EvSleep _ => None end) evs).

Definition resp (st : Z) : Response :=
  {| status := st; statusText := ""; body := None |}.

(** A server that answers 503, then 429, then 200. *)
Definition flakyServer (i : nat) : outcome :=
  match i with
  | 0%nat => Responds (resp 503)
  | 1%nat => Responds (resp 429)
  | _ => Responds (resp 200)
  end.


(** ** Dates *)

(** A [Date] object holds a time value, in milliseconds. The first part of
    the module is the calendar arithmetic of the language definition ([Day],
    [MakeDay], [MakeDate], [YearFromTime] and the like). Read as the methods
    of a [Date], these functions are the methods in universal time; they are
    equally the methods in any zone with a constant offset when the [Date] is
    identified with its local time value. The second part gives the methods
    in an arbitrary time zone. Only valid dates are modelled (no
    [Invalid Date]). *)
Module JsDate.

Definition msPerDay : Z := 86400000.

(** Day number of the civil date [y]-[m]-[d] (days since 1970-01-01),
    [m] in 1..12, proleptic Gregorian calendar. *)
Definition daysFromCivil (y m d : Z) : Z :=
  let y' := if m <=? 2 then y - 1 else y in
  let era := y' / 400 in
  let yoe := y' - era * 400 in
  let mp := if m <=? 2 then m + 9 else m - 3 in
  let doy := (153 * mp + 2) / 5 + d - 1 in
  let doe := yoe * 365 + yoe / 4 - yoe / 100 + doy in
  era * 146097 + doe - 719468.

(** The civil date (year, month 1..12, day) of a day number. *)
Definition civilFromDays (z : Z) : Z * Z * Z :=
  let z' := z + 719468 in
  let era := z' / 146097 in
  let doe := z' - era * 146097 in
  let yoe := (doe - doe / 1460 + doe / 36524 - doe / 146096) / 365 in
  let doy := doe - (365 * yoe + yoe / 4 - yoe / 100) in
  let mp := (5 * doy + 2) / 153 in
  let d := doy - (153 * mp + 2) / 5 + 1 in
  let m := if mp <? 10 then mp + 3 else mp - 9 in
  let y := yoe + era * 400 + (if m <=? 2 then 1 else 0) in
  (y, m, d).

(** [MakeDay(year, month, date)]: months outside 0..11 carry into the year,
    days outside the month carry into the neighbouring months. *)
Definition makeDay (year month date : Z) : Z :=
  let ym := year + month / 12 in
  let mn := month mod 12 in
  daysFromCivil ym (mn + 1) 1 + date - 1.

(** [new Date(year, monthIndex, day)]; a year in 0..99 means 1900 + year. *)
Definition newDate (year monthIndex day : Z) : Z :=
  let yr := if (0 <=? year) && (year <=? 99) then 1900 + year else year in
  makeDay yr monthIndex day * msPerDay.

(** [MakeDate(Day(t), MakeTime(h, m, s, ms))]: what
    [date.setHours(h, m, s, ms)] leaves when local time is the time value
    itself. *)
Definition setHours (h m s ms : Z) (t : Z) : Z :=
  (t / msPerDay) * msPerDay + (((h * 60 + m) * 60 + s) * 1000 + ms).

Definition getFullYear (t : Z) : Z := fst (fst (civilFromDays (t / msPerDay))).
Definition getMonth (t : Z) : Z := snd (fst (civilFromDays (t / msPerDay))) - 1.
Definition getDate (t : Z) : Z := snd (civilFromDays (t / msPerDay)).
Definition getHours (t : Z) : Z := (t mod msPerDay) / 3600000.
Definition getMinutes (t : Z) : Z := ((t mod msPerDay) / 60000) mod 60.
Definition getSeconds (t : Z) : Z := ((t mod msPerDay) / 1000) mod 60.
Definition getMilliseconds (t : Z) : Z := (t mod msPerDay) mod 1000.

(** A time zone, given by the two conversions of the language definition:
    [localOf t] is [LocalTime(t)], the local time value of the time value
    [t]; [utcOf t] is [UTC(t)], the time value of the local time value [t]. *)
Record Zone : Type := mkZone {
  localOf : Z -> Z;
  utcOf : Z -> Z
}.

(** Universal time. *)
Definition utcZone : Zone := mkZone (fun t => t) (fun t => t).

(** A zone with a constant offset, in milliseconds east of Greenwich. *)
Definition fixedZone (offset : Z) : Zone :=
  mkZone (fun t => t + offset) (fun t => t - offset).

(** A zone whose clocks are moved forward at the time value [transition],
    from the offset [before] to the offset [after]. The local times from
    [transition + before] up to [transition + after] do not exist; [UTC]
    reads them with the offset that held before the transition. *)
Definition springForward (transition before after : Z) : Zone :=
  mkZone (fun t => if t <? transition then t + before else t + after)
         (fun t => if t <? transition + after then t - before else t - after).

Section InZone.

Variable zone : Zone.

(** [new Date(year, monthIndex, day)] *)
Definition newDateIn (year monthIndex day : Z) : Z :=
  utcOf zone (newDate year monthIndex day).

(** [date.setHours(h, m, s, ms)]: the new time value. *)
Definition setHoursIn (h m s ms : Z) (t : Z) : Z :=
  utcOf zone (setHours h m s ms (localOf zone t)).

Definition getFullYearIn (t : Z) : Z := getFullYear (localOf zone t).
Definition getMonthIn (t : Z) : Z := getMonth (localOf zone t).
Definition getDateIn (t : Z) : Z := getDate (localOf zone t).
Definition getHoursIn (t : Z) : Z := getHours (localOf zone t).
Definition getMinutesIn (t : Z) : Z := getMinutes (localOf zone t).
Definition getSecondsIn (t : Z) : Z := getSeconds (localOf zone t).
Definition getMillisecondsIn (t : Z) : Z := getMilliseconds (localOf zone t).

(** The local time 00:00:00.000 of the day of [t] is a local time of the
    zone: converted to a time value and back it is itself. *)
Definition midnightExists (t : Z) : Prop :=
  localOf zone (utcOf zone (setHours 0 0 0 0 (localOf zone t)))
  = setHours 0 0 0 0 (localOf zone t).

End InZone.

End JsDate.

Import JsDate.

(** ** The sheet selector *)

(** The regular expression [dateRangeRegex],
    [/(\d{1,2})\/(\d{1,2})\s*-\s*(\d{1,2})\/(\d{1,2})/], as a backtracking
    matcher in continuation style: each quantifier tries its longest match
    first and gives characters back when the rest of the pattern fails. A
    title is matched in its UTF-8 encoding, and the class [\s] is the
    runtime's, with its blanks outside ASCII. *)
Module DateRangeRegex.

(** [(\d{1,2})]: two digits if the rest then matches, else one; the group is
    read with [Number]. *)
Definition digits12 {A} (s : string) (k : Z -> string -> option A) : option A :=
  match s with
  | String a rest =>
      if isDigit a then
        match
          match rest with
          | String b rest' =>
              if isDigit b then k (digitValue a * 10 + digitValue b) rest' else None
          | EmptyString => None
          end
        with
        | Some r => Some r
        | None => k (digitValue a) rest
        end
      else None
  | EmptyString => None
  end.

(** The number of bytes of a character of the class [\s] at the head of
    [s], the text being in UTF-8: one for the blanks of ASCII, two for
    U+00A0, three for U+1680, U+2000 to U+200A, U+2028, U+2029, U+202F,
    U+205F, U+3000 and U+FEFF. *)
Definition blankLength (s : string) : option nat :=
  match s with
  | String a rest =>
      if isSpace a then Some 1%nat
      else
        match rest with
        | String b rest' =>
            let x := code a in
            let y := code b in
            if ((x =? 194) && (y =? 160))%N then Some 2%nat
            else
              match rest' with
              | String c _ =>
                  let z := code c in
                  if (((x =? 225) && (y =? 154) && (z =? 128))
                      || ((x =? 226) && (y =? 128) && ((128 <=? z) && (z <=? 138)))
                      || ((x =? 226) && (y =? 128)
                          && ((z =? 168) || (z =? 169) || (z =? 175)))
                      || ((x =? 226) && (y =? 129) && (z =? 159))
                      || ((x =? 227) && (y =? 128) && (z =? 128))
                      || ((x =? 239) && (y =? 187) && (z =? 191)))%N
                  then Some 3%nat
                  else None
              | EmptyString => None
              end
        | EmptyString => None
        end
  | EmptyString => None
  end.

(** [\s*] from [s] on, once the [pending] bytes that end the blank being
    read are passed: as many blanks as the rest of the pattern allows, the
    longest run first. *)
Fixpoint spacesFrom {A} (pending : nat) (s : string) (k : string -> option A)
  : option A :=
  match pending, s with
  | S n, String _ rest => spacesFrom n rest k
  | S _, EmptyString => None
  | O, String _ rest =>
      match blankLength s with
      | Some len =>
          match spacesFrom (len - 1) rest k with
          | Some r => Some r
          | None => k s
          end
      | None => k s
      end
  | O, EmptyString => k s
  end.

(** [\s*] *)
Definition spaces {A} (s : string) (k : string -> option A) : option A :=
  spacesFrom 0 s k.

(** A literal character. *)
Definition lit {A} (c : ascii) (s : string) (k : string -> option A) : option A :=
  match s with
  | String a rest => if Ascii.eqb a c then k rest else None
  | EmptyString => None
  end.

(** The pattern at the head of [s]: the four groups as numbers. *)
Definition matchAt (s : string) : option (Z * Z * Z * Z) :=
  digits12 s (fun startMonth s =>
  lit "/" s (fun s =>
  digits12 s (fun startDay s =>
  spaces s (fun s =>
  lit "-" s (fun s =>
  spaces s (fun s =>
  digits12 s (fun endMonth s =>
  lit "/" s (fun s =>
  digits12 s (fun endDay _ =>
  Some (startMonth, startDay, endMonth, endDay)))))))))).

(** [title.match(dateRangeRegex)]: the leftmost position with a match. *)
Fixpoint search (s : string) : option (Z * Z * Z * Z) :=
  match matchAt s with
  | Some r => Some r
  | None =>
      match s with
      | String _ s' => search s'
      | EmptyString => None
      end
  end.

End DateRangeRegex.

Inductive LogEntry : Type :=
| WarnFallbackSheet (title : string).   (* the [console.warn] of line 98 *)

Section SheetSelector.

Variable SHEET_TITLE_PREFIX : string.

(** The body of the loop over [yearOffset]: is the date within the range
    built for [getFullYear() + yearOffset]? *)
Definition withinRange (dateToFind : Z) (range : Z * Z * Z * Z) (yearOffset : Z) : bool :=
  let '(startMonth, startDay, endMonth, endDay) := range in
  let searchYear := getFullYear dateToFind + yearOffset in
  let startYear := searchYear in
  let endYear := if startMonth >? endMonth then startYear + 1 else searchYear in
  let startDate := setHours 0 0 0 0 (newDate startYear (startMonth - 1) startDay) in
  let endDate := setHours 23 59 59 999 (newDate endYear (endMonth - 1) endDay) in
  (startDate <=? dateToFind) && (dateToFind <=? endDate).

(** The loop over [sheets], with the date already at the start of its day. *)
Fixpoint scanSheets (dateToFind : Z) (sheets : list string) : option string :=
  match sheets with
  | [] => None
  | title :: rest =>
      if startsWith title SHEET_TITLE_PREFIX then
        match DateRangeRegex.search title with
        | Some range =>
            if existsb (withinRange dateToFind range) [0; -1; 1] then Some title
            else scanSheets dateToFind rest
        | None => scanSheets dateToFind rest
        end
      else scanSheets dateToFind rest
  end.

(** [findSheetNameForDate(dateToFind, sheets)]: the title returned (or
    [null]), the time value the caller's [Date] object holds afterwards,
    and what was logged. *)
Definition findSheetNameForDate (dateToFind : Z) (sheets : list string)
  : option string * Z * list LogEntry :=
  let dateToFind := setHours 0 0 0 0 dateToFind in
  match scanSheets dateToFind sheets with
  | Some title => (Some title, dateToFind, [])
  | None =>
      match List.find (fun title => startsWith title SHEET_TITLE_PREFIX) sheets with
      | Some fallbackSheet => (Some fallbackSheet, dateToFind, [WarnFallbackSheet fallbackSheet])
      | None => (None, dateToFind, [])
      end
  end.

End SheetSelector.

(** ** The name normalizer *)

(** [normalizeName]: trim, lower-case, remove every double quote (character
    34), then remove every character outside [a-z0-9]. On ASCII text this is
    the source's function; the runtime's [toLowerCase] also turns two
    characters outside ASCII (U+0130, U+212A) into letters that pass the
    filter. *)
Definition normalizeName (name : string) : string :=
  filterChars (fun c => isLowerAZ c || isDigit c)
    (filterChars (fun c => negb (Ascii.eqb c "034"))
       (toLowerCase (trim name))).

(** ** The skill and rank loaders *)

Module Skill.
Record t : Type := mk {
  skills : gmap string Z;             (* [Record<string, number>] *)
  zipCodes : list string
}.
End Skill.

(** The digits at the head of [s], read in base 10 ([acc]: the value so far,
    [None] while no digit was seen). *)
Fixpoint leadingDigits (s : string) (acc : option Z) : option Z :=
  match s with
  | String c s' =>
      if isDigit c then leadingDigits s' (Some (default 0 acc * 10 + digitValue c))
      else acc
  | EmptyString => acc
  end.

(** [parseInt(s, 10)] on a string; [None] is [NaN]. The value is kept as
    the integer the digits denote: the runtime's number when that integer is
    at most 2^53 in absolute value (beyond, the runtime rounds to a double),
    with [-0] read as 0. Leading blanks are those of ASCII. *)
Definition parseIntStr (s : string) : option Z :=
  match trimStart s with
  | String "-" s' => Z.opp <$> leadingDigits s' None
  | String "+" s' => leadingDigits s' None
  | s' => leadingDigits s' None
  end.

(** [parseInt(cell, 10)]: the argument is converted with [String] first, and
    neither [undefined], [null], [true] nor [false] starts with a digit. *)
Definition parseInt (c : cell) : option Z :=
  match c with
  | CStr s => parseIntStr s
  | CNull | CBool _ => None
  end.

(** A separator of [/[,;\s]+/], on ASCII text. *)
Definition isZipSeparator (c : ascii) : bool :=
  Ascii.eqb c "," || Ascii.eqb c ";" || isSpace c.

(** [s.split(/[,;\s]+/)]: [cur] is the piece being read, [inSep] tells that
    the previous character was part of a separator run. *)
Fixpoint splitRuns (s : string) (inSep : bool) (cur : string) : list string :=
  match s with
  | EmptyString => [cur]
  | String c s' =>
      if isZipSeparator c then
        if inSep then splitRuns s' true cur
        else cur :: splitRuns s' true ""
      else splitRuns s' false (cur +:+ String c "")
  end.

(** [zipString.split(/[,;\s]+/).map(zip => zip.trim()).filter(Boolean)] *)
Definition splitZipCodes (zipString : string) : list string :=
  List.filter (fun z => negb (isEmpty z)) (trim <$> splitRuns zipString false "").

(** [headers.findIndex(p)], [-1] when no element satisfies [p]. *)
Fixpoint findIndexFrom {A} (p : A -> bool) (l : list A) (i : Z) : Z :=
  match l with
  | [] => -1
  | x :: rest => if p x then i else findIndexFrom p rest (i + 1)
  end.

Definition findIndex {A} (p : A -> bool) (l : list A) : Z := findIndexFrom p l 0.

(** [l.slice(a, b)] for indices within [0, l.length]. *)
Definition slice {A} (a b : nat) (l : list A) : list A := take (b - a) (drop a l).

(** [values[0].map(h => h.trim())]; a header that is not a string has no
    [trim] method. *)
Fixpoint trimHeaders (cells : list cell) : completion (list string) :=
  match cells with
  | [] => Return []
  | CStr h :: rest => hs ← trimHeaders rest; Return (trim h :: hs)
  | _ :: rest => Throw TypeError
  end.



(** The [forEach] over [skillHeaders] for one row; [index] is the position
    within [skillHeaders]. The object [skills] is a finite map; its keys are
    headers, for which see [plainHeader]. *)
Fixpoint readSkills (skillHeaders : list string) (index : nat) (row : list cell)
    (skills : gmap string Z) : gmap string Z :=
  match skillHeaders with
  | [] => skills
  | skillName :: rest =>
      let skills' :=
        match parseInt (cellAt row (index + 1)) with
        | Some skillValue => <[skillName := skillValue]> skills
        | None => skills
        end in
      readSkills rest (S index) row skills'
  end.

Definition skillHeadersOf (headers : list string) (zipCodeColumnIndex : Z) : list string :=
  slice 1 (if zipCodeColumnIndex >? 0 then Z.to_nat zipCodeColumnIndex
           else length headers) headers.

Definition zipCodesOf (zipCodeColumnIndex : Z) (row : list cell) : list string :=
  if (zipCodeColumnIndex >? -1) && truthy (cellAt row (Z.to_nat zipCodeColumnIndex))
  then splitZipCodes (jsString (cellAt row (Z.to_nat zipCodeColumnIndex)))
  else [].

(** The [{ skills, zipCodes }] built for one row (lines 174-188). *)
Definition skillRecordOf (headers : list string) (zipCodeColumnIndex : Z)
    (row : list cell) : Skill.t :=
  let skills := readSkills (skillHeadersOf headers zipCodeColumnIndex) 0 row ∅ in
  let zipCodes := zipCodesOf zipCodeColumnIndex row in
  Skill.mk skills zipCodes.

(** The loop over [skillRows]. An exception inside it is caught by the
    [catch] of [fetchRepSkills], which then returns the map as filled so
    far. *)
Fixpoint readSkillRows (headers : list string) (zipCodeColumnIndex : Z)
    (skillRows : list (list cell)) (skillsMap : gmap string Skill.t)
  : gmap string Skill.t :=
  match skillRows with
  | [] => skillsMap
  | row :: rest =>
      match cellAt row 0 with
      | CNull | CBool false => readSkillRows headers zipCodeColumnIndex rest skillsMap
      | CBool true => skillsMap         (* [repName.trim] is not a function *)
      | CStr repName =>
          if isEmpty repName then readSkillRows headers zipCodeColumnIndex rest skillsMap
          else
            let normalizedName := normalizeName repName in
            readSkillRows headers zipCodeColumnIndex rest
              (<[normalizedName := skillRecordOf headers zipCodeColumnIndex row]> skillsMap)
      end
  end.

Definition zipColumnOf (headers : list string) : Z :=
  findIndex (fun h => includes (toLowerCase h) "zip") headers.

(** [fetchRepSkills()], from what the skills request is answered. *)
Definition fetchRepSkills (server : nat -> outcome) : gmap string Skill.t :=
  match fetchDefault server with
  | Throw _ => ∅
  | Return response =>
      if negb (ok response) then ∅
      else
        match body response with
        | None => ∅
        | Some data =>
            match values data with
            | Some (header :: ((_ :: _) as skillRows)) =>
                match trimHeaders header with
                | Throw _ => ∅
                | Return headers =>
                    readSkillRows headers (zipColumnOf headers) skillRows ∅
                end
            | _ => ∅
            end
        end
  end.

(** The [forEach] of [fetchSalesRankings]. *)
Fixpoint readRankRows (rows : list (list cell)) (index : Z) (rankMap : gmap string Z)
  : gmap string Z :=
  match rows with
  | [] => rankMap
  | row :: rest =>
      let rankMap' :=
        if truthy (cellAt row 0) then
          let name := jsString (cellAt row 0) in
          if includes (toLowerCase name) "sales order" then rankMap
          else
            let normalized := normalizeName name in
            match rankMap !! normalized with
            | Some _ => rankMap
            | None => <[normalized := index + 1]> rankMap
            end
        else rankMap in
      readRankRows rest (index + 1) rankMap'
  end.

(** [fetchSalesRankings()], from what the ranking request is answered. *)
Definition fetchSalesRankings (server : nat -> outcome) : gmap string Z :=
  match fetchDefault server with
  | Throw _ => ∅
  | Return response =>
      if negb (ok response) then ∅
      else
        match body response with
        | None => ∅
        | Some data =>
            match values data with
            | Some rows => readRankRows rows 0 ∅
            | None => ∅
            end
        end
  end.

(** ** The availability grid parser *)

Module TimeSlot.
Record t : Type := mk { id : string; label : string }.
End TimeSlot.

Module Day.
Record t : Type := mk { name : string; colIndex : nat }.
End Day.

(** A JavaScript [Map] or object with string keys, in insertion order:
    setting a key that is present replaces its value in place, a new key goes
    to the end. *)
Module Dict.

Fixpoint get {V} (k : string) (m : list (string * V)) : option V :=
  match m with
  | [] => None
  | (k', v) :: rest => if String.eqb k' k then Some v else get k rest
  end.

Fixpoint set {V} (k : string) (v : V) (m : list (string * V)) : list (string * V) :=
  match m with
  | [] => [(k, v)]
  | (k', v') :: rest =>
      if String.eqb k' k then (k', v) :: rest else (k', v') :: set k v rest
  end.

Definition has {V} (k : string) (m : list (string * V)) : bool :=
  match get k m with Some _ => true | None => false end.

Definition keys {V} (m : list (string * V)) : list string := fst <$> m.

End Dict.

(** [set.add(x)] on a [Set] in insertion order. *)
Definition setAdd (x : string) (s : list string) : list string :=
  if existsb (String.eqb x) s then s else s ++ [x].

(** Characters compared as a regular expression with the [i] flag does. *)
Definition eqIgnoreCase (a b : ascii) : bool :=
  Ascii.eqb (toUpperChar a) (toUpperChar b).

Fixpoint startsWithIgnoreCase (s p : string) : bool :=
  match p, s with
  | EmptyString, _ => true
  | String a p', String b s' => eqIgnoreCase a b && startsWithIgnoreCase s' p'
  | String _ _, EmptyString => false
  end.

Definition weekdays : list string :=
  ["Monday"; "Tuesday"; "Wednesday"; "Thursday"; "Friday"; "Saturday"; "Sunday"].

(** [s.match(dayRegex)]: [match[0]], the weekday name as [s] spells it. *)
Definition matchDay (s : string) : option string :=
  match List.find (startsWithIgnoreCase s) weekdays with
  | Some w => Some (substring0 (String.length w) s)
  | None => None
  end.

(** The [forEach] over the header row from column [index] on (the trim is
    that of ASCII text). *)
Fixpoint daysFrom (cells : list cell) (index : nat) : list Day.t :=
  match cells with
  | [] => []
  | c :: rest =>
      let more := daysFrom rest (S index) in
      if (0 <? index)%nat && truthy c then
        match matchDay (trim (jsString c)) with
        | Some name => Day.mk name index :: more
        | None => more
        end
      else more
  end.

Definition discoverDays (headerRow : list cell) : list Day.t := daysFrom headerRow 0.




(** The regular expression built from a label at line 281, for a
    [plainLabel]: every character of the label stands for itself, and the
    first dash between two whitespace characters becomes [\s?-\s?]. *)
Inductive item : Type :=
| Lit (c : ascii)
| OptSpace.

Fixpoint literal (s : string) : list item :=
  match s with
  | EmptyString => []
  | String c s' => Lit c :: literal s'
  end.

(** [label.replace(/(\s-\s)/, '\\s?-\\s?')] *)
Fixpoint labelPattern (label : string) : list item :=
  match label with
  | EmptyString => []
  | String a rest =>
      match rest with
      | String d (String b rest') =>
          if isSpace a && Ascii.eqb d "-" && isSpace b
          then OptSpace :: Lit "-" :: OptSpace :: literal rest'
          else Lit a :: labelPattern rest
      | _ => Lit a :: labelPattern rest
      end
  end.

(** The pattern followed by [$] matches the whole of [s], ignoring case. *)
Fixpoint matchesToEnd (p : list item) (s : string) : bool :=
  match p with
  | [] => isEmpty s
  | Lit c :: p' =>
      match s with
      | String a s' => eqIgnoreCase a c && matchesToEnd p' s'
      | EmptyString => false
      end
  | OptSpace :: p' =>
      match s with
      | String a s' => (isSpace a && matchesToEnd p' s') || matchesToEnd p' s
      | EmptyString => matchesToEnd p' s
      end
  end.

(** [labelRegex.test(s)] and [s.replace(labelRegex, '')] in one: the text
    before the leftmost match, when there is a match. *)
Fixpoint beforeMatch (p : list item) (s : string) : option string :=
  if matchesToEnd p s then Some ""
  else
    match s with
    | String a s' => String a <$> beforeMatch p s'
    | EmptyString => None
    end.

(** The loop over [timeSlotLabelsToIds.entries()]: the first label that
    matches, with its slot id and the text before the match (for labels that
    are [plainLabel]s and ASCII text in the first column). *)
Fixpoint matchLabels (entries : list (string * string)) (firstCol : string)
  : option (string * string) :=
  match entries with
  | [] => None
  | (label, id) :: rest =>
      match beforeMatch (labelPattern label) firstCol with
      | Some before => Some (id, before)
      | None => matchLabels rest firstCol
      end
  end.

(** The test of line 273, on ASCII text. *)
Definition isDivider (firstCol : string) : bool :=
  String.eqb (toUpperCase firstCol) firstCol
  && (1 <? String.length (filterChars (fun c => isUpperAZ c || isSpace c) firstCol))%nat.

(** [String(availabilityMark ?? '').trim()], for a [plainMark]. *)
Definition markText (availabilityMark : cell) : string :=
  trim match availabilityMark with
       | CNull => ""
       | c => jsString c
       end.

(** Lines 312-316. *)
Definition isExplicitlyUnavailable (availabilityMark : cell) : bool :=
  let availabilityMarkStr := markText availabilityMark in
  match availabilityMark with CBool false => true | _ => false end
  || String.eqb (toUpperCase availabilityMarkStr) "FALSE"
  || (negb (String.eqb availabilityMarkStr "")
      && negb (String.eqb (toUpperCase availabilityMarkStr) "TRUE")
      && negb (String.eqb availabilityMarkStr "✅")).


Module Draft.
Record t : Type := mk {
  name : string;
  unavailableSlots : list (string * list string);   (* day name -> Set of slot ids *)
  firstRowIndex : Z
}.
End Draft.

Record ScanState : Type := mkScan {
  repsMap : list (string * Draft.t);
  currentRepContext : option string
}.

(** [String(row?.[0] || '').trim()], for an ASCII first cell. *)
Definition firstColOf (row : list cell) : string :=
  trim (if truthy (cellAt row 0) then jsString (cellAt row 0) else "").


Section GridParser.

Variable TIME_SLOTS : list TimeSlot.t.
Variable days : list Day.t.

Definition timeSlotLabelsToIds : list (string * string) :=
  foldl (fun m slot =>
           Dict.set (toLowerCase (trim (TimeSlot.label slot))) (TimeSlot.id slot) m)
        [] TIME_SLOTS.


(** [Object.fromEntries(days.map(d => [d.name, new Set()]))] *)
Definition emptySlots : list (string * list string) :=
  foldl (fun o d => Dict.set (Day.name d) [] o) [] days.

(** One turn of the [days.forEach] of line 306 on the slots of [repData]. *)
Definition markDay (slotId : string) (row : list cell)
    (slots : list (string * list string)) (day : Day.t)
  : completion (list (string * list string)) :=
  if isExplicitlyUnavailable (cellAt row (Day.colIndex day)) then
    match Dict.get (Day.name day) slots with
    | Some ids => Return (Dict.set (Day.name day) (setAdd slotId ids) slots)
    | None => Throw TypeError          (* [.add] of [undefined] *)
    end
  else Return slots.

Fixpoint markDays (slotId : string) (row : list cell) (ds : list Day.t)
    (slots : list (string * list string)) : completion (list (string * list string)) :=
  match ds with
  | [] => Return slots
  | day :: rest =>
      slots' ← markDay slotId row slots day;
      markDays slotId row rest slots'
  end.

(** Lines 284-288: the name a slot row is about. *)
Definition resolveName (before : string) (currentRepContext : option string) : string :=
  let repName := trim (stripTrailingColon (trim before)) in
  match currentRepContext with
  | Some context =>
      if isEmpty repName && negb (isEmpty context) then context else repName
  | None => repName
  end.

(** The body of the loop over the data rows. *)
Definition rowStep (rowIndex : nat) (row : list cell) (st : ScanState)
  : completion ScanState :=
  let firstCol := firstColOf row in
  if isEmpty firstCol then Return (mkScan (repsMap st) None)
  else if isDivider firstCol then Return (mkScan (repsMap st) None)
  else
    match matchLabels timeSlotLabelsToIds firstCol with
    | Some (slotId, before) =>
        let repName := resolveName before (currentRepContext st) in
        if isEmpty repName then Return st
        else
          let reps :=
            if Dict.has repName (repsMap st) then repsMap st
            else Dict.set repName
                   (Draft.mk repName emptySlots (Z.of_nat rowIndex + 2))
                   (repsMap st) in
          match Dict.get repName reps with
          | Some repData =>
              slots ← markDays slotId row days (Draft.unavailableSlots repData);
              Return (mkScan
                        (Dict.set repName
                           (Draft.mk (Draft.name repData) slots
                              (Draft.firstRowIndex repData)) reps)
                        (Some repName))
          | None => Throw TypeError
          end
    | None => Return (mkScan (repsMap st) (Some (trim (stripTrailingColon firstCol))))
    end.

Fixpoint scanRows (rows : list (list cell)) (rowIndex : nat) (st : ScanState)
  : completion ScanState :=
  match rows with
  | [] => Return st
  | row :: rest =>
      st' ← rowStep rowIndex row st;
      scanRows rest (S rowIndex) st'
  end.

End GridParser.

(** ** The rep assembler and the query *)

Inductive Region : Type := PHX | NORTH | SOUTH | UNKNOWN.

Module Rep.
Record t : Type := mk {
  id : string;
  name : string;
  availability : string;
  unavailableSlots : list (string * list string);   (* day name -> slot ids *)
  skills : option (gmap string Z);                  (* [None]: [undefined] *)
  zipCodes : option (list string);
  region : Region;
  salesRank : option Z
}.
End Rep.

(** Lines 360-367. *)
Definition regionOf (firstRowIndex : Z) : Region :=
  if (2 <=? firstRowIndex) && (firstRowIndex <=? 118) then PHX
  else if (119 <=? firstRowIndex) && (firstRowIndex <=? 135) then NORTH
  else if (136 <=? firstRowIndex) && (firstRowIndex <=? 152) then SOUTH
  else UNKNOWN.

(** [name.replace(/\s+/g, '-')] on ASCII text; [inRun]: the previous
    character was whitespace. *)
Fixpoint dashify (s : string) (inRun : bool) : string :=
  match s with
  | EmptyString => EmptyString
  | String c s' =>
      if isSpace c then
        if inRun then dashify s' true else String "-" (dashify s' true)
      else String c (dashify s' false)
  end.

(** The result of a query: the reps built from the grid with the name of
    the sheet, or the mock data set ([MOCK_REPS_DATA] with [isMock] set, under
    the sheet name 'Mock Data'), which lives outside this service. *)
Inductive QueryResult : Type :=
| Reps (reps : list Rep.t) (sheetName : string)
| MockData.

(** The request targets of one query. *)
Record Network : Type := mkNetwork {
  skillsServer : nat -> outcome;
  ranksServer : nat -> outcome;
  metaServer : nat -> outcome;
  dataServer : string -> nat -> outcome   (* by sheet name *)
}.

Section Query.

Variable SHEET_TITLE_PREFIX : string.
Variable TIME_SLOTS : list TimeSlot.t.
Variable USE_MOCK_DATA_ON_FAILURE : bool.

(** Lines 338-346. *)
Definition availabilityOf (days : list Day.t) (repData : Draft.t) : string :=
  let availableDaysSummary :=
    omap (fun day =>
            let unavailableCount :=
              match Dict.get (Day.name day) (Draft.unavailableSlots repData) with
              | Some ids => length ids
              | None => 0%nat
              end in
            if (unavailableCount <? length TIME_SLOTS)%nat
            then Some (substring0 3 (Day.name day))
            else None) days in
  let joined := join ", " availableDaysSummary in
  if isEmpty joined then "Not available" else joined.

(** The callback of the [map] at line 337. *)
Definition toRep (days : list Day.t) (skillsMap : gmap string Skill.t)
    (rankingsMap : gmap string Z) (index : nat) (repData : Draft.t) : Rep.t :=
  let normalizedName := normalizeName (Draft.name repData) in
  let repInfo := skillsMap !! normalizedName in
  {| Rep.id := "rep-" +:+ pretty (index + 1)%nat +:+ "-"
               +:+ dashify (Draft.name repData) false;
     Rep.name := Draft.name repData;
     Rep.availability := availabilityOf days repData;
     Rep.unavailableSlots := Draft.unavailableSlots repData;
     Rep.skills := Skill.skills <$> repInfo;
     Rep.zipCodes := Skill.zipCodes <$> repInfo;
     Rep.region := regionOf (Draft.firstRowIndex repData);
     Rep.salesRank := rankingsMap !! normalizedName |}.

(** Steps 3 to 5 of [fetchSheetData] on a grid with a header and at least
    one data row. *)
Definition parseGrid (skillsMap : gmap string Skill.t) (rankingsMap : gmap string Z)
    (headerRow : list cell) (dataRows : list (list cell)) : completion (list Rep.t) :=
  let days := discoverDays headerRow in
  match days with
  | [] => Throw NoDayHeaders
  | _ :: _ =>
      st ← scanRows TIME_SLOTS days dataRows 0 (mkScan [] None);
      Return (imap (toRep days skillsMap rankingsMap) (snd <$> repsMap st))
  end.

(** What [fetchSheetData] returns in place of an empty rep list. *)
Definition orMock (reps : list Rep.t) (sheetName : string) : QueryResult :=
  match reps with
  | [] => if USE_MOCK_DATA_ON_FAILURE then MockData else Reps [] sheetName
  | _ :: _ => Reps reps sheetName
  end.

(** Step 2 onwards of the [try] block, once the sheet name is known. *)
Definition loadGrid (net : Network) (sheetName : string) : completion QueryResult :=
  dataResponse ← fetchDefault (dataServer net sheetName);
  if negb (ok dataResponse) then Throw (SheetDataFailed (status dataResponse))
  else
    match body dataResponse with
    | None => Throw SyntaxError
    | Some data =>
        match values data with
        | Some (headerRow :: ((_ :: _) as dataRows)) =>
            let skillsMap := fetchRepSkills (skillsServer net) in
            let rankingsMap := fetchSalesRankings (ranksServer net) in
            reps ← parseGrid skillsMap rankingsMap headerRow dataRows;
            Return (orMock reps sheetName)
        | _ => Return (orMock [] sheetName)
        end
    end.

(** The [try] block of [fetchSheetData]: its completion, and the time value
    held afterwards by the [Date] object the caller passed in. *)
Definition fetchSheetDataBody (net : Network) (date : Z) : completion QueryResult * Z :=
  match fetchDefault (metaServer net) with
  | Throw e => (Throw e, date)
  | Return metaResponse =>
      if negb (ok metaResponse) then (Throw (MetadataFailed (status metaResponse)), date)
      else
        match body metaResponse with
        | None => (Throw SyntaxError, date)
        | Some metaData =>
            match sheets metaData with
            | None => (Throw TypeError, setHours 0 0 0 0 date)
            | Some titles =>
                let '(foundSheetName, date', _) :=
                  findSheetNameForDate SHEET_TITLE_PREFIX date titles in
                match foundSheetName with
                | None => (Throw NoSheetFound, date')
                | Some sheetName =>
                    if isEmpty sheetName then (Throw NoSheetFound, date')
                    else (loadGrid net sheetName, date')
                end
            end
        end
  end.

(** [fetchSheetData(date)] with its [catch] block. *)
Definition fetchSheetData (net : Network) (date : Z) : completion QueryResult * Z :=
  let '(result, date') := fetchSheetDataBody net date in
  match result with
  | Return r => (Return r, date')
  | Throw error =>
      if USE_MOCK_DATA_ON_FAILURE then (Return MockData, date')
      else (Throw error, date')
  end.

End Query.

(** ** The selector and the query in a time zone

    [findSheetNameForDate] and [fetchSheetData] for a [Date] in the time
    zone [zone]. The functions of the same names above are these at
    [utcZone]. *)
Module Zoned.

Section InZone.

Variable zone : Zone.
Variable SHEET_TITLE_PREFIX : string.
Variable TIME_SLOTS : list TimeSlot.t.
Variable USE_MOCK_DATA_ON_FAILURE : bool.

Definition withinRange (dateToFind : Z) (range : Z * Z * Z * Z) (yearOffset : Z) : bool :=
  let '(startMonth, startDay, endMonth, endDay) := range in
  let searchYear := getFullYearIn zone dateToFind + yearOffset in
  let startYear := searchYear in
  let endYear := if startMonth >? endMonth then startYear + 1 else searchYear in
  let startDate := setHoursIn zone 0 0 0 0 (newDateIn zone startYear (startMonth - 1) startDay) in
  let endDate := setHoursIn zone 23 59 59 999 (newDateIn zone endYear (endMonth - 1) endDay) in
  (startDate <=? dateToFind) && (dateToFind <=? endDate).

Fixpoint scanSheets (dateToFind : Z) (sheets : list string) : option string :=
  match sheets with
  | [] => None
  | title :: rest =>
      if startsWith title SHEET_TITLE_PREFIX then
        match DateRangeRegex.search title with
        | Some range =>
            if existsb (withinRange dateToFind range) [0; -1; 1] then Some title
            else scanSheets dateToFind rest
        | None => scanSheets dateToFind rest
        end
      else scanSheets dateToFind rest
  end.

Definition findSheetNameForDate (dateToFind : Z) (sheets : list string)
  : option string * Z * list LogEntry :=
  let dateToFind := setHoursIn zone 0 0 0 0 dateToFind in
  match scanSheets dateToFind sheets with
  | Some title => (Some title, dateToFind, [])
  | None =>
      match List.find (fun title => startsWith title SHEET_TITLE_PREFIX) sheets with
      | Some fallbackSheet => (Some fallbackSheet, dateToFind, [WarnFallbackSheet fallbackSheet])
      | None => (None, dateToFind, [])
      end
  end.

Definition fetchSheetDataBody (net : Network) (date : Z) : completion QueryResult * Z :=
  match fetchDefault (metaServer net) with
  | Throw e => (Throw e, date)
  | Return metaResponse =>
      if negb (ok metaResponse) then (Throw (MetadataFailed (status metaResponse)), date)
      else
        match body metaResponse with
        | None => (Throw SyntaxError, date)
        | Some metaData =>
            match sheets metaData with
            | None => (Throw TypeError, setHoursIn zone 0 0 0 0 date)
            | Some titles =>
                let '(foundSheetName, date', _) := findSheetNameForDate date titles in
                match foundSheetName with
                | None => (Throw NoSheetFound, date')
                | Some sheetName =>
                    if isEmpty sheetName then (Throw NoSheetFound, date')
                    else (loadGrid TIME_SLOTS USE_MOCK_DATA_ON_FAILURE net sheetName, date')
                end
            end
        end
  end.

Definition fetchSheetData (net : Network) (date : Z) : completion QueryResult * Z :=
  let '(result, date') := fetchSheetDataBody net date in
  match result with
  | Return r => (Return r, date')
  | Throw error =>
      if USE_MOCK_DATA_ON_FAILURE then (Return MockData, date')
      else (Throw error, date')
  end.

End InZone.

End Zoned.

(** ** Notions used to state the properties *)

(** The range of a title for candidate year [Y]: the start bound is built
    with year [Y], the end bound with year [Y], or [Y + 1] when the start
    month is greater than the end month; start of day to end of day. *)
Definition startBound (Y : Z) (range : Z * Z * Z * Z) : Z :=
  let '(startMonth, startDay, _, _) := range in
  setHours 0 0 0 0 (newDate Y (startMonth - 1) startDay).

Definition endBound (Y : Z) (range : Z * Z * Z * Z) : Z :=
  let '(startMonth, _, endMonth, endDay) := range in
  setHours 23 59 59 999
    (newDate (if startMonth >? endMonth then Y + 1 else Y) (endMonth - 1) endDay).

(** [title] is a candidate whose range contains the start of the day of
    [target] for the year of [target], the year before or the year after. *)
Definition covers (prefix : string) (target : Z) (title : string) : Prop :=
  startsWith title prefix = true
  /\ exists range, DateRangeRegex.search title = Some range
     /\ exists Y, (Y = getFullYear target \/ Y = getFullYear target - 1
                   \/ Y = getFullYear target + 1)
        /\ startBound Y range <= setHours 0 0 0 0 target <= endBound Y range.

(** The test the loop of [findSheetNameForDate] applies to one title. *)
Definition titleMatches (prefix : string) (d : Z) (title : string) : bool :=
  startsWith title prefix
  && match DateRangeRegex.search title with
     | Some range => existsb (withinRange d range) [0; -1; 1]
     | None => false
     end.

(** A network whose metadata request is answered at once with the given
    sheet titles. *)
Definition metaOf (titles : list string) : Response :=
  {| status := 200; statusText := "OK";
     body := Some {| sheets := Some titles; values := None |} |}.

Definition gridOf (grid : list (list cell)) : Response :=
  {| status := 200; statusText := "OK";
     body := Some {| sheets := None; values := Some grid |} |}.

(** The slot ids recorded for a day name ([[]] when the key is absent). *)
Definition slotIds (dayName : string) (slots : list (string * list string)) : list string :=
  default [] (Dict.get dayName slots).

(** The slot ids recorded so far for a person and a day name. *)
Definition slotsOf (st : ScanState) (repName dayName : string) : list string :=
  match Dict.get repName (repsMap st) with
  | Some repData => slotIds dayName (Draft.unavailableSlots repData)
  | None => []
  end.

(** Every draft has the keys that [Object.fromEntries] gave it at creation:
    the invariant of the row scan. *)
Definition wellFormed (days : list Day.t) (st : ScanState) : Prop :=
  Forall (fun entry =>
            Dict.keys (Draft.unavailableSlots (snd entry)) = Dict.keys (emptySlots days))
         (repsMap st).


(** A request fails: the transport gives up, or the response handed back is
    not a 2xx response. *)
Definition retrievalFails (server : nat -> outcome) : Prop :=
  match fetchDefault server with
  | Throw _ => True
  | Return r => ok r = false
  end.

Definition withoutSkills (rep : Rep.t) : Rep.t :=
  {| Rep.id := Rep.id rep; Rep.name := Rep.name rep;
     Rep.availability := Rep.availability rep;
     Rep.unavailableSlots := Rep.unavailableSlots rep;
     Rep.skills := None; Rep.zipCodes := None;
     Rep.region := Rep.region rep; Rep.salesRank := Rep.salesRank rep |}.

Definition withoutRank (rep : Rep.t) : Rep.t :=
  {| Rep.id := Rep.id rep; Rep.name := Rep.name rep;
     Rep.availability := Rep.availability rep;
     Rep.unavailableSlots := Rep.unavailableSlots rep;
     Rep.skills := Rep.skills rep; Rep.zipCodes := Rep.zipCodes rep;
     Rep.region := Rep.region rep; Rep.salesRank := None |}.

(** The same result with [f] applied to every rep built from the grid. *)
Definition onResult (f : Rep.t -> Rep.t) (res : completion QueryResult)
  : completion QueryResult :=
  match res with
  | Return (Reps reps sheetName) => Return (Reps (f <$> reps) sheetName)
  | other => other
  end.

Definition onReps (f : Rep.t -> Rep.t) (c : completion QueryResult * Z)
  : completion QueryResult * Z :=
  (onResult f (fst c), snd c).

Definition withSkillsServer (net : Network) (server : nat -> outcome) : Network :=
  {| skillsServer := server; ranksServer := ranksServer net;
     metaServer := metaServer net; dataServer := dataServer net |}.

Definition withRanksServer (net : Network) (server : nat -> outcome) : Network :=
  {| skillsServer := skillsServer net; ranksServer := server;
     metaServer := metaServer net; dataServer := dataServer net |}.

(** ** Further notions *)

(** The sum of a list of delays. *)
Definition sumZ (l : list Z) : Z := foldr Z.add 0 l.

(** The characters a normalized name is made of: [a-z0-9]. *)
Definition isKeyChar (c : ascii) : bool := isLowerAZ c || isDigit c.

(** The concatenation of a list of strings. *)
Definition concatStrings (l : list string) : string := foldr String.append "" l.

Definition notZipSeparator (c : ascii) : bool := negb (isZipSeparator c).

(** The key under which a row of the ranking sheet is ranked, if it is:
    the row has a name and the name does not contain 'sales order'. *)
Definition rankedKey (row : list cell) : option string :=
  if truthy (cellAt row 0) then
    let name := jsString (cellAt row 0) in
    if includes (toLowerCase name) "sales order" then None
    else Some (normalizeName name)
  else None.

(** The key under which a row of the skills sheet is stored, if it is. *)
Definition skillKey (row : list cell) : option string :=
  match cellAt row 0 with
  | CStr repName => if isEmpty repName then None else Some (normalizeName repName)
  | _ => None
  end.

(** [row] is a slot row: its first column is neither empty nor an all-caps
    divider and ends in a configured label; [before] is the text before the
    label. *)
Definition slotRow (slots : list TimeSlot.t) (row : list cell) (slotId before : string) : Prop :=
  isEmpty (firstColOf row) = false
  /\ isDivider (firstColOf row) = false
  /\ matchLabels (timeSlotLabelsToIds slots) (firstColOf row) = Some (slotId, before).

(** A set of slot ids without repetition, all of them ids of the catalog. *)
Definition catalogIds (slots : list TimeSlot.t) (ids : list string) : Prop :=
  NoDup ids /\ forall s, In s ids -> exists slot, In slot slots /\ TimeSlot.id slot = s.

(** [later] extends [earlier]: same name and first row, at least the same
    unavailable slots. *)
Definition extendsDraft (earlier later : Draft.t) : Prop :=
  Draft.name later = Draft.name earlier
  /\ Draft.firstRowIndex later = Draft.firstRowIndex earlier
  /\ forall dayName s,
       In s (slotIds dayName (Draft.unavailableSlots earlier)) ->
       In s (slotIds dayName (Draft.unavailableSlots later)).

(** Every draft of [st1] is extended in [st2], and the drafts of [st2] start
    with those of [st1] in the same order. *)
Definition extendsState (st1 st2 : ScanState) : Prop :=
  (exists more, Dict.keys (repsMap st2) = Dict.keys (repsMap st1) ++ more)
  /\ forall name d1, Dict.get name (repsMap st1) = Some d1 ->
       exists d2, Dict.get name (repsMap st2) = Some d2 /\ extendsDraft d1 d2.

(** ** The single-cell lookup *)

(** The two errors [fetchSheetCell] throws. *)
Inductive CellError : Type :=
| SheetNameMissing                      (* line 409 *)
| CellUnavailable (cell : string).      (* line 427: the message names the cell *)

Inductive CellResult : Type :=
| CellValue (text : string)
| CellThrows (e : CellError).

(** [data.values?.[0]?.[0]] *)
Definition firstCell (data : Json) : cell :=
  match values data with
  | Some (row :: _) => cellAt row 0
  | _ => CNull
  end.

(** [fetchSheetCell(cell, sheetName)]; [server cell sheetName] answers the
    request for that cell of that sheet. Whatever is thrown inside the [try]
    block is replaced by the error of line 427. *)
Definition fetchSheetCell (server : string -> string -> nat -> outcome)
    (cell sheetName : string) : CellResult :=
  if isEmpty sheetName then CellThrows SheetNameMissing
  else
    match fetchDefault (server cell sheetName) with
    | Throw _ => CellThrows (CellUnavailable cell)
    | Return response =>
        if negb (ok response) then CellThrows (CellUnavailable cell)
        else
          match body response with
          | None => CellThrows (CellUnavailable cell)
          | Some data =>
              match firstCell data with
              | CNull => CellValue "(empty)"
              | CStr "" => CellValue "(empty)"
              | value => CellValue (jsString value)
              end
          end
    end.


(** A configured time slot is still free on [dayName]: its id is not in the
    day's list of unavailable slots. *)
Definition freeSlot (slots : list TimeSlot.t) (table : list (string * list string))
    (dayName : string) : bool :=
  existsb (fun slot => negb (existsb (String.eqb (TimeSlot.id slot)) (slotIds dayName table)))
    slots.

(** The days with a free slot, in column order. *)
Definition freeDays (slots : list TimeSlot.t) (table : list (string * list string))
    (days : list Day.t) : list Day.t :=
  List.filter (fun d => freeSlot slots table (Day.name d)) days.
(** * Properties *)

(** ** The resilient fetcher *)

Lemma sleeps_backoffTrace (k i : nat) (d : Z) :
  sleeps (backoffTrace k i d) = (fun j : nat => d * 2 ^ Z.of_nat j) <$> seq 0 k.
Proof.
  revert i d. induction k as [|k IH]; intros i d; [reflexivity|].
  cbn [backoffTrace]. unfold sleeps in *. cbn [omap list_omap].
  rewrite IH. cbn [seq fmap list_fmap]. f_equal; [cbn; lia|].
  rewrite <- seq_shift, <- list_fmap_compose.
  apply list_fmap_ext. intros _ j _. cbn [compose].
  rewrite Nat2Z.inj_succ, Z.pow_succ_r by lia. lia.
Qed.

Lemma attempts_backoffTrace (k i : nat) (d : Z) :
  attempts (backoffTrace k i d) = S k.
Proof.
  revert i d. induction k as [|k IH]; intros i d; [reflexivity|].
  cbn [backoffTrace]. unfold attempts in *. cbn [omap list_omap length].
  now rewrite IH.
Qed.

Lemma attemptsFrom_run server retries (k : nat) :
  forall (remaining i : nat) (d : Z),
    (k < remaining)%nat ->
    (forall j, (j < k)%nat ->
       retried (server (i + j)%nat) = true /\ Z.of_nat (i + j) < retries) ->
    (retried (server (i + k)%nat) = false \/ retries <= Z.of_nat (i + k)) ->
    attemptsFrom server retries remaining i d
    = (handed (server (i + k)%nat), backoffTrace k i d).
Proof.
  induction k as [|k IH]; intros remaining i d Hrem Hbefore Hlast.
  - destruct remaining as [|rest]; [lia|]. cbn [attemptsFrom backoffTrace].
    rewrite Nat.add_0_r in *.
    destruct (server i) as [r|cause]; cbn [retried handed] in *.
    + destruct (returnedAtOnce r); [reflexivity|].
      destruct Hlast as [Hlast|Hlast]; [discriminate|].
      destruct (Z.ltb_spec (Z.of_nat i) retries); [lia|reflexivity].
    + destruct Hlast as [Hlast|Hlast]; [discriminate|].
      destruct (Z.ltb_spec (Z.of_nat i) retries); [lia|reflexivity].
  - destruct remaining as [|rest]; [lia|]. cbn [attemptsFrom backoffTrace].
    destruct (Hbefore 0%nat ltac:(lia)) as [Hr Hlt].
    rewrite Nat.add_0_r in Hr, Hlt.
    assert (Hnext : attemptsFrom server retries rest (S i) (d * 2)
                    = (handed (server (i + S k)%nat), backoffTrace k (S i) (d * 2))).
    { replace (i + S k)%nat with (S i + k)%nat by lia.
      apply IH; [lia| |].
      - intros j Hj. replace (S i + j)%nat with (i + S j)%nat by lia.
        apply Hbefore. lia.
      - replace (S i + k)%nat with (i + S k)%nat by lia. exact Hlast. }
    destruct (server i) as [r|cause]; cbn [retried] in Hr.
    + destruct (returnedAtOnce r); [discriminate|].
      destruct (Z.ltb_spec (Z.of_nat i) retries); [|lia].
      now rewrite Hnext.
    + destruct (Z.ltb_spec (Z.of_nat i) retries); [|lia].
      now rewrite Hnext.
Qed.

(** Every run has a final attempt: the first one that is not retried, or
    attempt number [retries]. *)
Lemma final_attempt_exists server (retries : Z) :
  0 <= retries ->
  exists k : nat,
    Z.of_nat k <= retries
    /\ (forall i, (i < k)%nat -> retried (server i) = true)
    /\ (Z.of_nat k < retries -> retried (server k) = false).
Proof.
  intros Hret.
  assert (H : forall n : nat, Z.of_nat n <= retries ->
            (forall i, (i < n)%nat -> retried (server i) = true)
            \/ exists k, (k < n)%nat
                 /\ (forall i, (i < k)%nat -> retried (server i) = true)
                 /\ retried (server k) = false).
  { induction n as [|n IH]; intros Hn; [left; intros; lia|].
    destruct IH as [Hall|(k & Hk & Hb & Hl)]; [lia| |].
    - destruct (retried (server n)) eqn:E.
      + left. intros i Hi. destruct (decide (i = n)) as [->|]; [done|].
        apply Hall. lia.
      + right. exists n. repeat split; [lia|assumption|assumption].
    - right. exists k. repeat split; [lia|assumption|assumption]. }
  destruct (H (Z.to_nat retries) ltac:(lia)) as [Hall|(k & Hk & Hb & Hl)].
  - exists (Z.to_nat retries). repeat split; [lia|assumption|lia].
  - exists k. repeat split; [lia|assumption|auto].
Qed.

(** C4. Whatever the server answers, [fetchWithRetry] stops at the first
    attempt [k] that is not retried (a successful response or a status below
    500 other than 429) or at attempt number [retries]: attempts [0..k-1]
    were 5xx/429 responses or transport failures, [k + 1] calls of [fetch]
    were made, the sleeps between them are [d, 2d, 4d, ...] ([k] of them,
    none when [k = 0]), and the caller gets the response of attempt [k] as a
    value, or the transport failure of attempt [k] as a raised error. *)
Theorem fetchWithRetry_policy (server : nat -> outcome) (retries d : Z) (k : nat) :
  0 <= retries ->
  Z.of_nat k <= retries ->
  (forall i, (i < k)%nat -> retried (server i) = true) ->
  (Z.of_nat k < retries -> retried (server k) = false) ->
  fst (fetchWithRetry server retries d)
  = match server k with
    | Responds r => Return r
    | Rejects cause => Throw (TransportError cause)
    end
  /\ attempts (snd (fetchWithRetry server retries d)) = S k
  /\ sleeps (snd (fetchWithRetry server retries d))
     = (fun j : nat => d * 2 ^ Z.of_nat j) <$> seq 0 k
  /\ snd (fetchWithRetry server retries d) = backoffTrace k 0 d.
Proof.
  intros Hret Hk Hbefore Hlast.
  assert (Hrun : fetchWithRetry server retries d
                 = (handed (server k), backoffTrace k 0 d)).
  { unfold fetchWithRetry.
    apply (attemptsFrom_run server retries k (Z.to_nat (retries + 1)) 0%nat d).
    - lia.
    - intros j Hj. cbn [Nat.add]. split; [auto|lia].
    - cbn [Nat.add]. destruct (Z.ltb_spec (Z.of_nat k) retries); [left; auto|right; lia]. }
  rewrite Hrun. cbn [fst snd].
  rewrite attempts_backoffTrace, sleeps_backoffTrace.
  repeat split.
Qed.

Lemma fetchWithRetry_policy_witness :
  fst (fetchWithRetry flakyServer 3 1000) = Return (resp 200)
  /\ attempts (snd (fetchWithRetry flakyServer 3 1000)) = 3%nat
  /\ sleeps (snd (fetchWithRetry flakyServer 3 1000)) = [1000; 2000]
  /\ snd (fetchWithRetry flakyServer 3 1000) = backoffTrace 2 0 1000.
Proof.
  apply (fetchWithRetry_policy flakyServer 3 1000 2).
  - lia.
  - lia.
  - intros i Hi. destruct i as [|[|i]]; [reflexivity|reflexivity|lia].
  - intros _. reflexivity.
Defined.

(** With a negative [retries] the loop body never runs. *)
Example negative_retries :
  fetchWithRetry flakyServer (-1) 1000 = (Throw FetchFailedUnexpectedly, []).
Proof. reflexivity. Qed.

(** A 403 comes back from the first attempt, with no sleep. *)
Example forbidden_returned_at_once :
  fetchWithRetry (fun _ => Responds (resp 403)) 3 1000 = (Return (resp 403), [EvFetch 0]).
Proof. reflexivity. Qed.

(** Four 500s: three sleeps, and the last response is returned as a value. *)
Example server_errors_exhausted :
  fetchWithRetry (fun _ => Responds (resp 500)) 3 1000
  = (Return (resp 500),
     [EvFetch 0; EvSleep 1000; EvFetch 1; EvSleep 2000; EvFetch 2; EvSleep 4000; EvFetch 3]).
Proof. reflexivity. Qed.

(** Four rejections: three sleeps, and the failure is raised. *)
Example transport_failures_exhausted :
  fetchWithRetry (fun _ => Rejects "unreachable") 3 1000
  = (Throw (TransportError "unreachable"),
     [EvFetch 0; EvSleep 1000; EvFetch 1; EvSleep 2000; EvFetch 2; EvSleep 4000; EvFetch 3]).
Proof. reflexivity. Qed.

Example daysFromCivil_epoch : daysFromCivil 1970 1 1 = 0.
Proof. reflexivity. Qed.

Example civilFromDays_19724 : civilFromDays 19724 = (2024, 1, 2).
Proof. reflexivity. Qed.

Example newDate_rolls_over : newDate 2023 12 5 = newDate 2024 0 5.
Proof. reflexivity. Qed.

Example search_title :
  DateRangeRegex.search "Schedule 12/30 - 1/5" = Some (12, 30, 1, 5).
Proof. reflexivity. Qed.

Example search_title_tight :
  DateRangeRegex.search "Week 112/3-04/051" = Some (12, 3, 4, 5).
Proof. reflexivity. Qed.

(** A no-break space (U+00A0, two bytes in UTF-8) on either side of the dash
    is part of the range, as any other character of the class [\s] is: the
    second title holds 2024-01-10. *)
Example selection_past_no_break_spaces :
  let nbsp := String "194" (String "160" "") in
  let second := "Schedule 1/8" +:+ nbsp +:+ "-" +:+ nbsp +:+ "1/14" in
  DateRangeRegex.search second = Some (1, 8, 1, 14)
  /\ findSheetNameForDate "Schedule" (newDate 2024 0 10 + 3600000)
       ["Schedule 1/1 - 1/7"; second]
     = (Some second, newDate 2024 0 10, []).
Proof. split; vm_compute; reflexivity. Qed.

(** ** The region bands *)

(** C8. The region of an assembled rep is a function of the draft's
    [firstRowIndex] alone; the three bands are the inclusive index ranges
    2..118, 119..135 and 136..152, which no index shares, every other index
    is UNKNOWN, and rows 10, 125 and 200 give PHX, NORTH and UNKNOWN. *)
Theorem region_from_first_row :
  (forall slots days skillsMap rankingsMap index repData,
      Rep.region (toRep slots days skillsMap rankingsMap index repData)
      = regionOf (Draft.firstRowIndex repData))
  /\ (forall i, regionOf i = PHX <-> 2 <= i <= 118)
  /\ (forall i, regionOf i = NORTH <-> 119 <= i <= 135)
  /\ (forall i, regionOf i = SOUTH <-> 136 <= i <= 152)
  /\ (forall i, regionOf i = UNKNOWN <-> i < 2 \/ 152 < i)
  /\ regionOf 10 = PHX /\ regionOf 125 = NORTH /\ regionOf 200 = UNKNOWN.
Proof.
  assert (Hcases : forall i,
    (2 <= i <= 118 /\ regionOf i = PHX) \/ (119 <= i <= 135 /\ regionOf i = NORTH)
    \/ (136 <= i <= 152 /\ regionOf i = SOUTH)
    \/ ((i < 2 \/ 152 < i) /\ regionOf i = UNKNOWN)).
  { intros i. unfold regionOf.
    destruct (Z.leb_spec 2 i), (Z.leb_spec i 118), (Z.leb_spec 119 i),
      (Z.leb_spec i 135), (Z.leb_spec 136 i), (Z.leb_spec i 152); cbn;
      first [ exfalso; lia
            | left; split; [lia|reflexivity]
            | right; left; split; [lia|reflexivity]
            | right; right; left; split; [lia|reflexivity]
            | right; right; right; split; [lia|reflexivity] ]. }
  split; [reflexivity|].
  repeat match goal with
         | |- _ /\ _ => split
         | |- forall _, _ <-> _ => intros i; split
         end; try reflexivity; intros Hi;
    destruct (Hcases i) as [[? E]|[[? E]|[[? E]|[? E]]]];
    try lia; try assumption; try (exfalso; lia); rewrite E in Hi; discriminate.
Qed.

(** ** The caller's date *)

Lemma setHours_midnight t : setHours 0 0 0 0 t = t / msPerDay * msPerDay.
Proof. unfold setHours. lia. Qed.

Lemma day_of_midnight t : setHours 0 0 0 0 t / msPerDay = t / msPerDay.
Proof. rewrite setHours_midnight. apply Z.div_mul. discriminate. Qed.

Lemma time_of_midnight t : setHours 0 0 0 0 t mod msPerDay = 0.
Proof. rewrite setHours_midnight. apply Z.mod_mul. discriminate. Qed.

Lemma findSheetNameForDate_date prefix date titles :
  snd (fst (findSheetNameForDate prefix date titles)) = setHours 0 0 0 0 date.
Proof.
  unfold findSheetNameForDate.
  destruct (scanSheets _ _ _); [reflexivity|]. now destruct (List.find _ _).
Qed.

Lemma fetchSheetData_date prefix slots mock net date :
  snd (fetchSheetData prefix slots mock net date)
  = snd (fetchSheetDataBody prefix slots mock net date).
Proof.
  unfold fetchSheetData.
  destruct (fetchSheetDataBody _ _ _ _ _) as [[r|e] d]; [reflexivity|].
  now destruct mock.
Qed.

Lemma fetchSheetDataBody_date prefix slots mock net date r md :
  fetchDefault (metaServer net) = Return r -> ok r = true -> body r = Some md ->
  snd (fetchSheetDataBody prefix slots mock net date) = setHours 0 0 0 0 date.
Proof.
  intros Hr Hok Hbody. unfold fetchSheetDataBody. rewrite Hr, Hok, Hbody. cbn [negb].
  destruct (sheets md) as [titles|]; [|reflexivity].
  pose proof (findSheetNameForDate_date prefix date titles) as Hd.
  destruct (findSheetNameForDate prefix date titles) as [[found d'] lg].
  cbn [fst snd] in Hd. subst d'.
  destruct found as [name|]; [|reflexivity]. now destruct (isEmpty name).
Qed.

(** When the metadata request fails, the selector is never called and the
    caller's [Date] object is left as it was. *)
Lemma fetchSheetData_date_untouched prefix slots mock net date :
  match fetchDefault (metaServer net) with
  | Return r => ok r = false \/ body r = None
  | Throw _ => True
  end ->
  snd (fetchSheetData prefix slots mock net date) = date.
Proof.
  rewrite fetchSheetData_date. unfold fetchSheetDataBody.
  destruct (fetchDefault (metaServer net)) as [r|e]; [|reflexivity].
  intros [-> | Hb]; [reflexivity|]. rewrite Hb. now destruct (ok r).
Qed.

(** *** In a time zone *)

Lemma zoned_at_utc prefix slots mock net date :
  Zoned.fetchSheetData utcZone prefix slots mock net date
  = fetchSheetData prefix slots mock net date.
Proof. reflexivity. Qed.

Lemma zoned_selector_at_utc prefix date titles :
  Zoned.findSheetNameForDate utcZone prefix date titles
  = findSheetNameForDate prefix date titles.
Proof. reflexivity. Qed.

Lemma zoned_findSheetNameForDate_date zone prefix date titles :
  snd (fst (Zoned.findSheetNameForDate zone prefix date titles))
  = setHoursIn zone 0 0 0 0 date.
Proof.
  unfold Zoned.findSheetNameForDate.
  destruct (Zoned.scanSheets _ _ _ _); [reflexivity|]. now destruct (List.find _ _).
Qed.

Lemma zoned_fetchSheetData_date zone prefix slots mock net date :
  snd (Zoned.fetchSheetData zone prefix slots mock net date)
  = snd (Zoned.fetchSheetDataBody zone prefix slots mock net date).
Proof.
  unfold Zoned.fetchSheetData.
  destruct (Zoned.fetchSheetDataBody _ _ _ _ _ _) as [[r|e] d]; [reflexivity|].
  now destruct mock.
Qed.

Lemma zoned_fetchSheetDataBody_date zone prefix slots mock net date r md :
  fetchDefault (metaServer net) = Return r -> ok r = true -> body r = Some md ->
  snd (Zoned.fetchSheetDataBody zone prefix slots mock net date)
  = setHoursIn zone 0 0 0 0 date.
Proof.
  intros Hr Hok Hbody. unfold Zoned.fetchSheetDataBody. rewrite Hr, Hok, Hbody. cbn [negb].
  destruct (sheets md) as [titles|]; [|reflexivity].
  pose proof (zoned_findSheetNameForDate_date zone prefix date titles) as Hd.
  destruct (Zoned.findSheetNameForDate zone prefix date titles) as [[found d'] lg].
  cbn [fst snd] in Hd. subst d'.
  destruct found as [name|]; [|reflexivity]. now destruct (isEmpty name).
Qed.

Lemma zoned_fetchSheetData_date_untouched zone prefix slots mock net date :
  match fetchDefault (metaServer net) with
  | Return r => ok r = false \/ body r = None
  | Throw _ => True
  end ->
  snd (Zoned.fetchSheetData zone prefix slots mock net date) = date.
Proof.
  rewrite zoned_fetchSheetData_date. unfold Zoned.fetchSheetDataBody.
  destruct (fetchDefault (metaServer net)) as [r|e]; [|reflexivity].
  intros [-> | Hb]; [reflexivity|]. rewrite Hb. now destruct (ok r).
Qed.

Lemma midnightExists_fixedZone (offset t : Z) : midnightExists (fixedZone offset) t.
Proof. unfold midnightExists. cbn [fixedZone localOf utcOf]. lia. Qed.

(** C10 (as amended). In any time zone, when the metadata request of
    [fetchSheetData] is answered with a 2xx response whose body parses, the
    [Date] object the caller passed in holds, after the call, the time value
    [setHours(0, 0, 0, 0)] gives it, which is what [findSheetNameForDate]
    left in it. When 00:00:00.000 of the local day of the date is a local
    time of the zone, as it is in every zone with a constant offset, the
    hours, minutes, seconds and milliseconds of the object are then 0, its
    year, month and day are those it had, and the object has changed unless
    it was at the start of its day before. When the metadata request fails
    the object is left as it was. *)
Theorem fetchSheetData_resets_time_of_day
    (zone : Zone) (prefix : string) (slots : list TimeSlot.t) (mock : bool) (net : Network)
    (date : Z) (r : Response) (md : Json) :
  fetchDefault (metaServer net) = Return r -> ok r = true -> body r = Some md ->
  let date' := snd (Zoned.fetchSheetData zone prefix slots mock net date) in
  date' = setHoursIn zone 0 0 0 0 date
  /\ (forall titles, snd (fst (Zoned.findSheetNameForDate zone prefix date titles)) = date')
  /\ (midnightExists zone date ->
      getHoursIn zone date' = 0 /\ getMinutesIn zone date' = 0
      /\ getSecondsIn zone date' = 0 /\ getMillisecondsIn zone date' = 0
      /\ getFullYearIn zone date' = getFullYearIn zone date
      /\ getMonthIn zone date' = getMonthIn zone date
      /\ getDateIn zone date' = getDateIn zone date
      /\ (localOf zone date mod msPerDay <> 0 -> date' <> date))
  /\ (forall offset, zone = fixedZone offset -> midnightExists zone date)
  /\ (forall net0,
        match fetchDefault (metaServer net0) with
        | Return r0 => ok r0 = false \/ body r0 = None
        | Throw _ => True
        end ->
        snd (Zoned.fetchSheetData zone prefix slots mock net0 date) = date).
Proof.
  intros Hr Hok Hbody date'.
  assert (Hd : date' = setHoursIn zone 0 0 0 0 date).
  { unfold date'. rewrite zoned_fetchSheetData_date.
    now apply (zoned_fetchSheetDataBody_date zone prefix slots mock net date r md). }
  split; [exact Hd|]. rewrite Hd.
  split; [intros titles; apply zoned_findSheetNameForDate_date|].
  split; [|split].
  - intros Hmid. unfold midnightExists in Hmid.
    unfold getHoursIn, getMinutesIn, getSecondsIn, getMillisecondsIn, getFullYearIn,
      getMonthIn, getDateIn, setHoursIn.
    rewrite Hmid.
    unfold getHours, getMinutes, getSeconds, getMilliseconds, getFullYear, getMonth, getDate.
    rewrite time_of_midnight, day_of_midnight.
    repeat split. intros Hne Heq. apply Hne.
    rewrite <- Heq at 1. unfold setHoursIn. rewrite Hmid. apply time_of_midnight.
  - intros offset ->. apply midnightExists_fixedZone.
  - intros net0. apply zoned_fetchSheetData_date_untouched.
Qed.

(** C10 as the specification words it fails here. A query whose metadata
    request is answered 404 leaves the caller's object at 09:30; and in a
    zone that moves its clocks forward at local midnight of 2018-11-04 (from
    three to two hours behind universal time) a query on the afternoon of
    that day leaves the object at 01:00 of the same day, the hour that
    follows the one skipped. *)
Lemma fetchSheetData_resets_time_of_day_counterexample :
  let zone := fixedZone (-25200000) in
  let date := newDate 2024 0 2 + 59400000 in
  let net := {| skillsServer := fun _ => Rejects "offline";
                ranksServer := fun _ => Rejects "offline";
                metaServer := fun _ => Responds (resp 404);
                dataServer := fun _ _ => Rejects "offline" |} in
  let date' := snd (Zoned.fetchSheetData zone "Schedule" [] false net date) in
  let transition := newDate 2018 10 4 + 10800000 in
  let zone2 := springForward transition (-10800000) (-7200000) in
  let date2 := newDate 2018 10 4 + 54000000 in
  let net2 := {| skillsServer := fun _ => Rejects "offline";
                 ranksServer := fun _ => Rejects "offline";
                 metaServer := fun _ => Responds (metaOf ["Schedule 11/4 - 11/10"]);
                 dataServer := fun _ _ => Rejects "offline" |} in
  let date2' := snd (Zoned.fetchSheetData zone2 "Schedule" [] false net2 date2) in
  (date' = date /\ getHoursIn zone date' = 9 /\ getMinutesIn zone date' = 30)
  /\ (getHoursIn zone2 date2 = 13 /\ getDateIn zone2 date2 = 4
      /\ getHoursIn zone2 date2' = 1 /\ getMinutesIn zone2 date2' = 0
      /\ getDateIn zone2 date2' = 4 /\ getMonthIn zone2 date2' = 10
      /\ getFullYearIn zone2 date2' = 2018).
Proof. vm_compute. repeat split. Qed.

Lemma fetchSheetData_resets_time_of_day_witness :
  let zone := fixedZone (-25200000) in
  let date := newDate 2024 0 2 + 59400000 in
  let net := {| skillsServer := fun _ => Rejects "offline";
                ranksServer := fun _ => Rejects "offline";
                metaServer := fun _ => Responds (metaOf ["Schedule 12/30 - 1/5"]);
                dataServer := fun _ _ => Rejects "offline" |} in
  let date' := snd (Zoned.fetchSheetData zone "Schedule" [] false net date) in
  date' = setHoursIn zone 0 0 0 0 date
  /\ (forall titles, snd (fst (Zoned.findSheetNameForDate zone "Schedule" date titles)) = date')
  /\ (midnightExists zone date ->
      getHoursIn zone date' = 0 /\ getMinutesIn zone date' = 0
      /\ getSecondsIn zone date' = 0 /\ getMillisecondsIn zone date' = 0
      /\ getFullYearIn zone date' = getFullYearIn zone date
      /\ getMonthIn zone date' = getMonthIn zone date
      /\ getDateIn zone date' = getDateIn zone date
      /\ (localOf zone date mod msPerDay <> 0 -> date' <> date))
  /\ (forall offset, zone = fixedZone offset -> midnightExists zone date)
  /\ (forall net0,
        match fetchDefault (metaServer net0) with
        | Return r0 => ok r0 = false \/ body r0 = None
        | Throw _ => True
        end ->
        snd (Zoned.fetchSheetData zone "Schedule" [] false net0 date) = date).
Proof.
  intros zone date net.
  apply (fetchSheetData_resets_time_of_day zone "Schedule" [] false net date
           (metaOf ["Schedule 12/30 - 1/5"])
           {| sheets := Some ["Schedule 12/30 - 1/5"]; values := None |});
    reflexivity.
Defined.

(** ** The sheet selector *)

Lemma scanSheets_find prefix d titles :
  scanSheets prefix d titles = List.find (titleMatches prefix d) titles.
Proof.
  induction titles as [|title rest IH]; [reflexivity|].
  cbn [scanSheets List.find]. unfold titleMatches at 1.
  destruct (startsWith title prefix); cbn [andb]; [|exact IH].
  destruct (DateRangeRegex.search title) as [range|]; [|exact IH].
  now destruct (existsb _ _).
Qed.

Lemma withinRange_bounds d range off :
  withinRange d range off = true
  <-> startBound (getFullYear d + off) range <= d <= endBound (getFullYear d + off) range.
Proof.
  destruct range as [[[sm sd] em] ed]. unfold withinRange, startBound, endBound.
  rewrite andb_true_iff, !Z.leb_le.
  destruct (sm >? em); reflexivity.
Qed.

Lemma getFullYear_midnight t : getFullYear (setHours 0 0 0 0 t) = getFullYear t.
Proof. unfold getFullYear. now rewrite day_of_midnight. Qed.

Lemma titleMatches_covers prefix target title :
  titleMatches prefix (setHours 0 0 0 0 target) title = true <-> covers prefix target title.
Proof.
  unfold titleMatches, covers. rewrite andb_true_iff.
  split.
  - intros [Hp Hm]. split; [exact Hp|].
    destruct (DateRangeRegex.search title) as [range|]; [|discriminate].
    exists range. split; [reflexivity|].
    cbn [existsb] in Hm. rewrite !orb_true_iff, !withinRange_bounds in Hm.
    rewrite getFullYear_midnight in Hm.
    destruct Hm as [Hm|[Hm|[Hm|Hm]]]; [| | |discriminate].
    + exists (getFullYear target + 0). split; [lia|exact Hm].
    + exists (getFullYear target + -1). split; [lia|exact Hm].
    + exists (getFullYear target + 1). split; [lia|exact Hm].
  - intros [Hp (range & Hs & Y & HY & Hb)]. split; [exact Hp|].
    rewrite Hs. cbn [existsb]. rewrite !orb_true_iff, !withinRange_bounds.
    rewrite getFullYear_midnight.
    destruct HY as [-> | [-> | ->] ].
    + left. now rewrite Z.add_0_r.
    + right; left. exact Hb.
    + right; right; left. exact Hb.
Qed.

Lemma find_first {A} (p : A -> bool) (before : list A) (x : A) (after : list A) :
  p x = true -> (forall y, In y before -> p y = false) ->
  List.find p (before ++ x :: after) = Some x.
Proof.
  intros Hx Hb. induction before as [|y before IH]; cbn [app List.find].
  - now rewrite Hx.
  - rewrite (Hb y) by now left. apply IH. intros z Hz. apply Hb. now right.
Qed.

Lemma find_nowhere {A} (p : A -> bool) (l : list A) :
  (forall y, In y l -> p y = false) -> List.find p l = None.
Proof.
  intros Hl. induction l as [|y l IH]; [reflexivity|]. cbn [List.find].
  rewrite (Hl y) by now left. apply IH. intros z Hz. apply Hl. now right.
Qed.

Lemma not_true_false (b : bool) : b <> true -> b = false.
Proof. now destruct b. Qed.

Lemma midnight_of_day (D tod : Z) :
  0 <= tod < msPerDay -> setHours 0 0 0 0 (D * msPerDay + tod) = D * msPerDay.
Proof.
  intros Htod. rewrite setHours_midnight. f_equal.
  rewrite Z.add_comm, Z.div_add by discriminate.
  rewrite Z.div_small by exact Htod. reflexivity.
Qed.

(** C3. [findSheetNameForDate] returns the first title of the list that
    starts with the prefix and whose range contains the start of the target
    day for the target's year, the year before or the year after (the end
    bound taking the following year when the start month is greater than the
    end month), without a warning; when no title does, it returns the first
    title with the prefix and logs a warning; when no title has the prefix it
    returns nothing, and the query body then throws: the query raises that
    error when the mock fallback is off and returns the mock data set when it
    is on. For the two titles of the year turn and any time of 2024-01-02,
    the first title is returned. *)
Theorem sheet_selection (prefix : string) (target : Z) (titles : list string) :
  let found := fst (fst (findSheetNameForDate prefix target titles)) in
  let logged := snd (findSheetNameForDate prefix target titles) in
  (forall before title after,
      titles = before ++ title :: after ->
      covers prefix target title ->
      (forall t, In t before -> ~ covers prefix target t) ->
      found = Some title /\ logged = [])
  /\ ((forall t, In t titles -> ~ covers prefix target t) ->
      forall before title after,
        titles = before ++ title :: after ->
        startsWith title prefix = true ->
        (forall t, In t before -> startsWith t prefix = false) ->
        found = Some title /\ logged = [WarnFallbackSheet title])
  /\ ((forall t, In t titles -> startsWith t prefix = false) ->
      found = None
      /\ forall slots mock net r md,
          fetchDefault (metaServer net) = Return r -> ok r = true ->
          body r = Some md -> sheets md = Some titles ->
          fst (fetchSheetDataBody prefix slots mock net target) = Throw NoSheetFound
          /\ (mock = false ->
              fst (fetchSheetData prefix slots mock net target) = Throw NoSheetFound)
          /\ (mock = true ->
              fst (fetchSheetData prefix slots mock net target) = Return MockData))
  /\ (startsWith "Schedule 12/30 - 1/5" prefix = true ->
      forall tod, 0 <= tod < msPerDay ->
        fst (fst (findSheetNameForDate prefix (newDate 2024 0 2 + tod)
                    ["Schedule 12/30 - 1/5"; "Schedule 1/6 - 1/12"]))
        = Some "Schedule 12/30 - 1/5").
Proof.
  intros found logged.
  assert (Hnone : (forall t, In t titles -> ~ covers prefix target t) ->
                  scanSheets prefix (setHours 0 0 0 0 target) titles = None).
  { intros Hno. rewrite scanSheets_find. apply find_nowhere. intros t Ht.
    apply not_true_false. rewrite titleMatches_covers. now apply Hno. }
  repeat match goal with |- _ /\ _ => split end.
  - intros before title after -> Hc Hb. unfold found, logged, findSheetNameForDate.
    rewrite scanSheets_find, find_first; [split; reflexivity| |].
    + now apply titleMatches_covers.
    + intros t Ht. apply not_true_false. rewrite titleMatches_covers. now apply Hb.
  - intros Hno before title after Heq Hp Hb. unfold found, logged, findSheetNameForDate.
    rewrite (Hnone Hno). rewrite Heq, find_first by assumption. split; reflexivity.
  - intros Hno.
    assert (Hcov : forall t, In t titles -> ~ covers prefix target t).
    { intros t Ht [Hp _]. rewrite (Hno t Ht) in Hp. discriminate. }
    assert (Hfind : findSheetNameForDate prefix target titles
                    = (None, setHours 0 0 0 0 target, [])).
    { unfold findSheetNameForDate. rewrite (Hnone Hcov), find_nowhere by assumption.
      reflexivity. }
    split; [unfold found; now rewrite Hfind|].
    intros slots mock net r md Hr Hok Hbody Hsheets.
    assert (Hb : fetchSheetDataBody prefix slots mock net target
                 = (Throw NoSheetFound, setHours 0 0 0 0 target)).
    { unfold fetchSheetDataBody. rewrite Hr, Hok, Hbody, Hsheets, Hfind. reflexivity. }
    split; [now rewrite Hb|].
    split; intros ->; unfold fetchSheetData; now rewrite Hb.
  - intros Hp tod Htod. unfold findSheetNameForDate.
    change (newDate 2024 0 2) with (19724 * msPerDay).
    rewrite (midnight_of_day 19724 tod Htod).
    cbn [scanSheets]. rewrite Hp.
    change (DateRangeRegex.search "Schedule 12/30 - 1/5") with (Some (12, 30, 1, 5)).
    replace (existsb (withinRange (19724 * msPerDay) (12, 30, 1, 5)) [0; -1; 1])
      with true by (vm_compute; reflexivity).
    reflexivity.
Qed.

Lemma sheet_selection_witness :
  let target := newDate 2024 0 2 + 34200000 in
  let titles := ["Schedule 12/30 - 1/5"; "Schedule 1/6 - 1/12"] in
  covers "Schedule" target "Schedule 12/30 - 1/5"
  /\ fst (fst (findSheetNameForDate "Schedule" target titles)) = Some "Schedule 12/30 - 1/5"
  /\ snd (findSheetNameForDate "Schedule" target titles) = [].
Proof.
  intros target titles.
  assert (Hc : covers "Schedule" target "Schedule 12/30 - 1/5").
  { split; [reflexivity|]. exists (12, 30, 1, 5). split; [reflexivity|].
    exists 2023. split; [right; left; reflexivity|].
    split; vm_compute; discriminate. }
  split; [exact Hc|].
  apply (proj1 (sheet_selection "Schedule" target titles)
           [] "Schedule 12/30 - 1/5" ["Schedule 1/6 - 1/12"]).
  - reflexivity.
  - exact Hc.
  - intros t [].
Defined.

(** ** The skill loader *)









(** ** The grid parser: dividers *)

Example capital_slot_row_matches_label :
  matchLabels (timeSlotLabelsToIds [TimeSlot.mk "slot-1" "10am - 12pm"])
    "SMITH 10AM - 12PM" = Some ("slot-1", "SMITH ").
Proof. reflexivity. Qed.



(** ** Insertion-ordered dictionaries *)

Lemma get_set_eq {V} (k : string) (v : V) (m : list (string * V)) :
  Dict.get k (Dict.set k v m) = Some v.
Proof.
  induction m as [|[k' v'] m IH]; cbn [Dict.set Dict.get].
  - now rewrite String.eqb_refl.
  - destruct (String.eqb k' k) eqn:E; cbn [Dict.get]; now rewrite E.
Qed.

Lemma get_set_ne {V} (k k0 : string) (v : V) (m : list (string * V)) :
  k0 <> k -> Dict.get k0 (Dict.set k v m) = Dict.get k0 m.
Proof.
  intros Hne. induction m as [|[k' v'] m IH]; cbn [Dict.set Dict.get].
  - destruct (String.eqb_spec k k0); [congruence|reflexivity].
  - destruct (String.eqb_spec k' k) as [->|Hk]; cbn [Dict.get].
    + destruct (String.eqb_spec k k0); [congruence|reflexivity].
    + now rewrite IH.
Qed.

Lemma get_in_keys {V} (k : string) (m : list (string * V)) :
  In k (Dict.keys m) <-> exists v, Dict.get k m = Some v.
Proof.
  induction m as [|[k' v'] m IH]; cbn.
  - split; [intros []|intros [v Hv]; discriminate].
  - destruct (String.eqb_spec k' k) as [->|Hk].
    + split; [intros _; now exists v'|now left].
    + rewrite IH. split; [intros [Heq|H]; [congruence|exact H]|now right].
Qed.

Lemma keys_set_present {V} (k : string) (v : V) (m : list (string * V)) :
  In k (Dict.keys m) -> Dict.keys (Dict.set k v m) = Dict.keys m.
Proof.
  induction m as [|[k' v'] m IH]; cbn; [intros []|].
  intros Hin. destruct (String.eqb_spec k' k) as [->|Hk]; [reflexivity|].
  cbn. f_equal. apply IH. destruct Hin as [Heq|Hin]; [congruence|exact Hin].
Qed.

Lemma keys_set_absent {V} (k : string) (v : V) (m : list (string * V)) :
  ~ In k (Dict.keys m) -> Dict.keys (Dict.set k v m) = Dict.keys m ++ [k].
Proof.
  induction m as [|[k' v'] m IH]; cbn; [reflexivity|].
  intros Hin. destruct (String.eqb_spec k' k) as [->|Hk]; [tauto|].
  cbn. f_equal. apply IH. tauto.
Qed.

Lemma in_keys_set {V} (k k0 : string) (v : V) (m : list (string * V)) :
  In k0 (Dict.keys (Dict.set k v m)) <-> k0 = k \/ In k0 (Dict.keys m).
Proof.
  rewrite !get_in_keys. destruct (String.eqb_spec k0 k) as [->|Hne].
  - rewrite get_set_eq. split; [now left|intros _; now exists v].
  - rewrite get_set_ne by exact Hne. rewrite <- get_in_keys. tauto.
Qed.

(** Replacing the value of a key in every pair that carries it. *)
Lemma forall_set {V} (P : string * V -> Prop) (k : string) (v : V) (m : list (string * V)) :
  Forall P m -> (forall k', P (k', v)) -> Forall P (Dict.set k v m).
Proof.
  intros Hm Hv. induction Hm as [|[k' v'] m Hx Hm IH]; cbn [Dict.set].
  - constructor; [apply Hv|constructor].
  - destruct (String.eqb k' k); constructor; auto.
Qed.

Lemma in_setAdd (x s : string) (l : list string) :
  In s (setAdd x l) <-> In s l \/ s = x.
Proof.
  unfold setAdd. destruct (existsb (String.eqb x) l) eqn:E.
  - split; [now left|]. intros [H| ->]; [exact H|].
    apply existsb_exists in E as (y & Hy & Heq). apply String.eqb_eq in Heq. now subst.
  - rewrite in_app_iff. cbn. intuition.
Qed.

(** ** The grid parser: the object a draft starts with *)

Lemma in_keys_emptySlots_from (days : list Day.t) (acc : list (string * list string)) (k : string) :
  In k (Dict.keys (foldl (fun o d => Dict.set (Day.name d) [] o) acc days))
  <-> In k (Dict.keys acc) \/ exists d, In d days /\ Day.name d = k.
Proof.
  revert acc. induction days as [|d days IH]; intros acc; cbn [foldl].
  - split; [now left|]. intros [H|(d & [] & _)]. exact H.
  - rewrite IH, in_keys_set. split.
    + intros [[->|H]|(d' & Hd' & Hn)].
      * right. exists d. split; [now left|reflexivity].
      * now left.
      * right. exists d'. split; [now right|exact Hn].
    + intros [H|(d' & [->|Hd'] & Hn)].
      * left. now right.
      * left. left. now symmetry.
      * right. exists d'. now split.
Qed.

Lemma in_keys_emptySlots (days : list Day.t) (k : string) :
  In k (Dict.keys (emptySlots days)) <-> exists d, In d days /\ Day.name d = k.
Proof.
  unfold emptySlots. rewrite in_keys_emptySlots_from. cbn. tauto.
Qed.

Lemma emptySlots_from_empty (days : list Day.t) (acc : list (string * list string)) :
  Forall (fun e => snd e = []) acc ->
  Forall (fun e => snd e = [])
         (foldl (fun o d => Dict.set (Day.name d) ([] : list string) o) acc days).
Proof.
  revert acc. induction days as [|d days IH]; intros acc Hacc; cbn [foldl]; [exact Hacc|].
  apply IH. apply forall_set; [exact Hacc|reflexivity].
Qed.

Lemma slotIds_emptySlots (days : list Day.t) (dayName : string) :
  slotIds dayName (emptySlots days) = [].
Proof.
  unfold slotIds. pose proof (emptySlots_from_empty days [] (List.Forall_nil _)) as Hall.
  fold (emptySlots days) in Hall.
  induction (emptySlots days) as [|[k v] m IH]; [reflexivity|].
  cbn [Dict.get]. inversion Hall as [|e m' Hv Hm]; subst. cbn in Hv. subst v.
  destruct (String.eqb k dayName); [reflexivity|]. now apply IH.
Qed.

(** ** The grid parser: marking the days of a slot row *)

Lemma markDay_spec (slotId : string) (row : list cell)
    (slots : list (string * list string)) (day : Day.t) :
  In (Day.name day) (Dict.keys slots) ->
  exists slots',
    markDay slotId row slots day = Return slots'
    /\ Dict.keys slots' = Dict.keys slots
    /\ forall dayName s,
         In s (slotIds dayName slots')
         <-> In s (slotIds dayName slots)
             \/ (s = slotId /\ Day.name day = dayName
                 /\ isExplicitlyUnavailable (cellAt row (Day.colIndex day)) = true).
Proof.
  intros Hkey. unfold markDay.
  destruct (isExplicitlyUnavailable (cellAt row (Day.colIndex day))) eqn:Hmark.
  - destruct (proj1 (get_in_keys _ _) Hkey) as [ids Hids]. rewrite Hids.
    eexists. split; [reflexivity|]. split; [now apply keys_set_present|].
    intros dayName s. unfold slotIds.
    destruct (String.eqb_spec dayName (Day.name day)) as [->|Hne].
    + rewrite get_set_eq, Hids. cbn. rewrite in_setAdd. intuition.
    + rewrite get_set_ne by exact Hne. split; [now left|].
      intros [H|(_ & Heq & _)]; [exact H|congruence].
  - exists slots. split; [reflexivity|]. split; [reflexivity|].
    intros dayName s. split; [now left|]. intros [H|(_ & _ & Hf)]; [exact H|discriminate].
Qed.

Lemma markDays_spec (slotId : string) (row : list cell) (ds : list Day.t) :
  forall slots : list (string * list string),
    (forall d, In d ds -> In (Day.name d) (Dict.keys slots)) ->
    exists slots',
      markDays slotId row ds slots = Return slots'
      /\ Dict.keys slots' = Dict.keys slots
      /\ forall dayName s,
           In s (slotIds dayName slots')
           <-> In s (slotIds dayName slots)
               \/ (s = slotId
                   /\ exists d, In d ds /\ Day.name d = dayName
                        /\ isExplicitlyUnavailable (cellAt row (Day.colIndex d)) = true).
Proof.
  induction ds as [|day ds IH]; intros slots Hkeys.
  - exists slots. split; [reflexivity|]. split; [reflexivity|].
    intros dayName s. split; [now left|]. intros [H|(_ & d & [] & _)]. exact H.
  - destruct (markDay_spec slotId row slots day) as (slots1 & Hrun1 & Hk1 & Hin1).
    { apply Hkeys. now left. }
    destruct (IH slots1) as (slots' & Hrun & Hk & Hin).
    { intros d Hd. rewrite Hk1. apply Hkeys. now right. }
    exists slots'. split; [|split].
    + cbn [markDays]. rewrite Hrun1. exact Hrun.
    + congruence.
    + intros dayName s. rewrite Hin, Hin1. split.
      * intros [[H|(Hs & Hn & Hm)]|(Hs & d & Hd & Hn & Hm)].
        -- now left.
        -- right. split; [exact Hs|]. exists day. split; [now left|now split].
        -- right. split; [exact Hs|]. exists d. split; [now right|now split].
      * intros [H|(Hs & d & [->|Hd] & Hn & Hm)].
        -- left. now left.
        -- left. right. now repeat split.
        -- right. split; [exact Hs|]. exists d. now repeat split.
Qed.

(** ** The grid parser: one slot row *)

Lemma wellFormed_get (days : list Day.t) (st : ScanState) (n : string) (rd : Draft.t) :
  wellFormed days st -> Dict.get n (repsMap st) = Some rd ->
  Dict.keys (Draft.unavailableSlots rd) = Dict.keys (emptySlots days).
Proof.
  unfold wellFormed. intros Hwf. induction Hwf as [|[k d] m Hx Hm IH]; [discriminate|].
  cbn [Dict.get]. destruct (String.eqb k n); [|exact IH].
  intros Hget. injection Hget as <-. exact Hx.
Qed.

(** What [rowStep] does with a row that reaches the label loop, matches a
    label and resolves to a name. *)
Lemma rowStep_slot_row (slots : list TimeSlot.t) (days : list Day.t) (rowIndex : nat)
    (row : list cell) (st : ScanState) (slotId before : string) :
  wellFormed days st ->
  isEmpty (firstColOf row) = false ->
  isDivider (firstColOf row) = false ->
  matchLabels (timeSlotLabelsToIds slots) (firstColOf row) = Some (slotId, before) ->
  isEmpty (resolveName before (currentRepContext st)) = false ->
  let repName := resolveName before (currentRepContext st) in
  exists st',
    rowStep slots days rowIndex row st = Return st'
    /\ currentRepContext st' = Some repName
    /\ wellFormed days st'
    /\ (exists repData, Dict.get repName (repsMap st') = Some repData
          /\ Draft.name repData
             = match Dict.get repName (repsMap st) with
               | Some old => Draft.name old
               | None => repName
               end
          /\ Draft.firstRowIndex repData
             = match Dict.get repName (repsMap st) with
               | Some old => Draft.firstRowIndex old
               | None => Z.of_nat rowIndex + 2
               end)
    /\ (forall n, n <> repName -> Dict.get n (repsMap st') = Dict.get n (repsMap st))
    /\ forall dayName s,
         In s (slotsOf st' repName dayName)
         <-> In s (slotsOf st repName dayName)
             \/ (s = slotId
                 /\ exists d, In d days /\ Day.name d = dayName
                      /\ isExplicitlyUnavailable (cellAt row (Day.colIndex d)) = true).
Proof.
  intros Hwf Hne Hdiv Hmatch Hname repName.
  unfold rowStep. rewrite Hne, Hdiv, Hmatch.
  change (resolveName before (currentRepContext st)) with repName in Hname |- *.
  rewrite Hname.
  set (fresh := Draft.mk repName (emptySlots days) (Z.of_nat rowIndex + 2)).
  set (reps := if Dict.has repName (repsMap st) then repsMap st
               else Dict.set repName fresh (repsMap st)).
  assert (Hreps : exists repData,
             Dict.get repName reps = Some repData
             /\ Dict.keys (Draft.unavailableSlots repData) = Dict.keys (emptySlots days)
             /\ repData = match Dict.get repName (repsMap st) with
                          | Some old => old
                          | None => fresh
                          end
             /\ Forall (fun entry => Dict.keys (Draft.unavailableSlots (snd entry))
                                     = Dict.keys (emptySlots days)) reps
             /\ forall n, n <> repName -> Dict.get n reps = Dict.get n (repsMap st)).
  { unfold reps, Dict.has. destruct (Dict.get repName (repsMap st)) as [old|] eqn:Hold.
    - exists old. repeat split; try assumption.
      now apply (wellFormed_get days st repName).
    - exists fresh. split; [apply get_set_eq|]. split; [reflexivity|]. split; [reflexivity|].
      split; [now apply forall_set|]. intros n Hn. now apply get_set_ne. }
  destruct Hreps as (repData & Hget & Hkeys & Hdata & Hall & Hother).
  rewrite Hget.
  destruct (markDays_spec slotId row days (Draft.unavailableSlots repData))
    as (slots' & Hrun & Hk & Hin).
  { intros d Hd. rewrite Hkeys. apply in_keys_emptySlots. now exists d. }
  rewrite Hrun. cbn [mbind completion_bind].
  eexists. split; [reflexivity|]. cbn [currentRepContext repsMap].
  split; [reflexivity|]. split; [|split; [|split]].
  - unfold wellFormed. cbn [repsMap]. apply forall_set; [exact Hall|].
    intros k'. cbn [snd Draft.unavailableSlots]. congruence.
  - eexists. split; [apply get_set_eq|]. cbn [Draft.name Draft.firstRowIndex].
    rewrite Hdata. now destruct (Dict.get repName (repsMap st)).
  - intros n Hn. rewrite get_set_ne by exact Hn. now apply Hother.
  - intros dayName s. unfold slotsOf. cbn [repsMap]. rewrite get_set_eq.
    cbn [Draft.unavailableSlots]. rewrite Hin.
    assert (Hold : slotIds dayName (Draft.unavailableSlots repData)
                   = match Dict.get repName (repsMap st) with
                     | Some old => slotIds dayName (Draft.unavailableSlots old)
                     | None => []
                     end).
    { rewrite Hdata. destruct (Dict.get repName (repsMap st)); [reflexivity|].
      apply slotIds_emptySlots. }
    now rewrite Hold.
Qed.


Lemma matchLabels_spec (entries : list (string * string)) (s slotId before : string) :
  matchLabels entries s = Some (slotId, before) ->
  exists earlier label later,
    entries = earlier ++ (label, slotId) :: later
    /\ beforeMatch (labelPattern label) s = Some before
    /\ Forall (fun e => beforeMatch (labelPattern (fst e)) s = None) earlier.
Proof.
  induction entries as [|[label id] entries IH]; [discriminate|].
  cbn [matchLabels]. destruct (beforeMatch (labelPattern label) s) as [b|] eqn:E.
  - intros Heq. injection Heq as -> ->. exists [], label, entries.
    repeat split; [exact E|constructor].
  - intros Hm. destruct (IH Hm) as (earlier & l & later & -> & Hb & Hall).
    exists ((label, id) :: earlier), l, later. repeat split; [exact Hb|].
    constructor; [exact E|exact Hall].
Qed.



(** ** The grid parser: names of slot rows *)




(** ** The grid parser: cells of a slot row *)





(** ** The grid parser: the scan keeps every draft complete *)

Lemma rowStep_wellFormed (slots : list TimeSlot.t) (days : list Day.t) (rowIndex : nat)
    (row : list cell) (st : ScanState) :
  wellFormed days st ->
  exists st', rowStep slots days rowIndex row st = Return st' /\ wellFormed days st'.
Proof.
  intros Hwf.
  destruct (isEmpty (firstColOf row)) eqn:Hne.
  { unfold rowStep. rewrite Hne. eexists. split; [reflexivity|exact Hwf]. }
  destruct (isDivider (firstColOf row)) eqn:Hdiv.
  { unfold rowStep. rewrite Hne, Hdiv. eexists. split; [reflexivity|exact Hwf]. }
  destruct (matchLabels (timeSlotLabelsToIds slots) (firstColOf row))
    as [[slotId before]|] eqn:Hmatch.
  - destruct (isEmpty (resolveName before (currentRepContext st))) eqn:Hname.
    + unfold rowStep. rewrite Hne, Hdiv, Hmatch, Hname. now exists st.
    + destruct (rowStep_slot_row slots days rowIndex row st slotId before
                  Hwf Hne Hdiv Hmatch Hname) as (st' & Hrun & _ & Hwf' & _).
      now exists st'.
  - unfold rowStep. rewrite Hne, Hdiv, Hmatch. eexists. split; [reflexivity|exact Hwf].
Qed.

Lemma scanRows_wellFormed (slots : list TimeSlot.t) (days : list Day.t)
    (rows : list (list cell)) :
  forall (rowIndex : nat) (st : ScanState),
    wellFormed days st ->
    exists st', scanRows slots days rows rowIndex st = Return st' /\ wellFormed days st'.
Proof.
  induction rows as [|row rows IH]; intros rowIndex st Hwf.
  - now exists st.
  - destruct (rowStep_wellFormed slots days rowIndex row st Hwf) as (st1 & Hrun & Hwf1).
    destruct (IH (S rowIndex) st1 Hwf1) as (st' & Hscan & Hwf').
    exists st'. split; [|exact Hwf']. cbn [scanRows]. rewrite Hrun. exact Hscan.
Qed.

(** The grid parser returns a rep list for every grid with a day column. *)
Lemma parseGrid_returns (slots : list TimeSlot.t) skillsMap rankingsMap
    (headerRow : list cell) (dataRows : list (list cell)) :
  discoverDays headerRow <> [] ->
  exists st,
    scanRows slots (discoverDays headerRow) dataRows 0 (mkScan [] None) = Return st
    /\ wellFormed (discoverDays headerRow) st
    /\ parseGrid slots skillsMap rankingsMap headerRow dataRows
       = Return (imap (toRep slots (discoverDays headerRow) skillsMap rankingsMap)
                   (snd <$> repsMap st)).
Proof.
  intros Hdays.
  destruct (scanRows_wellFormed slots (discoverDays headerRow) dataRows 0 (mkScan [] None))
    as (st & Hscan & Hwf); [constructor|].
  exists st. split; [exact Hscan|]. split; [exact Hwf|].
  unfold parseGrid. destruct (discoverDays headerRow) as [|d ds]; [congruence|].
  now rewrite Hscan.
Qed.

Lemma parseGrid_keys (slots : list TimeSlot.t) skillsMap rankingsMap
    (headerRow : list cell) (dataRows : list (list cell)) (reps : list Rep.t) (rep : Rep.t) :
  parseGrid slots skillsMap rankingsMap headerRow dataRows = Return reps ->
  In rep reps ->
  Dict.keys (Rep.unavailableSlots rep) = Dict.keys (emptySlots (discoverDays headerRow)).
Proof.
  intros Hparse Hrep.
  destruct (discoverDays headerRow) as [|d ds] eqn:Hdays.
  { unfold parseGrid in Hparse. rewrite Hdays in Hparse. discriminate. }
  destruct (parseGrid_returns slots skillsMap rankingsMap headerRow dataRows)
    as (st & _ & Hwf & Hret); [congruence|].
  rewrite Hret in Hparse. injection Hparse as <-. rewrite Hdays in *.
  apply list_elem_of_In, elem_of_lookup_imap in Hrep as (i & repData & -> & Hlook).
  cbn [toRep Rep.unavailableSlots].
  apply list_lookup_fmap_Some in Hlook as (entry & -> & Hentry).
  unfold wellFormed in Hwf. rewrite List.Forall_forall in Hwf.
  apply Hwf. apply list_elem_of_In. eapply list_elem_of_lookup_2. exact Hentry.
Qed.

(** ** The query *)

Lemma loadGrid_reps (slots : list TimeSlot.t) (mock : bool) (net : Network)
    (sheetName sn : string) (reps : list Rep.t) :
  loadGrid slots mock net sheetName = Return (Reps reps sn) ->
  sn = sheetName
  /\ (reps = []
      \/ exists r data headerRow dataRows,
           fetchDefault (dataServer net sheetName) = Return r
           /\ body r = Some data
           /\ values data = Some (headerRow :: dataRows)
           /\ parseGrid slots (fetchRepSkills (skillsServer net))
                (fetchSalesRankings (ranksServer net)) headerRow dataRows = Return reps).
Proof.
  unfold loadGrid. destruct (fetchDefault (dataServer net sheetName)) as [r|e] eqn:Hr;
    cbn [mbind completion_bind]; [|discriminate].
  destruct (ok r); cbn [negb]; [|discriminate].
  destruct (body r) as [data|] eqn:Hbody; [|discriminate].
  assert (Hor : forall l, Return (orMock mock l sheetName) = Return (Reps reps sn) ->
                  sn = sheetName /\ l = reps).
  { intros l Hl. unfold orMock in Hl. destruct l; [destruct mock|]; now inversion Hl. }
  destruct (values data) as [[|headerRow [|row rows]]|] eqn:Hvalues;
    try (intros Hl; apply Hor in Hl as [-> <-]; split; [reflexivity|now left]).
  destruct (parseGrid _ _ _ headerRow (row :: rows)) as [l|e] eqn:Hparse;
    cbn [mbind completion_bind]; [|discriminate].
  intros Hl. apply Hor in Hl as [-> ->]. split; [reflexivity|right].
  exists r, data, headerRow, (row :: rows). now repeat split.
Qed.

Lemma fetchSheetData_reps (prefix : string) (slots : list TimeSlot.t) (mock : bool)
    (net : Network) (date : Z) (reps : list Rep.t) (sn : string) :
  fst (fetchSheetData prefix slots mock net date) = Return (Reps reps sn) ->
  loadGrid slots mock net sn = Return (Reps reps sn).
Proof.
  unfold fetchSheetData.
  destruct (fetchSheetDataBody prefix slots mock net date) as [[res|e] d'] eqn:Hbody;
    [|destruct mock; discriminate].
  cbn [fst]. intros Hres. injection Hres as ->.
  unfold fetchSheetDataBody in Hbody.
  destruct (fetchDefault (metaServer net)) as [r|e]; [|discriminate].
  destruct (ok r); cbn [negb] in Hbody; [|discriminate].
  destruct (body r) as [md|]; [|discriminate].
  destruct (sheets md) as [titles|]; [|discriminate].
  destruct (findSheetNameForDate prefix date titles) as [[[sheetName|] d1] lg];
    [|discriminate].
  destruct (isEmpty sheetName); [discriminate|].
  injection Hbody as Hload _.
  destruct (loadGrid_reps slots mock net sheetName sn reps Hload) as [-> _].
  exact Hload.
Qed.

(** C7. Every rep of a query that returns reps built from the grid has one
    entry in [unavailableSlots] for each day column discovered in the header
    row of the grid that was retrieved for the selected sheet, and no other
    key. *)
Theorem unavailableSlots_keys_are_days (prefix : string) (slots : list TimeSlot.t)
    (mock : bool) (net : Network) (date : Z)
    (reps : list Rep.t) (sheetName : string) (rep : Rep.t) :
  fst (fetchSheetData prefix slots mock net date) = Return (Reps reps sheetName) ->
  In rep reps ->
  exists r data headerRow dataRows,
    fetchDefault (dataServer net sheetName) = Return r
    /\ body r = Some data
    /\ values data = Some (headerRow :: dataRows)
    /\ forall k,
         In k (Dict.keys (Rep.unavailableSlots rep))
         <-> exists d, In d (discoverDays headerRow) /\ Day.name d = k.
Proof.
  intros Hres Hrep. apply fetchSheetData_reps in Hres.
  destruct (loadGrid_reps slots mock net sheetName sheetName reps Hres)
    as [_ [->|(r & data & headerRow & dataRows & Hr & Hbody & Hvalues & Hparse)]];
    [destruct Hrep|].
  exists r, data, headerRow, dataRows. repeat split; try assumption.
  - intros Hk. apply in_keys_emptySlots.
    now rewrite <- (parseGrid_keys _ _ _ _ _ _ _ Hparse Hrep).
  - intros Hk. rewrite (parseGrid_keys _ _ _ _ _ _ _ Hparse Hrep).
    now apply in_keys_emptySlots.
Qed.

Lemma unavailableSlots_keys_are_days_witness :
  let slots := [TimeSlot.mk "slot-1" "10am - 12pm"] in
  let grid := [[CStr "Name"; CStr "Monday 12/30"; CStr "Tuesday 12/31"];
               [CStr "Sam Lee 10am - 12pm"; CStr ""; CStr "booked"]] in
  let net := {| skillsServer := fun _ => Rejects "offline";
                ranksServer := fun _ => Responds (resp 503);
                metaServer := fun _ => Responds (metaOf ["Schedule 12/30 - 1/5"]);
                dataServer := fun _ _ => Responds (gridOf grid) |} in
  let rep := {| Rep.id := "rep-1-Sam-Lee"; Rep.name := "Sam Lee";
                Rep.availability := "Mon";
                Rep.unavailableSlots := [("Monday", []); ("Tuesday", ["slot-1"])];
                Rep.skills := None; Rep.zipCodes := None;
                Rep.region := PHX; Rep.salesRank := None |} in
  exists r data headerRow dataRows,
    fetchDefault (dataServer net "Schedule 12/30 - 1/5") = Return r
    /\ body r = Some data
    /\ values data = Some (headerRow :: dataRows)
    /\ forall k,
         In k (Dict.keys (Rep.unavailableSlots rep))
         <-> exists d, In d (discoverDays headerRow) /\ Day.name d = k.
Proof.
  intros slots grid net rep.
  apply (unavailableSlots_keys_are_days "Schedule" slots false net (newDate 2024 0 2)
           [rep] "Schedule 12/30 - 1/5" rep).
  - vm_compute. reflexivity.
  - now left.
Defined.

(** ** Failure of the auxiliary requests *)

Lemma fetchRepSkills_fails (server : nat -> outcome) :
  retrievalFails server -> fetchRepSkills server = ∅.
Proof.
  unfold retrievalFails, fetchRepSkills.
  destruct (fetchDefault server) as [r|e]; [|reflexivity]. now intros ->.
Qed.

Lemma fetchSalesRankings_fails (server : nat -> outcome) :
  retrievalFails server -> fetchSalesRankings server = ∅.
Proof.
  unfold retrievalFails, fetchSalesRankings.
  destruct (fetchDefault server) as [r|e]; [|reflexivity]. now intros ->.
Qed.

Section Degradation.

Variable slots : list TimeSlot.t.
Variable mock : bool.

(** [f] is what becomes of a rep when the side tables [sk], [rk] are
    replaced by [sk0], [rk0]. *)
Variables (f : Rep.t -> Rep.t) (sk sk0 : gmap string Skill.t) (rk rk0 : gmap string Z).
Hypothesis toRep_f : forall days index repData,
  toRep slots days sk0 rk0 index repData = f (toRep slots days sk rk index repData).

Lemma parseGrid_side_tables (headerRow : list cell) (dataRows : list (list cell)) :
  parseGrid slots sk0 rk0 headerRow dataRows
  = match parseGrid slots sk rk headerRow dataRows with
    | Return reps => Return (f <$> reps)
    | Throw e => Throw e
    end.
Proof.
  unfold parseGrid. destruct (discoverDays headerRow) as [|d ds]; [reflexivity|].
  destruct (scanRows slots (d :: ds) dataRows 0 (mkScan [] None)) as [st|e];
    cbn [mbind completion_bind]; [|reflexivity].
  f_equal. rewrite fmap_imap. apply imap_ext. intros i x _. apply toRep_f.
Qed.

Lemma orMock_fmap (reps : list Rep.t) (sheetName : string) :
  Return (orMock mock (f <$> reps) sheetName)
  = onResult f (Return (orMock mock reps sheetName)).
Proof. destruct reps; [now destruct mock|reflexivity]. Qed.

Lemma loadGrid_side_tables (net net0 : Network) (sheetName : string) :
  dataServer net0 = dataServer net ->
  fetchRepSkills (skillsServer net) = sk -> fetchSalesRankings (ranksServer net) = rk ->
  fetchRepSkills (skillsServer net0) = sk0 -> fetchSalesRankings (ranksServer net0) = rk0 ->
  loadGrid slots mock net0 sheetName = onResult f (loadGrid slots mock net sheetName).
Proof.
  intros Hdata Hsk Hrk Hsk0 Hrk0. unfold loadGrid. rewrite Hdata, Hsk, Hrk, Hsk0, Hrk0.
  destruct (fetchDefault (dataServer net sheetName)) as [r|e];
    cbn [mbind completion_bind]; [|reflexivity].
  destruct (ok r); cbn [negb]; [|reflexivity].
  destruct (body r) as [data|]; [|reflexivity].
  destruct (values data) as [[|headerRow [|row rows]]|];
    try (now rewrite <- (orMock_fmap [] sheetName)).
  rewrite parseGrid_side_tables.
  destruct (parseGrid slots sk rk headerRow (row :: rows)) as [reps|e];
    cbn [mbind completion_bind]; [|reflexivity].
  apply orMock_fmap.
Qed.

Lemma fetchSheetData_side_tables (prefix : string) (net net0 : Network) (date : Z) :
  metaServer net0 = metaServer net -> dataServer net0 = dataServer net ->
  fetchRepSkills (skillsServer net) = sk -> fetchSalesRankings (ranksServer net) = rk ->
  fetchRepSkills (skillsServer net0) = sk0 -> fetchSalesRankings (ranksServer net0) = rk0 ->
  fetchSheetData prefix slots mock net0 date
  = onReps f (fetchSheetData prefix slots mock net date).
Proof.
  intros Hmeta Hdata Hsk Hrk Hsk0 Hrk0.
  assert (Hbody : fetchSheetDataBody prefix slots mock net0 date
                  = onReps f (fetchSheetDataBody prefix slots mock net date)).
  { unfold fetchSheetDataBody. rewrite Hmeta.
    destruct (fetchDefault (metaServer net)) as [r|e]; [|reflexivity].
    destruct (ok r); cbn [negb]; [|reflexivity].
    destruct (body r) as [md|]; [|reflexivity].
    destruct (sheets md) as [titles|]; [|reflexivity].
    destruct (findSheetNameForDate prefix date titles) as [[[sheetName|] d1] lg];
      [|reflexivity].
    destruct (isEmpty sheetName); [reflexivity|].
    unfold onReps. cbn [fst snd]. f_equal. now apply loadGrid_side_tables. }
  unfold fetchSheetData. rewrite Hbody.
  destruct (fetchSheetDataBody prefix slots mock net date) as [[[reps sn|]|e] d'];
    unfold onReps; cbn [fst snd onResult]; try reflexivity.
  now destruct mock.
Qed.

End Degradation.

Lemma toRep_without_skills slots sk rk days index repData :
  toRep slots days ∅ rk index repData = withoutSkills (toRep slots days sk rk index repData).
Proof. unfold toRep, withoutSkills. cbn. now rewrite lookup_empty. Qed.

Lemma toRep_without_rank slots sk rk days index repData :
  toRep slots days sk ∅ index repData = withoutRank (toRep slots days sk rk index repData).
Proof. unfold toRep, withoutRank. cbn. now rewrite lookup_empty. Qed.

(** C6. When the skills request fails (a response that is not 2xx, or a
    transport failure), [fetchRepSkills] returns the empty map, and
    [fetchSheetData] returns what it would return for any other answer to
    the skills request with [skills] and [zipCodes] undefined on every rep:
    the same completion, the same reps in the same order. The same holds
    for the ranking request and [salesRank]. *)
Theorem auxiliary_failure_degrades (prefix : string) (slots : list TimeSlot.t)
    (mock : bool) (net : Network) (date : Z) :
  (retrievalFails (skillsServer net) ->
     fetchRepSkills (skillsServer net) = ∅
     /\ (forall server',
           fetchSheetData prefix slots mock net date
           = onReps withoutSkills
               (fetchSheetData prefix slots mock (withSkillsServer net server') date))
     /\ (forall reps sheetName rep,
           fst (fetchSheetData prefix slots mock net date) = Return (Reps reps sheetName) ->
           In rep reps -> Rep.skills rep = None /\ Rep.zipCodes rep = None))
  /\ (retrievalFails (ranksServer net) ->
     fetchSalesRankings (ranksServer net) = ∅
     /\ (forall server',
           fetchSheetData prefix slots mock net date
           = onReps withoutRank
               (fetchSheetData prefix slots mock (withRanksServer net server') date))
     /\ (forall reps sheetName rep,
           fst (fetchSheetData prefix slots mock net date) = Return (Reps reps sheetName) ->
           In rep reps -> Rep.salesRank rep = None)).
Proof.
  split.
  - intros Hfail. pose proof (fetchRepSkills_fails _ Hfail) as Hempty.
    assert (Heq : forall server',
              fetchSheetData prefix slots mock net date
              = onReps withoutSkills
                  (fetchSheetData prefix slots mock (withSkillsServer net server') date)).
    { intros server'.
      apply (fetchSheetData_side_tables slots mock withoutSkills
               (fetchRepSkills server') ∅
               (fetchSalesRankings (ranksServer net)) (fetchSalesRankings (ranksServer net)));
        first [ reflexivity | exact Hempty | intros; apply toRep_without_skills ]. }
    split; [exact Hempty|]. split; [exact Heq|].
    intros reps sheetName rep Hres Hrep.
    rewrite (Heq (skillsServer net)) in Hres. unfold onReps in Hres. cbn [fst] in Hres.
    destruct (fst (fetchSheetData prefix slots mock (withSkillsServer net (skillsServer net)) date))
      as [[reps' sn'|]|e]; cbn [onResult] in Hres; try discriminate.
    injection Hres as <- <-.
    apply list_elem_of_In, list_elem_of_fmap in Hrep as (rep' & -> & _).
    split; reflexivity.
  - intros Hfail. pose proof (fetchSalesRankings_fails _ Hfail) as Hempty.
    assert (Heq : forall server',
              fetchSheetData prefix slots mock net date
              = onReps withoutRank
                  (fetchSheetData prefix slots mock (withRanksServer net server') date)).
    { intros server'.
      apply (fetchSheetData_side_tables slots mock withoutRank
               (fetchRepSkills (skillsServer net)) (fetchRepSkills (skillsServer net))
               (fetchSalesRankings server') ∅);
        first [ reflexivity | exact Hempty | intros; apply toRep_without_rank ]. }
    split; [exact Hempty|]. split; [exact Heq|].
    intros reps sheetName rep Hres Hrep.
    rewrite (Heq (ranksServer net)) in Hres. unfold onReps in Hres. cbn [fst] in Hres.
    destruct (fst (fetchSheetData prefix slots mock (withRanksServer net (ranksServer net)) date))
      as [[reps' sn'|]|e]; cbn [onResult] in Hres; try discriminate.
    injection Hres as <- <-.
    apply list_elem_of_In, list_elem_of_fmap in Hrep as (rep' & -> & _).
    reflexivity.
Qed.

Lemma auxiliary_failure_degrades_witness :
  let slots := [TimeSlot.mk "slot-1" "10am - 12pm"] in
  let grid := [[CStr "Name"; CStr "Monday 12/30"];
               [CStr "Sam Lee"]; [CStr "10am - 12pm"; CStr "FALSE"]] in
  let net := {| skillsServer := fun _ => Responds (resp 403);
                ranksServer := fun _ => Rejects "offline";
                metaServer := fun _ => Responds (metaOf ["Schedule 12/30 - 1/5"]);
                dataServer := fun _ _ => Responds (gridOf grid) |} in
  let rep := {| Rep.id := "rep-1-Sam-Lee"; Rep.name := "Sam Lee";
                Rep.availability := "Not available";
                Rep.unavailableSlots := [("Monday", ["slot-1"])];
                Rep.skills := None; Rep.zipCodes := None;
                Rep.region := PHX; Rep.salesRank := None |} in
  fst (fetchSheetData "Schedule" slots false net (newDate 2024 0 2))
  = Return (Reps [rep] "Schedule 12/30 - 1/5")
  /\ fetchRepSkills (skillsServer net) = ∅
  /\ fetchSalesRankings (ranksServer net) = ∅
  /\ Rep.skills rep = None /\ Rep.zipCodes rep = None /\ Rep.salesRank rep = None.
Proof.
  intros slots grid net rep.
  assert (Hres : fst (fetchSheetData "Schedule" slots false net (newDate 2024 0 2))
                 = Return (Reps [rep] "Schedule 12/30 - 1/5")) by (vm_compute; reflexivity).
  destruct (auxiliary_failure_degrades "Schedule" slots false net (newDate 2024 0 2))
    as [Hskills Hranks].
  destruct Hskills as (Hs1 & _ & Hs3); [vm_compute; reflexivity|].
  destruct Hranks as (Hr1 & _ & Hr3); [vm_compute; exact I|].
  destruct (Hs3 [rep] "Schedule 12/30 - 1/5" rep Hres (or_introl eq_refl)) as [Hsk Hzip].
  pose proof (Hr3 [rep] "Schedule 12/30 - 1/5" rep Hres (or_introl eq_refl)) as Hrank.
  repeat split; assumption.
Defined.

(** With both side requests answered, the same grid comes back with the
    skills, zip codes and rank joined by normalized name. *)
Example side_tables_are_joined :
  let slots := [TimeSlot.mk "slot-1" "10am - 12pm"] in
  let grid := [[CStr "Name"; CStr "Monday 12/30"];
               [CStr "Sam Lee"]; [CStr "10am - 12pm"; CStr "FALSE"]] in
  let skillSheet := [[CStr "Rep"; CStr "Tile"; CStr "Zip Codes"];
                     [CStr "SAM LEE "; CStr "3"; CStr "85001, 85002"]] in
  let rankSheet := [[CStr "Ann Poe"]; [CStr "sam lee"]] in
  let net := {| skillsServer := fun _ => Responds (gridOf skillSheet);
                ranksServer := fun _ => Responds (gridOf rankSheet);
                metaServer := fun _ => Responds (metaOf ["Schedule 12/30 - 1/5"]);
                dataServer := fun _ _ => Responds (gridOf grid) |} in
  match fst (fetchSheetData "Schedule" slots false net (newDate 2024 0 2)) with
  | Return (Reps [rep] _) =>
      (Rep.skills rep ≫= fun m => m !! "Tile") = Some 3
      /\ Rep.zipCodes rep = Some ["85001"; "85002"]
      /\ Rep.salesRank rep = Some 2
  | _ => False
  end.
Proof. vm_compute. repeat split. Qed.

(** ** The scan on small grids *)

Example normalized_names_meet :
  normalizeName "O'Brien, Jr. " = normalizeName "obrien jr".
Proof. reflexivity. Qed.

(** A label-only row after a bare name belongs to that name. *)
Example label_row_after_bare_name :
  scanRows [TimeSlot.mk "slot-1" "10am - 12pm"] [Day.mk "Monday" 1]
    [[CStr "Jane Doe"]; [CStr "10am - 12pm"; CStr "FALSE"]] 0 (mkScan [] None)
  = Return (mkScan [("Jane Doe", Draft.mk "Jane Doe" [("Monday", ["slot-1"])] 3)]
              (Some "Jane Doe")).
Proof. reflexivity. Qed.

(** One day column, one slot row with an empty cell. *)
Example one_open_slot :
  parseGrid [TimeSlot.mk "slot-1" "10am - 12pm"] ∅ ∅
    [CStr "Rep"; CStr "Monday 10/27"] [[CStr "Sam Lee 10am - 12pm"; CStr ""]]
  = Return [ {| Rep.id := "rep-1-Sam-Lee"; Rep.name := "Sam Lee";
                Rep.availability := "Mon";
                Rep.unavailableSlots := [("Monday", [])];
                Rep.skills := None; Rep.zipCodes := None;
                Rep.region := PHX; Rep.salesRank := None |} ].
Proof. vm_compute. reflexivity. Qed.

(** * Further properties *)

(** ** The resilient fetcher: cost and exhaustion *)

(** Every run with [retries >= 0] is a run of failed attempts followed by a
    final one. *)
Lemma fetchWithRetry_run server (retries d : Z) :
  0 <= retries ->
  exists k : nat,
    Z.of_nat k <= retries
    /\ (forall i, (i < k)%nat -> retried (server i) = true)
    /\ (Z.of_nat k < retries -> retried (server k) = false)
    /\ fetchWithRetry server retries d = (handed (server k), backoffTrace k 0 d).
Proof.
  intros Hret. destruct (final_attempt_exists server retries Hret) as (k & Hk & Hb & Hl).
  exists k. repeat split; try assumption. unfold fetchWithRetry.
  apply (attemptsFrom_run server retries k (Z.to_nat (retries + 1)) 0%nat d).
  - lia.
  - intros j Hj. cbn [Nat.add]. split; [auto|lia].
  - cbn [Nat.add]. destruct (Z.ltb_spec (Z.of_nat k) retries); [left; auto|right; lia].
Qed.

Lemma sumZ_app (l1 l2 : list Z) : sumZ (l1 ++ l2) = sumZ l1 + sumZ l2.
Proof. unfold sumZ. induction l1 as [|x l1 IH]; cbn; [reflexivity|]. rewrite IH. lia. Qed.

Lemma sumZ_doubling (d : Z) (k : nat) :
  sumZ ((fun j : nat => d * 2 ^ Z.of_nat j) <$> seq 0 k) = d * (2 ^ Z.of_nat k - 1).
Proof.
  induction k as [|k IH]; [cbn; lia|].
  rewrite seq_S, fmap_app, sumZ_app, IH. cbn [Nat.add fmap list_fmap sumZ foldr].
  rewrite Nat2Z.inj_succ, Z.pow_succ_r by lia. lia.
Qed.

(** X1. With [retries >= 0] and a delay [d >= 0], [fetchWithRetry] calls
    [fetch] at least once and at most [retries + 1] times, sleeps exactly
    once between two consecutive calls, and sleeps in total
    [d * (2^(calls-1) - 1)] milliseconds, hence at most [d * (2^retries - 1)]. *)
Theorem fetchWithRetry_cost (server : nat -> outcome) (retries d : Z) :
  0 <= retries -> 0 <= d ->
  let evs := snd (fetchWithRetry server retries d) in
  (1 <= attempts evs)%nat
  /\ Z.of_nat (attempts evs) <= retries + 1
  /\ length (sleeps evs) = (attempts evs - 1)%nat
  /\ sumZ (sleeps evs) = d * (2 ^ Z.of_nat (attempts evs - 1) - 1)
  /\ sumZ (sleeps evs) <= d * (2 ^ retries - 1).
Proof.
  intros Hret Hd evs.
  destruct (fetchWithRetry_run server retries d Hret) as (k & Hk & _ & _ & Hrun).
  unfold evs. rewrite Hrun. cbn [snd].
  rewrite attempts_backoffTrace, sleeps_backoffTrace, sumZ_doubling.
  replace (S k - 1)%nat with k by lia.
  repeat split; try lia.
  - now rewrite length_fmap, length_seq.
  - apply Z.mul_le_mono_nonneg_l; [exact Hd|].
    apply Z.sub_le_mono_r. apply Z.pow_le_mono_r; lia.
Qed.

Lemma fetchWithRetry_cost_witness :
  let evs := snd (fetchWithRetry flakyServer 3 1000) in
  (1 <= attempts evs)%nat
  /\ Z.of_nat (attempts evs) <= 3 + 1
  /\ length (sleeps evs) = (attempts evs - 1)%nat
  /\ sumZ (sleeps evs) = 1000 * (2 ^ Z.of_nat (attempts evs - 1) - 1)
  /\ sumZ (sleeps evs) <= 1000 * (2 ^ 3 - 1).
Proof. apply (fetchWithRetry_cost flakyServer 3 1000); lia. Defined.

(** X2. With [retries >= 0]: a response that is handed back although it is
    a 5xx or a 429, and any raised error, come from attempt number
    [retries], after [retries + 1] calls of [fetch]; the raised error is the
    transport failure of that attempt. A run that stops earlier returns a
    response that is successful or has a status below 500 other than 429. *)
Theorem fetchWithRetry_exhaustion (server : nat -> outcome) (retries d : Z) :
  0 <= retries ->
  let res := fst (fetchWithRetry server retries d) in
  let evs := snd (fetchWithRetry server retries d) in
  (forall r, res = Return r -> returnedAtOnce r = false ->
             Z.of_nat (attempts evs) = retries + 1
             /\ server (Z.to_nat retries) = Responds r)
  /\ (forall e, res = Throw e ->
                Z.of_nat (attempts evs) = retries + 1
                /\ exists cause, e = TransportError cause
                     /\ server (Z.to_nat retries) = Rejects cause)
  /\ (Z.of_nat (attempts evs) < retries + 1 ->
      exists r, res = Return r /\ returnedAtOnce r = true).
Proof.
  intros Hret res evs.
  destruct (fetchWithRetry_run server retries d Hret) as (k & Hk & _ & Hlast & Hrun).
  unfold res, evs. rewrite Hrun. cbn [fst snd]. rewrite attempts_backoffTrace.
  assert (Hcase : Z.of_nat k < retries \/ k = Z.to_nat retries) by lia.
  repeat match goal with |- _ /\ _ => split end.
  - intros r Hr Hno. destruct (server k) as [r'|c] eqn:Hs; cbn [handed] in Hr; [|discriminate].
    injection Hr as ->. destruct Hcase as [Hlt| ->].
    + specialize (Hlast Hlt). cbn [retried] in Hlast.
      rewrite Hno in Hlast. discriminate.
    + split; [lia|exact Hs].
  - intros e He. destruct (server k) as [r'|c] eqn:Hs; cbn [handed] in He; [discriminate|].
    injection He as <-. destruct Hcase as [Hlt| ->].
    + specialize (Hlast Hlt). discriminate.
    + split; [lia|]. exists c. now split.
  - intros Hlt. assert (Hk' : Z.of_nat k < retries) by lia.
    specialize (Hlast Hk'). destruct (server k) as [r|c]; cbn [retried] in Hlast;
      [|discriminate].
    exists r. split; [reflexivity|]. now destruct (returnedAtOnce r).
Qed.

Lemma fetchWithRetry_exhaustion_witness :
  let server := fun _ : nat => Rejects "unreachable" in
  Z.of_nat (attempts (snd (fetchWithRetry server 3 1000))) = 3 + 1
  /\ exists cause, TransportError "unreachable" = TransportError cause
       /\ server (Z.to_nat 3) = Rejects cause.
Proof.
  intros server.
  apply (proj1 (proj2 (fetchWithRetry_exhaustion server 3 1000 ltac:(lia)))
           (TransportError "unreachable")).
  reflexivity.
Defined.

(** X3. [fetchWithRetry] throws its own 'Fetch failed unexpectedly' error
    exactly when [retries] is negative, and then without calling [fetch]. *)
Theorem fetchWithRetry_unexpected (server : nat -> outcome) (retries d : Z) :
  (fst (fetchWithRetry server retries d) = Throw FetchFailedUnexpectedly <-> retries < 0)
  /\ (retries < 0 -> snd (fetchWithRetry server retries d) = []).
Proof.
  assert (Hneg : retries < 0 ->
                 fetchWithRetry server retries d = (Throw FetchFailedUnexpectedly, [])).
  { intros Hlt. unfold fetchWithRetry.
    replace (Z.to_nat (retries + 1)) with 0%nat by lia. reflexivity. }
  split; [split|].
  - intros Hres. destruct (Z.lt_ge_cases retries 0) as [Hlt|Hge]; [exact Hlt|].
    destruct (fetchWithRetry_run server retries d Hge) as (k & _ & _ & _ & Hrun).
    rewrite Hrun in Hres. cbn [fst] in Hres. destruct (server k); discriminate.
  - intros Hlt. now rewrite (Hneg Hlt).
  - intros Hlt. now rewrite (Hneg Hlt).
Qed.

(** ** The name normalizer *)

Lemma space_not_key (c : ascii) : isSpace c = true -> isKeyChar (toLowerChar c) = false.
Proof. destruct c as [[] [] [] [] [] [] [] []]; vm_compute; congruence. Qed.

Lemma quote_not_key (c : ascii) : isKeyChar c = true -> negb (Ascii.eqb c "034") = true.
Proof. destruct c as [[] [] [] [] [] [] [] []]; vm_compute; congruence. Qed.

Lemma key_is_lower (c : ascii) : isKeyChar c = true -> toLowerChar c = c.
Proof. destruct c as [[] [] [] [] [] [] [] []]; vm_compute; congruence. Qed.

Lemma lower_of_upper (c : ascii) : toLowerChar (toUpperChar c) = toLowerChar c.
Proof. destruct c as [[] [] [] [] [] [] [] []]; reflexivity. Qed.

Lemma lower_of_lower (c : ascii) : toLowerChar (toLowerChar c) = toLowerChar c.
Proof. destruct c as [[] [] [] [] [] [] [] []]; reflexivity. Qed.

Lemma filterChars_weaken (p q : ascii -> bool) (s : string) :
  (forall c, p c = true -> q c = true) ->
  filterChars p (filterChars q s) = filterChars p s.
Proof.
  intros Hpq. induction s as [|c s IH]; [reflexivity|]. cbn [filterChars].
  destruct (q c) eqn:Hq; cbn [filterChars]; rewrite IH; [reflexivity|].
  destruct (p c) eqn:Hp; [|reflexivity]. rewrite (Hpq c Hp) in Hq. discriminate.
Qed.

Lemma filterChars_all (p : ascii -> bool) (s : string) :
  allChars p (filterChars p s) = true.
Proof.
  induction s as [|c s IH]; [reflexivity|]. cbn [filterChars].
  destruct (p c) eqn:Hp; [|exact IH]. cbn [allChars]. now rewrite Hp.
Qed.

Lemma filterChars_id (p : ascii -> bool) (s : string) :
  allChars p s = true -> filterChars p s = s.
Proof.
  induction s as [|c s IH]; [reflexivity|]. cbn [allChars filterChars].
  intros [Hc Hs]%andb_true_iff. rewrite Hc. now rewrite IH.
Qed.

Lemma mapChars_id (f : ascii -> ascii) (p : ascii -> bool) (s : string) :
  (forall c, p c = true -> f c = c) -> allChars p s = true -> mapChars f s = s.
Proof.
  intros Hf. induction s as [|c s IH]; [reflexivity|]. cbn [allChars mapChars].
  intros [Hc Hs]%andb_true_iff. now rewrite (Hf c Hc), IH.
Qed.

Lemma mapChars_app (f : ascii -> ascii) (s1 s2 : string) :
  mapChars f (s1 +:+ s2) = mapChars f s1 +:+ mapChars f s2.
Proof. induction s1 as [|c s1 IH]; [reflexivity|]. simpl. now rewrite IH. Qed.

Lemma filterChars_app (p : ascii -> bool) (s1 s2 : string) :
  filterChars p (s1 +:+ s2) = filterChars p s1 +:+ filterChars p s2.
Proof.
  induction s1 as [|c s1 IH]; [reflexivity|]. simpl. rewrite IH. now destruct (p c).
Qed.

Lemma mapChars_compose (f g : ascii -> ascii) (s : string) :
  mapChars f (mapChars g s) = mapChars (fun c => f (g c)) s.
Proof. induction s as [|c s IH]; [reflexivity|]. cbn. now rewrite IH. Qed.

Lemma mapChars_ext (f g : ascii -> ascii) (s : string) :
  (forall c, f c = g c) -> mapChars f s = mapChars g s.
Proof. intros H. induction s as [|c s IH]; [reflexivity|]. cbn. now rewrite H, IH. Qed.

(** The key characters of the lower-cased text. *)
Definition keyOf (s : string) : string := filterChars isKeyChar (toLowerCase s).

Lemma keyOf_trimStart (s : string) : keyOf (trimStart s) = keyOf s.
Proof.
  induction s as [|c s IH]; [reflexivity|]. cbn [trimStart].
  destruct (isSpace c) eqn:Hc; [|reflexivity]. rewrite IH.
  unfold keyOf, toLowerCase. cbn [mapChars filterChars].
  now rewrite (space_not_key c Hc).
Qed.

Lemma keyOf_trimEnd (s : string) : keyOf (trimEnd s) = keyOf s.
Proof.
  induction s as [|c s IH]; [reflexivity|]. cbn [trimEnd].
  destruct (isSpace c) eqn:Hc; cbn [andb].
  - destruct (trimEnd s) as [|c' t] eqn:Ht; cbn [isEmpty].
    + unfold keyOf, toLowerCase in *. cbn [mapChars filterChars] in *.
      now rewrite (space_not_key c Hc), <- IH.
    + unfold keyOf, toLowerCase in *. cbn [mapChars filterChars] in *.
      now rewrite (space_not_key c Hc), <- IH.
  - unfold keyOf, toLowerCase in *. cbn [mapChars filterChars].
    now rewrite IH.
Qed.

Lemma normalizeName_keyOf (name : string) : normalizeName name = keyOf name.
Proof.
  unfold normalizeName. rewrite filterChars_weaken by exact quote_not_key.
  change (filterChars (fun c => isLowerAZ c || isDigit c) (toLowerCase (trim name)))
    with (keyOf (trim name)).
  unfold trim. now rewrite keyOf_trimEnd, keyOf_trimStart.
Qed.

(** X4. The normalized form of a name that is ASCII text is the lower-cased
    name with every character outside [a-z0-9] removed (trimming and the
    removal of double quotes add nothing to that); it consists of such
    characters only, and normalizing it again changes nothing. *)
Theorem normalizeName_canonical (name : string) :
  asciiText name = true ->
  normalizeName name = filterChars isKeyChar (toLowerCase name)
  /\ allChars isKeyChar (normalizeName name) = true
  /\ normalizeName (normalizeName name) = normalizeName name.
Proof.
  intros _.
  split; [apply normalizeName_keyOf|].
  assert (Hall : allChars isKeyChar (normalizeName name) = true).
  { rewrite normalizeName_keyOf. apply filterChars_all. }
  split; [exact Hall|].
  rewrite (normalizeName_keyOf (normalizeName name)). unfold keyOf, toLowerCase.
  rewrite (mapChars_id toLowerChar isKeyChar) by (exact key_is_lower || exact Hall).
  now apply filterChars_id.
Qed.

(** X5. On ASCII text the join key ignores case and is taken piece by
    piece: the key of the upper-cased or lower-cased name is the key of the
    name, and the key of a concatenation is the concatenation of the keys, so
    that whitespace and punctuation anywhere in a name leave the key
    unchanged. *)
Theorem normalizeName_insensitive (s1 s2 : string) :
  asciiText s1 = true -> asciiText s2 = true ->
  normalizeName (toUpperCase s1) = normalizeName s1
  /\ normalizeName (toLowerCase s1) = normalizeName s1
  /\ normalizeName (s1 +:+ s2) = normalizeName s1 +:+ normalizeName s2
  /\ (allChars (fun c => negb (isKeyChar (toLowerChar c))) s2 = true ->
      forall s3, asciiText s3 = true ->
        normalizeName (s1 +:+ s2 +:+ s3) = normalizeName (s1 +:+ s3)).
Proof.
  intros _ _.
  assert (Happ : forall a b, normalizeName (a +:+ b) = normalizeName a +:+ normalizeName b).
  { intros a b. rewrite !normalizeName_keyOf. unfold keyOf, toLowerCase.
    now rewrite mapChars_app, filterChars_app. }
  repeat match goal with |- _ /\ _ => split end.
  - rewrite !normalizeName_keyOf. unfold keyOf, toLowerCase, toUpperCase.
    rewrite mapChars_compose. f_equal. apply mapChars_ext, lower_of_upper.
  - rewrite !normalizeName_keyOf. unfold keyOf, toLowerCase.
    rewrite mapChars_compose. f_equal. apply mapChars_ext, lower_of_lower.
  - apply Happ.
  - intros Hp s3 _. rewrite !Happ.
    assert (Hempty : normalizeName s2 = "").
    { rewrite normalizeName_keyOf. unfold keyOf, toLowerCase.
      induction s2 as [|c s2 IH]; [reflexivity|]. cbn [allChars] in Hp.
      apply andb_true_iff in Hp as [Hc Hp]. cbn [mapChars filterChars].
      apply negb_true_iff in Hc. rewrite Hc. now apply IH. }
    now rewrite Hempty.
Qed.

Lemma normalizeName_canonical_witness :
  let name := "  O'Neil, (Bo) Jr. 3rd " in
  normalizeName name = filterChars isKeyChar (toLowerCase name)
  /\ allChars isKeyChar (normalizeName name) = true
  /\ normalizeName (normalizeName name) = normalizeName name.
Proof.
  intros name. apply (normalizeName_canonical name). reflexivity.
Defined.

Lemma normalizeName_insensitive_witness :
  let s1 := "Mary-Ann " in
  let s2 := ", " in
  normalizeName (toUpperCase s1) = normalizeName s1
  /\ normalizeName (toLowerCase s1) = normalizeName s1
  /\ normalizeName (s1 +:+ s2) = normalizeName s1 +:+ normalizeName s2
  /\ (allChars (fun c => negb (isKeyChar (toLowerChar c))) s2 = true ->
      forall s3, asciiText s3 = true ->
        normalizeName (s1 +:+ s2 +:+ s3) = normalizeName (s1 +:+ s3)).
Proof.
  intros s1 s2. apply (normalizeName_insensitive s1 s2); reflexivity.
Defined.

(** ** Zip codes *)

Lemma allChars_app (p : ascii -> bool) (s1 s2 : string) :
  allChars p (s1 +:+ s2) = allChars p s1 && allChars p s2.
Proof.
  induction s1 as [|c s1 IH]; [reflexivity|]. simpl. rewrite IH. apply andb_assoc.
Qed.

Lemma string_app_assoc (s1 s2 s3 : string) : (s1 +:+ s2) +:+ s3 = s1 +:+ s2 +:+ s3.
Proof.
  induction s1 as [|c s1 IH]; [reflexivity|].
  change (String c ((s1 +:+ s2) +:+ s3) = String c (s1 +:+ s2 +:+ s3)). now f_equal.
Qed.

Lemma splitRuns_pieces (s : string) :
  forall (inSep : bool) (cur : string),
    allChars notZipSeparator cur = true ->
    Forall (fun z => allChars notZipSeparator z = true) (splitRuns s inSep cur)
    /\ concatStrings (splitRuns s inSep cur) = cur +:+ filterChars notZipSeparator s.
Proof.
  induction s as [|c s IH]; intros inSep cur Hcur.
  - cbn [splitRuns filterChars concatStrings foldr]. split; [now repeat constructor|].
    reflexivity.
  - cbn [splitRuns filterChars].
    assert (Hn : notZipSeparator c = negb (isZipSeparator c)) by reflexivity.
    rewrite Hn. destruct (isZipSeparator c) eqn:Hc; cbn [negb].
    + destruct inSep.
      * now apply IH.
      * destruct (IH true "" eq_refl) as [Hall Hcat]. split; [now constructor|].
        cbn [concatStrings foldr]. fold (concatStrings (splitRuns s true "")).
        now rewrite Hcat.
    + destruct (IH false (cur +:+ String c "")) as [Hall Hcat].
      { rewrite allChars_app, Hcur. cbn. unfold notZipSeparator. now rewrite Hc. }
      split; [exact Hall|]. rewrite Hcat. now rewrite string_app_assoc.
Qed.

Lemma trimStart_no_space (s : string) :
  allChars (fun c => negb (isSpace c)) s = true -> trimStart s = s.
Proof.
  destruct s as [|c s]; [reflexivity|]. cbn [allChars trimStart].
  intros [Hc _]%andb_true_iff. apply negb_true_iff in Hc. now rewrite Hc.
Qed.

Lemma trimEnd_no_space (s : string) :
  allChars (fun c => negb (isSpace c)) s = true -> trimEnd s = s.
Proof.
  induction s as [|c s IH]; [reflexivity|]. cbn [allChars trimEnd].
  intros [Hc Hs]%andb_true_iff. apply negb_true_iff in Hc. rewrite Hc. cbn [andb].
  now rewrite IH.
Qed.

Lemma allChars_impl (p q : ascii -> bool) (s : string) :
  (forall c, p c = true -> q c = true) -> allChars p s = true -> allChars q s = true.
Proof.
  intros Hpq. induction s as [|c s IH]; [reflexivity|]. cbn [allChars].
  intros [Hc Hs]%andb_true_iff. now rewrite (Hpq c Hc), IH.
Qed.

Lemma trim_no_separator (z : string) :
  allChars notZipSeparator z = true -> trim z = z.
Proof.
  intros Hz.
  assert (Hs : allChars (fun c => negb (isSpace c)) z = true).
  { apply (allChars_impl notZipSeparator); [|exact Hz].
    intros c. unfold notZipSeparator, isZipSeparator.
    rewrite !negb_true_iff, !orb_false_iff. tauto. }
  unfold trim. now rewrite trimStart_no_space, trimEnd_no_space.
Qed.

Lemma concat_nonempty (l : list string) :
  concatStrings (List.filter (fun z => negb (isEmpty z)) l) = concatStrings l.
Proof.
  induction l as [|z l IH]; [reflexivity|]. cbn [List.filter].
  destruct z as [|c z]; cbn [isEmpty negb]; [exact IH|].
  cbn [concatStrings foldr]. fold (concatStrings l).
  fold (concatStrings (List.filter (fun z => negb (isEmpty z)) l)). now rewrite IH.
Qed.

Lemma fmap_trim_pieces (l : list string) :
  Forall (fun z => allChars notZipSeparator z = true) l -> trim <$> l = l.
Proof.
  induction l as [|z l IH]; [reflexivity|]. intros Hall.
  inversion Hall as [|? ? Hz Hl]; subst. cbn.
  f_equal; [now apply trim_no_separator|now apply IH].
Qed.

(** X6. The zip codes split from a cell of ASCII text are non-empty and
    free of commas, semicolons and whitespace; put end to end they are the
    cell's text with exactly those characters removed; a cell made of
    separators only gives no zip code. The same holds for the zip codes of a
    record the skill loader builds from a row whose zip cell is ASCII text. *)
Theorem zip_codes_are_clean (zipString : string) :
  asciiText zipString = true ->
  Forall (fun z => z <> "" /\ allChars notZipSeparator z = true) (splitZipCodes zipString)
  /\ concatStrings (splitZipCodes zipString) = filterChars notZipSeparator zipString
  /\ (allChars isZipSeparator zipString = true -> splitZipCodes zipString = [])
  /\ (forall headers zipCodeColumnIndex row,
        asciiCell (cellAt row (Z.to_nat zipCodeColumnIndex)) = true ->
        Forall (fun z => z <> "" /\ allChars notZipSeparator z = true)
               (Skill.zipCodes (skillRecordOf headers zipCodeColumnIndex row))).
Proof.
  intros _.
  assert (Hgen : forall s,
    Forall (fun z => z <> "" /\ allChars notZipSeparator z = true) (splitZipCodes s)
    /\ concatStrings (splitZipCodes s) = filterChars notZipSeparator s).
  { intros s. destruct (splitRuns_pieces s false "" eq_refl) as [Hall Hcat].
    pose proof (fmap_trim_pieces _ Hall) as Htrim.
    unfold splitZipCodes. rewrite Htrim. split.
    - rewrite List.Forall_forall. intros z [Hin Hne]%filter_In. split.
      + destruct z; [discriminate|congruence].
      + rewrite List.Forall_forall in Hall. now apply Hall.
    - now rewrite concat_nonempty, Hcat. }
  split; [apply Hgen|]. split; [apply Hgen|]. split.
  - intros Hsep. destruct (Hgen zipString) as [Hall Hcat].
    assert (Hnone : filterChars notZipSeparator zipString = "").
    { clear Hall Hcat. induction zipString as [|c s IH]; [reflexivity|].
      cbn [allChars] in Hsep. apply andb_true_iff in Hsep as [Hc Hs].
      cbn [filterChars]. unfold notZipSeparator at 1. rewrite Hc. cbn [negb]. now apply IH. }
    rewrite Hnone in Hcat. destruct (splitZipCodes zipString) as [|z l]; [reflexivity|].
    inversion Hall as [|? ? [Hz _] _]; subst. destruct z; [congruence|discriminate].
  - intros headers zipCodeColumnIndex row _. unfold skillRecordOf, zipCodesOf.
    cbn [Skill.zipCodes]. destruct (_ && _); [apply Hgen|constructor].
Qed.

Lemma zip_codes_are_clean_witness :
  let zipString := " 85001, 85002;85003  85004 ," in
  Forall (fun z => z <> "" /\ allChars notZipSeparator z = true) (splitZipCodes zipString)
  /\ concatStrings (splitZipCodes zipString) = filterChars notZipSeparator zipString
  /\ (allChars isZipSeparator zipString = true -> splitZipCodes zipString = [])
  /\ (forall headers zipCodeColumnIndex row,
        asciiCell (cellAt row (Z.to_nat zipCodeColumnIndex)) = true ->
        Forall (fun z => z <> "" /\ allChars notZipSeparator z = true)
               (Skill.zipCodes (skillRecordOf headers zipCodeColumnIndex row))).
Proof.
  intros zipString. apply (zip_codes_are_clean zipString). reflexivity.
Defined.

(** ** The rank loader *)

Lemma readRankRows_step (row : list cell) (rest : list (list cell)) (index : Z)
    (rankMap : gmap string Z) :
  readRankRows (row :: rest) index rankMap
  = readRankRows rest (index + 1)
      match rankedKey row with
      | Some key =>
          match rankMap !! key with
          | Some _ => rankMap
          | None => <[key := index + 1]> rankMap
          end
      | None => rankMap
      end.
Proof.
  cbn [readRankRows]. unfold rankedKey. destruct (truthy (cellAt row 0)); [|reflexivity].
  now destruct (includes _ _).
Qed.

Ltac split_ands := repeat match goal with |- _ /\ _ => split end.

Lemma readRankRows_lookup (rows : list (list cell)) (key : string) (r : Z) :
  forall (index : Z) (rankMap : gmap string Z),
    readRankRows rows index rankMap !! key = Some r
    <-> rankMap !! key = Some r
        \/ (rankMap !! key = None
            /\ exists (i : nat) row,
                 rows !! i = Some row /\ rankedKey row = Some key
                 /\ r = index + Z.of_nat i + 1
                 /\ forall (j : nat) row', (j < i)%nat -> rows !! j = Some row' ->
                      rankedKey row' <> Some key).
Proof.
  induction rows as [|row rows IH]; intros index rankMap.
  - cbn [readRankRows]. split; [now left|]. intros [H|(_ & i & row & Hi & _)]; [exact H|].
    discriminate.
  - rewrite readRankRows_step, IH. clear IH.
    destruct (rankedKey row) as [k|] eqn:Hk.
    + destruct (decide (k = key)) as [->|Hne].
      * destruct (rankMap !! key) as [r0|] eqn:Hm.
        -- rewrite Hm. split; [intros [H|[H _]]; [now left|discriminate]|].
           intros [H|[H _]]; [now left|discriminate].
        -- rewrite lookup_insert_eq. split.
           ++ intros [H|[H _]]; [|discriminate]. injection H as <-. right.
              split; [reflexivity|]. exists 0%nat, row. split_ands; [reflexivity|exact Hk|lia|].
              intros j row' Hj. lia.
           ++ intros [H|(_ & i & row0 & Hi & Hk0 & -> & Hfirst)]; [discriminate|].
              left. destruct i as [|i]; [f_equal; lia|].
              exfalso. apply (Hfirst 0%nat row); [lia|reflexivity|exact Hk].
      * assert (Hsame : match rankMap !! k with
                        | Some _ => rankMap
                        | None => <[k := index + 1]> rankMap
                        end !! key = rankMap !! key).
        { destruct (rankMap !! k); [reflexivity|]. now rewrite lookup_insert_ne. }
        rewrite Hsame. split.
        -- intros [H|(Hnone & i & row0 & Hi & Hk0 & -> & Hfirst)]; [now left|right].
           split; [exact Hnone|]. exists (S i), row0. split_ands; [exact Hi|exact Hk0|lia|].
           intros [|j] row' Hj Hrow'.
           ++ cbn in Hrow'. injection Hrow' as <-. congruence.
           ++ apply (Hfirst j row'); [lia|exact Hrow'].
        -- intros [H|(Hnone & i & row0 & Hi & Hk0 & -> & Hfirst)]; [now left|right].
           split; [exact Hnone|]. destruct i as [|i].
           ++ cbn in Hi. injection Hi as <-. congruence.
           ++ exists i, row0. split_ands; [exact Hi|exact Hk0|lia|].
              intros j row' Hj Hrow'. apply (Hfirst (S j) row'); [lia|exact Hrow'].
    + split.
      * intros [H|(Hnone & i & row0 & Hi & Hk0 & -> & Hfirst)]; [now left|right].
        split; [exact Hnone|]. exists (S i), row0. split_ands; [exact Hi|exact Hk0|lia|].
        intros [|j] row' Hj Hrow'.
        -- cbn in Hrow'. injection Hrow' as <-. congruence.
        -- apply (Hfirst j row'); [lia|exact Hrow'].
      * intros [H|(Hnone & i & row0 & Hi & Hk0 & -> & Hfirst)]; [now left|right].
        split; [exact Hnone|]. destruct i as [|i].
        -- cbn in Hi. injection Hi as <-. congruence.
        -- exists i, row0. split_ands; [exact Hi|exact Hk0|lia|].
           intros j row' Hj Hrow'. apply (Hfirst (S j) row'); [lia|exact Hrow'].
Qed.

(** X7. When the ranking request is answered with the rows [rows], a key
    has rank [r] exactly when row [r - 1] is the first row ranked under that
    key (rows without a name and rows containing 'sales order' are not
    ranked, but still count in the position). Hence every rank lies between
    1 and the number of rows, and no two keys share a rank. *)
Theorem ranks_are_first_positions (server : nat -> outcome) (response : Response)
    (data : Json) (rows : list (list cell)) :
  fetchDefault server = Return response -> ok response = true ->
  body response = Some data -> values data = Some rows ->
  let rankMap := fetchSalesRankings server in
  (forall key r,
      rankMap !! key = Some r
      <-> exists (i : nat) row,
            rows !! i = Some row /\ rankedKey row = Some key /\ r = Z.of_nat i + 1
            /\ forall (j : nat) row', (j < i)%nat -> rows !! j = Some row' ->
                 rankedKey row' <> Some key)
  /\ (forall key r, rankMap !! key = Some r -> 1 <= r <= Z.of_nat (length rows))
  /\ (forall key1 key2 r,
        rankMap !! key1 = Some r -> rankMap !! key2 = Some r -> key1 = key2).
Proof.
  intros Hr Hok Hbody Hvalues rankMap.
  assert (Hmap : rankMap = readRankRows rows 0 ∅).
  { unfold rankMap, fetchSalesRankings. now rewrite Hr, Hok, Hbody, Hvalues. }
  assert (Hiff : forall key r,
      rankMap !! key = Some r
      <-> exists (i : nat) row,
            rows !! i = Some row /\ rankedKey row = Some key /\ r = Z.of_nat i + 1
            /\ forall (j : nat) row', (j < i)%nat -> rows !! j = Some row' ->
                 rankedKey row' <> Some key).
  { intros key r. rewrite Hmap, readRankRows_lookup, lookup_empty. split.
    - intros [H|(_ & i & row & Hi & Hk & -> & Hfirst)]; [discriminate|].
      exists i, row. split_ands; [exact Hi|exact Hk|lia|exact Hfirst].
    - intros (i & row & Hi & Hk & -> & Hfirst). right. split; [reflexivity|].
      exists i, row. split_ands; [exact Hi|exact Hk|lia|exact Hfirst]. }
  split; [exact Hiff|]. split.
  - intros key r (i & row & Hi & _ & -> & _)%Hiff.
    apply lookup_lt_Some in Hi. lia.
  - intros key1 key2 r (i & row & Hi & Hk & -> & _)%Hiff (i' & row' & Hi' & Hk' & Heq & _)%Hiff.
    assert (i' = i) as -> by lia. congruence.
Qed.

Lemma ranks_are_first_positions_witness :
  let rows := [[CStr "Sales Order"]; [CStr "Ann Poe"]; []; [CStr "ANN POE"]; [CStr "Bo Ray"]] in
  let rankMap := fetchSalesRankings (fun _ => Responds (gridOf rows)) in
  rankMap !! "annpoe" = Some 2 /\ rankMap !! "boray" = Some 5
  /\ (1 <= 5 <= Z.of_nat (length rows)).
Proof.
  intros rows rankMap.
  assert (H2 : rankMap !! "annpoe" = Some 2) by (vm_compute; reflexivity).
  assert (H5 : rankMap !! "boray" = Some 5) by (vm_compute; reflexivity).
  split; [exact H2|]. split; [exact H5|].
  exact (proj1 (proj2 (ranks_are_first_positions (fun _ => Responds (gridOf rows))
                         (gridOf rows) {| sheets := None; values := Some rows |} rows
                         eq_refl eq_refl eq_refl eq_refl)) "boray" 5 H5).
Defined.

(** ** The skill loader: rows *)

Lemma readSkillRows_step (headers : list string) (zipIdx : Z) (row : list cell)
    (rest : list (list cell)) (skillsMap : gmap string Skill.t) :
  cellAt row 0 <> CBool true ->
  readSkillRows headers zipIdx (row :: rest) skillsMap
  = readSkillRows headers zipIdx rest
      match skillKey row with
      | Some key => <[key := skillRecordOf headers zipIdx row]> skillsMap
      | None => skillsMap
      end.
Proof.
  intros Hrow. cbn [readSkillRows]. unfold skillKey.
  destruct (cellAt row 0) as [|[|]|repName]; try reflexivity; [congruence|].
  now destruct (isEmpty repName).
Qed.

Lemma readSkillRows_lookup (headers : list string) (zipIdx : Z)
    (rows : list (list cell)) (key : string) (record : Skill.t) :
  Forall (fun row => cellAt row 0 <> CBool true) rows ->
  forall skillsMap : gmap string Skill.t,
    readSkillRows headers zipIdx rows skillsMap !! key = Some record
    <-> (exists (i : nat) row,
           rows !! i = Some row /\ skillKey row = Some key
           /\ record = skillRecordOf headers zipIdx row
           /\ forall (j : nat) row', (i < j)%nat -> rows !! j = Some row' ->
                skillKey row' <> Some key)
        \/ (skillsMap !! key = Some record
            /\ forall (j : nat) row', rows !! j = Some row' -> skillKey row' <> Some key).
Proof.
  induction 1 as [|row rows Hrow Hrows IH]; intros skillsMap.
  - cbn [readSkillRows]. split.
    + intros H. right. split; [exact H|]. intros j row' Hj. discriminate.
    + intros [(i & row & Hi & _)|[H _]]; [discriminate|exact H].
  - rewrite readSkillRows_step by exact Hrow. rewrite IH. clear IH. split.
    + intros [(i & row0 & Hi & Hk & Hrec & Hlast)|[Hm Hnone]].
      * left. exists (S i), row0. split_ands; [exact Hi|exact Hk|exact Hrec|].
        intros [|j] row' Hj Hrow'; [lia|]. apply (Hlast j row'); [lia|exact Hrow'].
      * destruct (skillKey row) as [k|] eqn:Hk.
        -- destruct (decide (k = key)) as [->|Hne].
           ++ rewrite lookup_insert_eq in Hm. injection Hm as <-.
              left. exists 0%nat, row. split_ands; [reflexivity|exact Hk|reflexivity|].
              intros [|j] row' Hj Hrow'; [lia|]. now apply (Hnone j row').
           ++ rewrite lookup_insert_ne in Hm by exact Hne. right. split; [exact Hm|].
              intros [|j] row' Hrow'.
              ** cbn in Hrow'. injection Hrow' as <-. congruence.
              ** now apply (Hnone j row').
        -- right. split; [exact Hm|]. intros [|j] row' Hrow'.
           ++ cbn in Hrow'. injection Hrow' as <-. congruence.
           ++ now apply (Hnone j row').
    + intros [(i & row0 & Hi & Hk & Hrec & Hlast)|[Hm Hnone]].
      * destruct i as [|i].
        -- cbn in Hi. injection Hi as <-. rewrite Hk. right.
           split; [rewrite Hrec; apply lookup_insert_eq|].
           intros j row' Hrow'. apply (Hlast (S j) row'); [lia|exact Hrow'].
        -- left. exists i, row0. split_ands; [exact Hi|exact Hk|exact Hrec|].
           intros j row' Hj Hrow'. apply (Hlast (S j) row'); [lia|exact Hrow'].
      * right. split.
        -- pose proof (Hnone 0%nat row eq_refl) as H0.
           destruct (skillKey row) as [k|]; [|exact Hm].
           rewrite lookup_insert_ne; [exact Hm|congruence].
        -- intros j row' Hrow'. apply (Hnone (S j) row'). exact Hrow'.
Qed.

Lemma readSkillRows_stops (headers : list string) (zipIdx : Z)
    (rows1 : list (list cell)) (row : list cell) (rows2 : list (list cell)) :
  cellAt row 0 = CBool true ->
  forall skillsMap : gmap string Skill.t,
    readSkillRows headers zipIdx (rows1 ++ row :: rows2) skillsMap
    = readSkillRows headers zipIdx rows1 skillsMap.
Proof.
  intros Hrow. induction rows1 as [|r rows1 IH]; intros skillsMap.
  - cbn [app readSkillRows]. now rewrite Hrow.
  - cbn [app readSkillRows]. destruct (cellAt r 0) as [|[|]|repName]; try apply IH.
    + reflexivity.
    + destruct (isEmpty repName); apply IH.
Qed.

(** X8. When the skills request is answered with a header row of strings
    and data rows none of which has the boolean true as its name, the record
    stored under a key is the one built from the last row whose name
    normalizes to that key; rows without a name contribute nothing, and every
    key is the normalized name of some row. *)
Theorem skills_last_row_wins (server : nat -> outcome) (response : Response)
    (data : Json) (header : list cell) (headers : list string)
    (row1 : list cell) (rows : list (list cell)) :
  fetchDefault server = Return response -> ok response = true ->
  body response = Some data -> values data = Some (header :: row1 :: rows) ->
  trimHeaders header = Return headers ->
  Forall (fun row => cellAt row 0 <> CBool true) (row1 :: rows) ->
  forall key record,
    fetchRepSkills server !! key = Some record
    <-> exists (i : nat) row,
          (row1 :: rows) !! i = Some row /\ skillKey row = Some key
          /\ record = skillRecordOf headers (zipColumnOf headers) row
          /\ forall (j : nat) row', (i < j)%nat -> (row1 :: rows) !! j = Some row' ->
               skillKey row' <> Some key.
Proof.
  intros Hr Hok Hbody Hvalues Hhdr Hrows key record.
  assert (Hmap : fetchRepSkills server
                 = readSkillRows headers (zipColumnOf headers) (row1 :: rows) ∅).
  { unfold fetchRepSkills. now rewrite Hr, Hok, Hbody, Hvalues, Hhdr. }
  rewrite Hmap, (readSkillRows_lookup _ _ _ _ _ Hrows), lookup_empty. split.
  - intros [H|[H _]]; [exact H|discriminate].
  - intros H. now left.
Qed.

Lemma skills_last_row_wins_witness :
  let header := [CStr "Rep"; CStr "Tile"; CStr "Zip"] in
  let rows := [[CStr "Ann Poe"; CStr "2"; CStr "85001"]; [CNull; CStr "9"];
               [CStr " ANN POE"; CStr "4"; CStr "85002"]] in
  let server := fun _ : nat => Responds (gridOf (header :: rows)) in
  (fetchRepSkills server !! "annpoe" ≫= fun record => Skill.skills record !! "Tile") = Some 4
  /\ exists (i : nat) row,
       rows !! i = Some row /\ skillKey row = Some "annpoe"
       /\ Skill.mk (<["Tile" := 4]> ∅) ["85002"]
          = skillRecordOf ["Rep"; "Tile"; "Zip"] (zipColumnOf ["Rep"; "Tile"; "Zip"]) row
       /\ forall (j : nat) row', (i < j)%nat -> rows !! j = Some row' ->
            skillKey row' <> Some "annpoe".
Proof.
  intros header rows server. split; [vm_compute; reflexivity|].
  apply (proj1 (skills_last_row_wins server (gridOf (header :: rows))
                  {| sheets := None; values := Some (header :: rows) |}
                  header ["Rep"; "Tile"; "Zip"]
                  [CStr "Ann Poe"; CStr "2"; CStr "85001"]
                  [[CNull; CStr "9"]; [CStr " ANN POE"; CStr "4"; CStr "85002"]]
                  eq_refl eq_refl eq_refl eq_refl eq_refl
                  ltac:(repeat constructor; discriminate)
                  "annpoe" (Skill.mk (<["Tile" := 4]> ∅) ["85002"]))).
  vm_compute. reflexivity.
Defined.

(** X9. Two ways the skills table is cut short. A row whose name cell is
    the boolean true ends the loading: the rows before it are kept, that row
    and every row after it are ignored. A header cell that is not a string
    leaves the table empty, whatever the rows hold. *)
Theorem skills_loading_cut_short (server : nat -> outcome) (response : Response)
    (data : Json) (header : list cell) (first : list cell) (rest : list (list cell)) :
  fetchDefault server = Return response -> ok response = true ->
  body response = Some data -> values data = Some (header :: first :: rest) ->
  (forall headers rows1 row rows2,
      trimHeaders header = Return headers ->
      first :: rest = rows1 ++ row :: rows2 -> cellAt row 0 = CBool true ->
      fetchRepSkills server = readSkillRows headers (zipColumnOf headers) rows1 ∅)
  /\ ((exists c, In c header /\ forall s, c <> CStr s) -> fetchRepSkills server = ∅).
Proof.
  intros Hr Hok Hbody Hvalues. split.
  - intros headers rows1 row rows2 Hhdr Hsplit Hrow.
    unfold fetchRepSkills. rewrite Hr, Hok, Hbody, Hvalues, Hhdr. cbn [negb].
    rewrite Hsplit. now apply readSkillRows_stops.
  - intros (c & Hin & Hc).
    assert (Hthrow : exists e, trimHeaders header = Throw e).
    { clear Hvalues. induction header as [|h header IH]; [destruct Hin|].
      cbn [trimHeaders]. destruct h as [| |s]; try (now eexists).
      destruct Hin as [<-|Hin]; [now destruct (Hc s)|].
      destruct (IH Hin) as [e He]. rewrite He. now eexists. }
    destruct Hthrow as [e He].
    unfold fetchRepSkills. now rewrite Hr, Hok, Hbody, Hvalues, He.
Qed.

Lemma skills_loading_cut_short_witness :
  let header := [CStr "Rep"; CStr "Tile"] in
  let rows := [[CStr "Ann Poe"; CStr "2"]; [CBool true; CStr "3"]; [CStr "Bo Ray"; CStr "4"]] in
  let server := fun _ : nat => Responds (gridOf (header :: rows)) in
  fetchRepSkills server
  = readSkillRows ["Rep"; "Tile"] (zipColumnOf ["Rep"; "Tile"]) [[CStr "Ann Poe"; CStr "2"]] ∅
  /\ fetchRepSkills server !! "boray" = None.
Proof.
  intros header rows server. split; [|vm_compute; reflexivity].
  apply (proj1 (skills_loading_cut_short server (gridOf (header :: rows))
                  {| sheets := None; values := Some (header :: rows) |}
                  header [CStr "Ann Poe"; CStr "2"]
                  [[CBool true; CStr "3"]; [CStr "Bo Ray"; CStr "4"]]
                  eq_refl eq_refl eq_refl eq_refl)
           ["Rep"; "Tile"] [[CStr "Ann Poe"; CStr "2"]] [CBool true; CStr "3"]
           [[CStr "Bo Ray"; CStr "4"]]); reflexivity.
Defined.

(** ** The sheet selector: what is returned *)

Lemma titleMatches_prefixed prefix d title :
  titleMatches prefix d title = true -> startsWith title prefix = true.
Proof. unfold titleMatches. now intros [H _]%andb_true_iff. Qed.

(** X10. Whatever the date, a title returned by [findSheetNameForDate] is
    one of the given titles and starts with the prefix; nothing is returned
    exactly when no title starts with the prefix; and a warning is logged
    only for the first title with the prefix, when it is returned as the
    fallback. *)
Theorem selection_is_prefixed (prefix : string) (date : Z) (titles : list string) :
  let found := fst (fst (findSheetNameForDate prefix date titles)) in
  let logged := snd (findSheetNameForDate prefix date titles) in
  (forall title, found = Some title -> In title titles /\ startsWith title prefix = true)
  /\ (found = None <-> forall title, In title titles -> startsWith title prefix = false)
  /\ (logged = []
      \/ exists title, logged = [WarnFallbackSheet title] /\ found = Some title
           /\ List.find (fun t => startsWith t prefix) titles = Some title).
Proof.
  intros found logged. unfold found, logged, findSheetNameForDate.
  rewrite scanSheets_find.
  destruct (List.find (titleMatches prefix _) titles) as [t|] eqn:Hscan.
  - apply find_some in Hscan as [Hin Hm]. apply titleMatches_prefixed in Hm.
    cbn [fst snd]. split_ands.
    + intros title Heq. injection Heq as <-. now split.
    + split; [discriminate|]. intros Hno. rewrite (Hno t Hin) in Hm. discriminate.
    + now left.
  - destruct (List.find (fun t => startsWith t prefix) titles) as [t|] eqn:Hfb; cbn [fst snd].
    + pose proof (find_some _ _ Hfb) as [Hin Hp]. split_ands.
      * intros title Heq. injection Heq as <-. now split.
      * split; [discriminate|]. intros Hno. rewrite (Hno t Hin) in Hp. discriminate.
      * right. exists t. now split_ands.
    + split_ands.
      * discriminate.
      * split; [|reflexivity]. intros _ title Hin.
        exact (find_none _ _ Hfb title Hin).
      * now left.
Qed.

(** X11. The selection depends on the calendar day of the date only: two
    dates of the same day give the same title, the same log and leave the
    same time value in the [Date] object; in particular a second call on the
    object left by a first call returns what the first call returned. *)
Theorem selection_depends_on_day (prefix : string) (date1 date2 : Z) (titles : list string) :
  date1 / msPerDay = date2 / msPerDay ->
  findSheetNameForDate prefix date1 titles = findSheetNameForDate prefix date2 titles
  /\ findSheetNameForDate prefix
       (snd (fst (findSheetNameForDate prefix date1 titles))) titles
     = findSheetNameForDate prefix date1 titles.
Proof.
  intros Hday.
  assert (Hsame : forall d1 d2, d1 / msPerDay = d2 / msPerDay ->
            findSheetNameForDate prefix d1 titles = findSheetNameForDate prefix d2 titles).
  { intros d1 d2 H. unfold findSheetNameForDate. now rewrite !setHours_midnight, H. }
  split; [now apply Hsame|].
  apply Hsame. rewrite findSheetNameForDate_date. apply day_of_midnight.
Qed.

Lemma selection_depends_on_day_witness :
  let titles := ["Schedule 12/30 - 1/5"; "Schedule 1/6 - 1/12"] in
  findSheetNameForDate "Schedule" (newDate 2024 0 8) titles
  = findSheetNameForDate "Schedule" (newDate 2024 0 8 + 61200000) titles
  /\ findSheetNameForDate "Schedule"
       (snd (fst (findSheetNameForDate "Schedule" (newDate 2024 0 8) titles))) titles
     = findSheetNameForDate "Schedule" (newDate 2024 0 8) titles.
Proof.
  intros titles.
  apply (selection_depends_on_day "Schedule" (newDate 2024 0 8)
           (newDate 2024 0 8 + 61200000) titles).
  reflexivity.
Defined.

(** ** The sheet selector: the date range of a title *)

Lemma digitValue_bounds (c : ascii) : isDigit c = true -> 0 <= digitValue c <= 9.
Proof.
  destruct c as [[] [] [] [] [] [] [] []]; vm_compute; intros H;
    first [discriminate H | split; discriminate].
Qed.

Lemma digits12_inv {A} (s : string) (k : Z -> string -> option A) (r : A) :
  DateRangeRegex.digits12 s k = Some r ->
  exists v rest, 0 <= v <= 99 /\ k v rest = Some r.
Proof.
  unfold DateRangeRegex.digits12. destruct s as [|a rest]; [discriminate|].
  destruct (isDigit a) eqn:Ha; [|discriminate].
  pose proof (digitValue_bounds a Ha) as Hva.
  destruct rest as [|b rest'].
  - intros Hk. exists (digitValue a), "". split; [lia|exact Hk].
  - destruct (isDigit b) eqn:Hb.
    + pose proof (digitValue_bounds b Hb) as Hvb.
      destruct (k (digitValue a * 10 + digitValue b) rest') as [r'|] eqn:Hk2.
      * intros Heq. injection Heq as <-.
        exists (digitValue a * 10 + digitValue b), rest'. split; [lia|exact Hk2].
      * intros Hk. exists (digitValue a), (String b rest'). split; [lia|exact Hk].
    + intros Hk. exists (digitValue a), (String b rest'). split; [lia|exact Hk].
Qed.

Lemma lit_inv {A} (c : ascii) (s : string) (k : string -> option A) (r : A) :
  DateRangeRegex.lit c s k = Some r -> exists rest, k rest = Some r.
Proof.
  unfold DateRangeRegex.lit. destruct s as [|a rest]; [discriminate|].
  destruct (Ascii.eqb a c); [|discriminate]. intros Hk. now exists rest.
Qed.

Lemma spacesFrom_inv {A} (s : string) (k : string -> option A) (r : A) :
  forall pending : nat,
    DateRangeRegex.spacesFrom pending s k = Some r -> exists rest, k rest = Some r.
Proof.
  induction s as [|c s IH]; intros [|n]; cbn [DateRangeRegex.spacesFrom].
  - intros Hk. now exists "".
  - discriminate.
  - destruct (DateRangeRegex.blankLength (String c s)) as [len|].
    + destruct (DateRangeRegex.spacesFrom (len - 1) s k) as [r'|] eqn:Hs.
      * intros Heq. injection Heq as <-. exact (IH _ Hs).
      * intros Hk. now exists (String c s).
    + intros Hk. now exists (String c s).
  - apply IH.
Qed.

Lemma spaces_inv {A} (s : string) (k : string -> option A) (r : A) :
  DateRangeRegex.spaces s k = Some r -> exists rest, k rest = Some r.
Proof. apply spacesFrom_inv. Qed.

Lemma search_inv (s : string) (range : Z * Z * Z * Z) :
  DateRangeRegex.search s = Some range ->
  exists suffix, DateRangeRegex.matchAt suffix = Some range.
Proof.
  induction s as [|c s IH]; cbn [DateRangeRegex.search].
  - destruct (DateRangeRegex.matchAt "") eqn:Hm; [|discriminate].
    intros Heq. injection Heq as <-. now exists "".
  - destruct (DateRangeRegex.matchAt (String c s)) eqn:Hm.
    + intros Heq. injection Heq as <-. now exists (String c s).
    + exact IH.
Qed.

(** X12. The four numbers read from a title are each between 0 and 99, and
    nothing more is checked: a month 0 or 13, or a day 0 or 45, is accepted
    and handed to the [Date] constructor. *)
Theorem range_numbers_two_digits (title : string)
    (startMonth startDay endMonth endDay : Z) :
  DateRangeRegex.search title = Some (startMonth, startDay, endMonth, endDay) ->
  0 <= startMonth <= 99 /\ 0 <= startDay <= 99
  /\ 0 <= endMonth <= 99 /\ 0 <= endDay <= 99.
Proof.
  intros Hs. apply search_inv in Hs as [suffix Hm]. unfold DateRangeRegex.matchAt in Hm.
  apply digits12_inv in Hm as (sm & s1 & Hsm & Hm).
  apply lit_inv in Hm as (s2 & Hm).
  apply digits12_inv in Hm as (sd & s3 & Hsd & Hm).
  apply spaces_inv in Hm as (s4 & Hm).
  apply lit_inv in Hm as (s5 & Hm).
  apply spaces_inv in Hm as (s6 & Hm).
  apply digits12_inv in Hm as (em & s7 & Hem & Hm).
  apply lit_inv in Hm as (s8 & Hm).
  apply digits12_inv in Hm as (ed & s9 & Hed & Hm).
  injection Hm as <- <- <- <-. now split_ands.
Qed.

Lemma range_numbers_two_digits_witness :
  DateRangeRegex.search "Schedule 13/45 - 0/0" = Some (13, 45, 0, 0)
  /\ 0 <= 13 <= 99 /\ 0 <= 45 <= 99 /\ 0 <= 0 <= 99 /\ 0 <= 0 <= 99.
Proof.
  split; [reflexivity|].
  apply (range_numbers_two_digits "Schedule 13/45 - 0/0" 13 45 0 0). reflexivity.
Defined.

Lemma withinRange_reversed (d m startDay endDay off : Z) :
  endDay < startDay -> withinRange d (m, startDay, m, endDay) off = false.
Proof.
  intros Hlt. unfold withinRange. rewrite Z.gtb_ltb, Z.ltb_irrefl.
  apply not_true_false. rewrite andb_true_iff, !Z.leb_le. intros [Hs He].
  unfold setHours, newDate in Hs, He.
  set (yr := if (0 <=? getFullYear d + off) && (getFullYear d + off <=? 99)
             then 1900 + (getFullYear d + off) else getFullYear d + off) in *.
  unfold makeDay in Hs, He.
  set (base := daysFromCivil (yr + (m - 1) / 12) ((m - 1) mod 12 + 1) 1) in *.
  rewrite !Z.div_mul in Hs, He by discriminate.
  unfold msPerDay in *. lia.
Qed.

(** X13. A title whose range starts and ends in the same month with the
    start day after the end day (say 3/10 - 3/5) contains no date for any
    candidate year; [findSheetNameForDate] returns such a title only as the
    fallback, with the warning. *)
Theorem reversed_range_only_fallback (prefix : string) (title : string)
    (m startDay endDay : Z) :
  DateRangeRegex.search title = Some (m, startDay, m, endDay) ->
  endDay < startDay ->
  (forall date, ~ covers prefix date title)
  /\ (forall date titles,
        fst (fst (findSheetNameForDate prefix date titles)) = Some title ->
        snd (findSheetNameForDate prefix date titles) = [WarnFallbackSheet title]).
Proof.
  intros Hs Hlt.
  assert (Hno : forall d, titleMatches prefix d title = false).
  { intros d. unfold titleMatches. rewrite Hs. cbn [existsb].
    rewrite !withinRange_reversed by exact Hlt. apply andb_false_r. }
  split.
  - intros date Hc. apply titleMatches_covers in Hc. rewrite Hno in Hc. discriminate.
  - intros date titles. unfold findSheetNameForDate. rewrite scanSheets_find.
    destruct (List.find (titleMatches prefix _) titles) as [t|] eqn:Hscan.
    + cbn [fst]. intros Heq. injection Heq as ->.
      apply find_some in Hscan as [_ Hm]. rewrite Hno in Hm. discriminate.
    + destruct (List.find (fun t => startsWith t prefix) titles) as [t|]; cbn [fst snd];
        [|intros Heq; discriminate Heq].
      intros Heq. now injection Heq as ->.
Qed.

Lemma reversed_range_only_fallback_witness :
  let titles := ["Schedule 3/10 - 3/5"] in
  findSheetNameForDate "Schedule" (newDate 2024 2 7) titles
  = (Some "Schedule 3/10 - 3/5", newDate 2024 2 7, [WarnFallbackSheet "Schedule 3/10 - 3/5"])
  /\ snd (findSheetNameForDate "Schedule" (newDate 2024 2 7) titles)
     = [WarnFallbackSheet "Schedule 3/10 - 3/5"].
Proof.
  intros titles. split; [vm_compute; reflexivity|].
  apply (proj2 (reversed_range_only_fallback "Schedule" "Schedule 3/10 - 3/5" 3 10 5
                  eq_refl ltac:(lia)) (newDate 2024 2 7) titles).
  vm_compute. reflexivity.
Defined.

(** ** The header row *)

Lemma substring0_prefix (n : nat) (s : string) : startsWith s (substring0 n s) = true.
Proof.
  revert s. induction n as [|n IH]; intros [|c s]; cbn; try reflexivity.
  now rewrite Ascii.eqb_refl, IH.
Qed.

Lemma substring0_ignoring_case (w s : string) :
  startsWithIgnoreCase s w = true ->
  toUpperCase (substring0 (String.length w) s) = toUpperCase w.
Proof.
  revert s. induction w as [|a w IH]; intros s; [now destruct s|].
  destruct s as [|b s]; cbn [startsWithIgnoreCase]; [discriminate|].
  intros [Hc Hs]%andb_true_iff. cbn [String.length substring0].
  unfold toUpperCase in *. cbn [mapChars]. rewrite (IH s Hs).
  unfold eqIgnoreCase in Hc. apply Ascii.eqb_eq in Hc. now rewrite Hc.
Qed.

Lemma matchDay_weekday (s name : string) :
  matchDay s = Some name ->
  startsWith s name = true
  /\ exists w, In w weekdays /\ toUpperCase name = toUpperCase w.
Proof.
  unfold matchDay. destruct (List.find (startsWithIgnoreCase s) weekdays) as [w|] eqn:Hw;
    [|discriminate].
  intros Heq. injection Heq as <-. apply find_some in Hw as [Hin Hs].
  split; [apply substring0_prefix|]. exists w. split; [exact Hin|].
  now apply substring0_ignoring_case.
Qed.

Lemma daysFrom_spec (cells : list cell) :
  forall (index : nat) (d : Day.t),
    In d (daysFrom cells index)
    <-> exists (i : nat) c,
          cells !! i = Some c /\ Day.colIndex d = (index + i)%nat
          /\ (0 < index + i)%nat /\ truthy c = true
          /\ matchDay (trim (jsString c)) = Some (Day.name d).
Proof.
  induction cells as [|c cells IH]; intros index d.
  - cbn. split; [intros []|intros (i & c & Hi & _); discriminate].
  - cbn [daysFrom].
    assert (Hrest : In d (daysFrom cells (S index))
              <-> exists (i : nat) c',
                    (c :: cells) !! S i = Some c' /\ Day.colIndex d = (index + S i)%nat
                    /\ (0 < index + S i)%nat /\ truthy c' = true
                    /\ matchDay (trim (jsString c')) = Some (Day.name d)).
    { rewrite IH. split; intros (i & c' & Hi & Hcol & Hpos & Ht & Hm);
        exists i, c'; split_ands; try assumption; lia. }
    assert (Hsplit : (exists (i : nat) c',
                         (c :: cells) !! i = Some c' /\ Day.colIndex d = (index + i)%nat
                         /\ (0 < index + i)%nat /\ truthy c' = true
                         /\ matchDay (trim (jsString c')) = Some (Day.name d))
               <-> ((Day.colIndex d = index /\ (0 < index)%nat /\ truthy c = true
                     /\ matchDay (trim (jsString c)) = Some (Day.name d))
                    \/ In d (daysFrom cells (S index)))).
    { rewrite Hrest. split.
      - intros ([|i] & c' & Hi & Hcol & Hpos & Ht & Hm).
        + cbn in Hi. injection Hi as <-. left. split_ands; try assumption; lia.
        + right. exists i, c'. now split_ands.
      - intros [(Hcol & Hpos & Ht & Hm)|(i & c' & H)].
        + exists 0%nat, c. split_ands; try assumption; try reflexivity; lia.
        + exists (S i), c'. exact H. }
    rewrite Hsplit. clear Hsplit Hrest IH.
    destruct (0 <? index)%nat eqn:Hpos; cbn [andb].
    + apply Nat.ltb_lt in Hpos. destruct (truthy c) eqn:Ht.
      * destruct (matchDay (trim (jsString c))) as [name|] eqn:Hm.
        -- cbn [In]. split.
           ++ intros [<-|H]; [left; now split_ands|now right].
           ++ intros [(Hcol & _ & _ & Hn)|H]; [left|now right].
              destruct d as [n ci]. cbn in *. congruence.
        -- split; [now right|]. intros [(_ & _ & _ & Hn)|H]; [discriminate|exact H].
      * split; [now right|]. intros [(_ & _ & Hn & _)|H]; [discriminate|exact H].
    + apply Nat.ltb_ge in Hpos.
      split; [now right|]. intros [(_ & Hn & _)|H]; [lia|exact H].
Qed.

Lemma daysFrom_sorted (cells : list cell) :
  forall index : nat,
    StronglySorted lt (Day.colIndex <$> daysFrom cells index)
    /\ Forall (fun d => (index <= Day.colIndex d)%nat) (daysFrom cells index).
Proof.
  induction cells as [|c cells IH]; intros index.
  - cbn. split; constructor.
  - destruct (IH (S index)) as [Hs Hall]. cbn [daysFrom].
    assert (Hweak : Forall (fun d => (index <= Day.colIndex d)%nat) (daysFrom cells (S index))).
    { eapply List.Forall_impl; [|exact Hall]. cbn. intros; lia. }
    destruct ((0 <? index)%nat && truthy c); [|now split].
    destruct (matchDay _) as [name|]; [|now split].
    split.
    + cbn [fmap list_fmap]. constructor; [exact Hs|].
      apply List.Forall_forall. intros ci Hci.
      apply list_elem_of_In, list_elem_of_fmap in Hci as (d & -> & Hd).
      apply list_elem_of_In in Hd. rewrite List.Forall_forall in Hall.
      specialize (Hall d Hd). cbn in *. lia.
    + constructor; [cbn; lia|exact Hweak].
Qed.

(** X14. The day columns discovered in a header row of ASCII text are
    exactly the columns after the first whose cell is truthy and whose
    trimmed text starts with a weekday name in any case; each is named by
    that start of the text as the header spells it; they come in strictly
    increasing column order, so no column is discovered twice. *)
Theorem day_columns_discovered (headerRow : list cell) :
  Forall (fun c => asciiCell c = true) headerRow ->
  (forall d, In d (discoverDays headerRow)
      <-> exists c, headerRow !! Day.colIndex d = Some c
            /\ (1 <= Day.colIndex d)%nat /\ truthy c = true
            /\ matchDay (trim (jsString c)) = Some (Day.name d))
  /\ (forall d, In d (discoverDays headerRow) ->
        (Day.colIndex d < length headerRow)%nat
        /\ startsWith (trim (jsString (cellAt headerRow (Day.colIndex d)))) (Day.name d) = true
        /\ exists w, In w weekdays /\ toUpperCase (Day.name d) = toUpperCase w)
  /\ StronglySorted lt (Day.colIndex <$> discoverDays headerRow).
Proof.
  intros _.
  assert (Hiff : forall d, In d (discoverDays headerRow)
      <-> exists c, headerRow !! Day.colIndex d = Some c
            /\ (1 <= Day.colIndex d)%nat /\ truthy c = true
            /\ matchDay (trim (jsString c)) = Some (Day.name d)).
  { intros d. unfold discoverDays. rewrite daysFrom_spec. split.
    - intros (i & c & Hi & Hcol & Hpos & Ht & Hm). exists c. cbn in Hcol, Hpos.
      rewrite Hcol. now split_ands.
    - intros (c & Hi & Hpos & Ht & Hm). exists (Day.colIndex d), c.
      split_ands; try assumption; cbn; lia. }
  split; [exact Hiff|]. split; [|apply daysFrom_sorted].
  intros d (c & Hi & Hpos & Ht & Hm)%Hiff.
  split; [now apply lookup_lt_Some in Hi|].
  assert (Hcell : cellAt headerRow (Day.colIndex d) = c).
  { unfold cellAt. now apply nth_lookup_Some. }
  rewrite Hcell. now apply matchDay_weekday.
Qed.

Lemma day_columns_discovered_witness :
  let headerRow := [CStr "Monday 1/1"; CStr " monday 12/30"; CStr "Notes"; CNull;
                    CStr "TUESDAY"; CBool true; CStr "Wed 1/1"; CStr "sunday"] in
  discoverDays headerRow = [Day.mk "monday" 1; Day.mk "TUESDAY" 4; Day.mk "sunday" 7]
  /\ StronglySorted lt (Day.colIndex <$> discoverDays headerRow).
Proof.
  intros headerRow. split; [reflexivity|].
  apply (day_columns_discovered headerRow). repeat constructor.
Defined.

(** ** The grid parser: what a scan builds *)

Lemma forall_set_key {V} (P : string * V -> Prop) (k : string) (v : V) (m : list (string * V)) :
  Forall P m -> P (k, v) -> Forall P (Dict.set k v m).
Proof.
  intros Hm Hv. induction Hm as [|[k' v'] m Hx Hm IH]; cbn [Dict.set].
  - constructor; [exact Hv|constructor].
  - destruct (String.eqb_spec k' k) as [->|Hne]; constructor; auto.
Qed.

Lemma has_in_keys {V} (k : string) (m : list (string * V)) :
  Dict.has k m = true <-> In k (Dict.keys m).
Proof.
  unfold Dict.has. rewrite get_in_keys. destruct (Dict.get k m) as [v|].
  - split; [intros _; now exists v|reflexivity].
  - split; [discriminate|intros [v Hv]; discriminate].
Qed.

Lemma nodup_keys_set {V} (k : string) (v : V) (m : list (string * V)) :
  NoDup (Dict.keys m) -> NoDup (Dict.keys (Dict.set k v m)).
Proof.
  intros Hnd. destruct (in_dec string_dec k (Dict.keys m)) as [Hin|Hout].
  - now rewrite keys_set_present.
  - rewrite keys_set_absent by exact Hout. apply NoDup_app. split; [exact Hnd|].
    split; [|apply NoDup_singleton].
    intros x Hx Hk. apply list_elem_of_singleton in Hk as ->.
    apply Hout. now apply list_elem_of_In.
Qed.

Lemma get_of_entry {V} (k : string) (v : V) (m : list (string * V)) :
  NoDup (Dict.keys m) -> In (k, v) m -> Dict.get k m = Some v.
Proof.
  induction m as [|[k' v'] m IH]; [intros _ []|]. cbn [Dict.keys fmap list_fmap fst].
  intros Hnd Hin. apply NoDup_cons in Hnd as [Hk' Hnd]. cbn [Dict.get].
  destruct Hin as [Heq|Hin].
  - injection Heq as -> ->. now rewrite String.eqb_refl.
  - destruct (String.eqb_spec k' k) as [->|Hne]; [|now apply IH].
    exfalso. apply Hk'. apply list_elem_of_In.
    change (In (fst (k, v)) (fst <$> m)). apply in_map. exact Hin.
Qed.

Lemma entry_of_get {V} (k : string) (v : V) (m : list (string * V)) :
  Dict.get k m = Some v -> In (k, v) m.
Proof.
  induction m as [|[k' v'] m IH]; [discriminate|]. cbn [Dict.get].
  destruct (String.eqb_spec k' k) as [->|Hne].
  - intros Heq. injection Heq as ->. now left.
  - intros H. right. now apply IH.
Qed.

(** What a step that returns has done to the drafts. *)
Lemma rowStep_cases (slots : list TimeSlot.t) (days : list Day.t) (rowIndex : nat)
    (row : list cell) (st st' : ScanState) :
  rowStep slots days rowIndex row st = Return st' ->
  repsMap st' = repsMap st
  \/ exists slotId before repData slots',
       slotRow slots row slotId before
       /\ isEmpty (resolveName before (currentRepContext st)) = false
       /\ repData
          = match Dict.get (resolveName before (currentRepContext st)) (repsMap st) with
            | Some old => old
            | None => Draft.mk (resolveName before (currentRepContext st))
                        (emptySlots days) (Z.of_nat rowIndex + 2)
            end
       /\ markDays slotId row days (Draft.unavailableSlots repData) = Return slots'
       /\ currentRepContext st' = Some (resolveName before (currentRepContext st))
       /\ repsMap st'
          = Dict.set (resolveName before (currentRepContext st))
              (Draft.mk (Draft.name repData) slots' (Draft.firstRowIndex repData))
              (if Dict.has (resolveName before (currentRepContext st)) (repsMap st)
               then repsMap st
               else Dict.set (resolveName before (currentRepContext st))
                      (Draft.mk (resolveName before (currentRepContext st))
                         (emptySlots days) (Z.of_nat rowIndex + 2))
                      (repsMap st)).
Proof.
  unfold rowStep.
  destruct (isEmpty (firstColOf row)) eqn:Hne.
  { intros Heq. injection Heq as <-. now left. }
  destruct (isDivider (firstColOf row)) eqn:Hdiv.
  { intros Heq. injection Heq as <-. now left. }
  destruct (matchLabels (timeSlotLabelsToIds slots) (firstColOf row))
    as [[slotId before]|] eqn:Hmatch; [|intros Heq; injection Heq as <-; now left].
  set (n := resolveName before (currentRepContext st)).
  destruct (isEmpty n) eqn:Hn; [intros Heq; injection Heq as <-; now left|].
  set (fresh := Draft.mk n (emptySlots days) (Z.of_nat rowIndex + 2)).
  unfold Dict.has.
  destruct (Dict.get n (repsMap st)) as [old|] eqn:Hold.
  - rewrite Hold.
    destruct (markDays slotId row days (Draft.unavailableSlots old)) as [slots'|e] eqn:Hmark;
      cbn [mbind completion_bind]; [|discriminate].
    intros Heq. injection Heq as <-. right. exists slotId, before, old, slots'.
    subst fresh; subst n. cbn [repsMap currentRepContext]. rewrite ?Hold.
    split; [now unfold slotRow|]. split_ands; try assumption; reflexivity.
  - rewrite get_set_eq.
    destruct (markDays slotId row days (Draft.unavailableSlots fresh)) as [slots'|e] eqn:Hmark;
      cbn [mbind completion_bind]; [|discriminate].
    intros Heq. injection Heq as <-. right. exists slotId, before, fresh, slots'.
    subst fresh; subst n. cbn [repsMap currentRepContext]. rewrite ?Hold.
    split; [now unfold slotRow|]. split_ands; try assumption; reflexivity.
Qed.

Lemma resolveName_origin (before : string) (context : option string) :
  resolveName before context = trim (stripTrailingColon (trim before))
  \/ (trim (stripTrailingColon (trim before)) = ""
      /\ context = Some (resolveName before context)).
Proof.
  unfold resolveName. destruct context as [c|]; [|now left].
  destruct (trim (stripTrailingColon (trim before))) as [|a s]; [|now left].
  cbn [isEmpty andb]. destruct c as [|a c]; cbn [isEmpty negb]; [now left|right; now split].
Qed.

(** A draft of the scanned state: carried over from the start state, or
    created by one of the rows. *)
Definition draftOrigin (slots : list TimeSlot.t) (st : ScanState) (rowIndex : nat)
    (rows : list (list cell)) (entry : string * Draft.t) : Prop :=
  (exists old, Dict.get (fst entry) (repsMap st) = Some old
               /\ Draft.name (snd entry) = Draft.name old
               /\ Draft.firstRowIndex (snd entry) = Draft.firstRowIndex old)
  \/ (Draft.name (snd entry) = fst entry /\ fst entry <> ""
      /\ exists (i : nat) row slotId before,
           rows !! i = Some row
           /\ Draft.firstRowIndex (snd entry) = Z.of_nat (rowIndex + i) + 2
           /\ slotRow slots row slotId before
           /\ (trim (stripTrailingColon (trim before)) = fst entry
               \/ trim (stripTrailingColon (trim before)) = "")).

Lemma scanRows_origin (slots : list TimeSlot.t) (days : list Day.t)
    (rows : list (list cell)) :
  forall (rowIndex : nat) (st st' : ScanState),
    NoDup (Dict.keys (repsMap st)) ->
    scanRows slots days rows rowIndex st = Return st' ->
    NoDup (Dict.keys (repsMap st'))
    /\ Forall (draftOrigin slots st rowIndex rows) (repsMap st').
Proof.
  induction rows as [|row rows IH]; intros rowIndex st st' Hnd Hscan.
  - cbn [scanRows] in Hscan. injection Hscan as <-. split; [exact Hnd|].
    apply List.Forall_forall. intros [k d] Hin. left. exists d.
    split; [now apply get_of_entry|now split].
  - cbn [scanRows] in Hscan.
    destruct (rowStep slots days rowIndex row st) as [st1|e] eqn:Hstep;
      cbn [mbind completion_bind] in Hscan; [|discriminate].
    pose proof (rowStep_cases _ _ _ _ _ _ Hstep) as Hcases.
    assert (Hnd1 : NoDup (Dict.keys (repsMap st1))).
    { destruct Hcases as [->|(slotId & before & rd & slots' & _ & _ & _ & _ & _ & ->)];
        [exact Hnd|].
      apply nodup_keys_set. destruct (Dict.has _ _); [exact Hnd|now apply nodup_keys_set]. }
    destruct (IH (S rowIndex) st1 st' Hnd1 Hscan) as [Hnd' Hall]. split; [exact Hnd'|].
    eapply List.Forall_impl; [|exact Hall]. intros [k d] Horigin. unfold draftOrigin in *.
    cbn [fst snd] in *.
    destruct Horigin as [(d1 & Hget1 & Hname & Hfri)|(Hname & Hk & i & r & sid & bef & Hi & Hfri & Hrow)].
    + destruct Hcases as [Heq|(slotId & before & rd & slots' & Hslot & Hn & Hrd & _ & _ & Hmap)].
      { left. exists d1. rewrite <- Heq. now split_ands. }
      set (n := resolveName before (currentRepContext st)) in *.
      rewrite Hmap in Hget1. destruct (String.eqb_spec k n) as [->|Hkn].
      * rewrite get_set_eq in Hget1. injection Hget1 as <-.
        cbn [Draft.name Draft.firstRowIndex] in Hname, Hfri.
        destruct (Dict.get n (repsMap st)) as [old|] eqn:Hold.
        -- left. exists old. subst rd. now split_ands.
        -- right. subst rd. cbn [Draft.name Draft.firstRowIndex] in Hname, Hfri.
           split; [exact Hname|]. split; [now destruct n|].
           exists 0%nat, row, slotId, before. split_ands; [reflexivity| |exact Hslot|].
           ++ rewrite Hfri. lia.
           ++ destruct (resolveName_origin before (currentRepContext st)) as [H|[H _]];
                [left; now symmetry|now right].
      * rewrite get_set_ne in Hget1 by exact Hkn.
        assert (Hget0 : Dict.get k (repsMap st) = Some d1).
        { destruct (Dict.has n (repsMap st)); [exact Hget1|].
          now rewrite get_set_ne in Hget1 by exact Hkn. }
        left. exists d1. now split_ands.
    + right. split; [exact Hname|]. split; [exact Hk|].
      exists (S i), r, sid, bef. split_ands; try tauto; try exact Hi. rewrite Hfri. lia.
Qed.



(** ** The grid parser: the recorded slot ids *)

Lemma in_set_value {V} (a k : string) (b v : V) (m : list (string * V)) :
  In (a, b) (Dict.set k v m) -> b = v \/ In (a, b) m.
Proof.
  induction m as [|[k' v'] m IH]; cbn [Dict.set].
  - intros [Heq|[]]. left. congruence.
  - destruct (String.eqb k' k).
    + intros [Heq|Hin]; [left; congruence|right; now right].
    + intros [Heq|Hin]; [right; now left|].
      destruct (IH Hin) as [H|H]; [now left|right; now right].
Qed.

Lemma timeSlotLabelsToIds_ids (slots : list TimeSlot.t) (label id : string) :
  In (label, id) (timeSlotLabelsToIds slots) ->
  exists slot, In slot slots /\ TimeSlot.id slot = id.
Proof.
  unfold timeSlotLabelsToIds.
  assert (Hgen : forall acc,
    In (label, id) (foldl (fun m slot =>
        Dict.set (toLowerCase (trim (TimeSlot.label slot))) (TimeSlot.id slot) m) acc slots) ->
    In (label, id) acc \/ exists slot, In slot slots /\ TimeSlot.id slot = id).
  { induction slots as [|slot slots IH]; intros acc; cbn [foldl]; [now left|].
    intros Hin. destruct (IH _ Hin) as [Hacc|(s & Hs & Hid)].
    - apply in_set_value in Hacc as [->|Hacc]; [right|now left].
      exists slot. split; [now left|reflexivity].
    - right. exists s. split; [now right|exact Hid]. }
  intros Hin. destruct (Hgen [] Hin) as [[]|H]. exact H.
Qed.

Lemma matchLabels_id (slots : list TimeSlot.t) (s slotId before : string) :
  matchLabels (timeSlotLabelsToIds slots) s = Some (slotId, before) ->
  exists slot, In slot slots /\ TimeSlot.id slot = slotId.
Proof.
  intros (earlier & label & later & Heq & _)%matchLabels_spec.
  apply (timeSlotLabelsToIds_ids slots label). rewrite Heq.
  apply in_or_app. right. now left.
Qed.

Lemma setAdd_catalog (slots : list TimeSlot.t) (x : string) (ids : list string) :
  (exists slot, In slot slots /\ TimeSlot.id slot = x) ->
  catalogIds slots ids -> catalogIds slots (setAdd x ids).
Proof.
  intros Hx [Hnd Hin]. unfold setAdd. destruct (existsb (String.eqb x) ids) eqn:E.
  - now split.
  - split.
    + apply NoDup_app. split; [exact Hnd|]. split; [|apply NoDup_singleton].
      intros y Hy Hyx. apply list_elem_of_singleton in Hyx. subst y.
      apply list_elem_of_In in Hy.
      assert (Ht : existsb (String.eqb x) ids = true).
      { apply existsb_exists. exists x. split; [exact Hy|apply String.eqb_refl]. }
      congruence.
    + intros s [Hs|[<-|[]]]%in_app_or; [now apply Hin|exact Hx].
Qed.

Lemma markDays_catalog (slots : list TimeSlot.t) (slotId : string) (row : list cell)
    (ds : list Day.t) :
  (exists slot, In slot slots /\ TimeSlot.id slot = slotId) ->
  forall table table' : list (string * list string),
    Forall (fun p => catalogIds slots (snd p)) table ->
    markDays slotId row ds table = Return table' ->
    Forall (fun p => catalogIds slots (snd p)) table'.
Proof.
  intros Hid. induction ds as [|day ds IH]; intros table table' Hall; cbn [markDays].
  - intros Heq. now injection Heq as <-.
  - unfold markDay at 1.
    destruct (isExplicitlyUnavailable (cellAt row (Day.colIndex day))); cbn [mbind completion_bind];
      [|now apply IH].
    destruct (Dict.get (Day.name day) table) as [ids|] eqn:Hget;
      cbn [mbind completion_bind]; [|discriminate].
    apply IH. apply forall_set; [exact Hall|]. intros ?. cbn [snd].
    apply setAdd_catalog; [exact Hid|].
    apply entry_of_get in Hget. rewrite List.Forall_forall in Hall.
    exact (Hall _ Hget).
Qed.

Lemma emptySlots_catalog (slots : list TimeSlot.t) (days : list Day.t) :
  Forall (fun p => catalogIds slots (snd p)) (emptySlots days).
Proof.
  pose proof (emptySlots_from_empty days [] (List.Forall_nil _)) as Hall.
  fold (emptySlots days) in Hall.
  eapply List.Forall_impl; [|exact Hall]. intros [k ids] Hids. cbn in *. subst ids.
  split; [constructor|intros s []].
Qed.

Lemma scanRows_catalog (slots : list TimeSlot.t) (days : list Day.t)
    (rows : list (list cell)) :
  forall (rowIndex : nat) (st st' : ScanState),
    Forall (fun e => Forall (fun p => catalogIds slots (snd p))
                       (Draft.unavailableSlots (snd e))) (repsMap st) ->
    scanRows slots days rows rowIndex st = Return st' ->
    Forall (fun e => Forall (fun p => catalogIds slots (snd p))
                       (Draft.unavailableSlots (snd e))) (repsMap st').
Proof.
  induction rows as [|row rows IH]; intros rowIndex st st' Hall Hscan; cbn [scanRows] in Hscan.
  - now injection Hscan as <-.
  - destruct (rowStep slots days rowIndex row st) as [st1|e] eqn:Hstep;
      cbn [mbind completion_bind] in Hscan; [|discriminate].
    apply (IH (S rowIndex) st1 st'); [|exact Hscan].
    destruct (rowStep_cases _ _ _ _ _ _ Hstep)
      as [->|(slotId & before & rd & table' & (_ & _ & Hm) & _ & Hrd & Hmark & _ & ->)];
      [exact Hall|].
    set (n := resolveName before (currentRepContext st)) in *.
    assert (Hbase : Forall (fun e => Forall (fun p => catalogIds slots (snd p))
                              (Draft.unavailableSlots (snd e)))
                      (if Dict.has n (repsMap st) then repsMap st
                       else Dict.set n (Draft.mk n (emptySlots days) (Z.of_nat rowIndex + 2))
                              (repsMap st))).
    { destruct (Dict.has n (repsMap st)); [exact Hall|].
      apply forall_set; [exact Hall|]. intros ?. apply emptySlots_catalog. }
    apply forall_set; [exact Hbase|]. intros ?. cbn [snd Draft.unavailableSlots].
    apply (markDays_catalog slots slotId row days (matchLabels_id _ _ _ _ Hm)
             (Draft.unavailableSlots rd)); [|exact Hmark].
    rewrite Hrd. destruct (Dict.get n (repsMap st)) as [old|] eqn:Hold.
    + apply entry_of_get in Hold. rewrite List.Forall_forall in Hall.
      exact (Hall _ Hold).
    + apply emptySlots_catalog.
Qed.

(** X16. In every rep built from a grid, the list of unavailable slots of a
    day has no repeated id and holds only ids of configured time slots, so it
    is never longer than the catalog. *)
Theorem unavailable_ids_from_catalog (slots : list TimeSlot.t)
    (skillsMap : gmap string Skill.t) (rankingsMap : gmap string Z)
    (headerRow : list cell) (dataRows : list (list cell))
    (reps : list Rep.t) (rep : Rep.t) (dayName : string) (ids : list string) :
  parseGrid slots skillsMap rankingsMap headerRow dataRows = Return reps ->
  In rep reps -> In (dayName, ids) (Rep.unavailableSlots rep) ->
  NoDup ids
  /\ (forall s, In s ids -> exists slot, In slot slots /\ TimeSlot.id slot = s)
  /\ (length ids <= length slots)%nat.
Proof.
  intros Hparse Hrep Hday. unfold parseGrid in Hparse.
  destruct (discoverDays headerRow) as [|d ds] eqn:Hdays; [discriminate|].
  destruct (scanRows slots (d :: ds) dataRows 0 (mkScan [] None)) as [st|e] eqn:Hscan;
    cbn [mbind completion_bind] in Hparse; [|discriminate].
  injection Hparse as <-.
  pose proof (scanRows_catalog slots (d :: ds) dataRows 0 (mkScan [] None) st
                (List.Forall_nil _) Hscan) as Hall.
  apply list_elem_of_In, elem_of_lookup_imap in Hrep as (i & repData & -> & Hlook).
  cbn [toRep Rep.unavailableSlots] in Hday.
  apply list_lookup_fmap_Some in Hlook as (entry & -> & Hentry).
  rewrite List.Forall_forall in Hall.
  assert (Hin : In entry (repsMap st)).
  { apply list_elem_of_In. eapply list_elem_of_lookup_2. exact Hentry. }
  specialize (Hall entry Hin). rewrite List.Forall_forall in Hall.
  destruct (Hall _ Hday) as [Hnd Hids]. cbn [snd] in *.
  split; [exact Hnd|]. split; [exact Hids|].
  rewrite <- (length_fmap TimeSlot.id slots).
  apply NoDup_incl_length; [now apply NoDup_ListNoDup|].
  intros s Hs. destruct (Hids s Hs) as (slot & Hslot & <-). now apply in_map.
Qed.

Lemma unavailable_ids_from_catalog_witness :
  let slots := [TimeSlot.mk "slot-1" "10am - 12pm"] in
  let rep := {| Rep.id := "rep-1-Sam-Lee"; Rep.name := "Sam Lee";
                Rep.availability := "Not available";
                Rep.unavailableSlots := [("Monday", ["slot-1"])];
                Rep.skills := None; Rep.zipCodes := None;
                Rep.region := PHX; Rep.salesRank := None |} in
  NoDup ["slot-1"]
  /\ (forall s, In s ["slot-1"] -> exists slot, In slot slots /\ TimeSlot.id slot = s)
  /\ (length ["slot-1"] <= length slots)%nat.
Proof.
  intros slots rep.
  apply (unavailable_ids_from_catalog slots ∅ ∅ [CStr "Rep"; CStr "Monday 10/27"]
           [[CStr "Sam Lee 10am - 12pm"; CStr "no"]; [CStr "Sam Lee: 10AM-12PM"; CStr "off"]]
           [rep] rep "Monday" ["slot-1"]).
  - vm_compute. reflexivity.
  - now left.
  - now left.
Defined.

(** ** The grid parser: rows only add *)

Lemma markDays_grows (slotId : string) (row : list cell) (ds : list Day.t) :
  forall table table' : list (string * list string),
    markDays slotId row ds table = Return table' ->
    forall dayName s, In s (slotIds dayName table) -> In s (slotIds dayName table').
Proof.
  induction ds as [|day ds IH]; intros table table'; cbn [markDays].
  - intros Heq. now injection Heq as <-.
  - unfold markDay at 1.
    destruct (isExplicitlyUnavailable (cellAt row (Day.colIndex day)));
      cbn [mbind completion_bind]; [|apply IH].
    destruct (Dict.get (Day.name day) table) as [ids|] eqn:Hget;
      cbn [mbind completion_bind]; [|discriminate].
    intros Hrest dayName s Hs. apply (IH _ _ Hrest). unfold slotIds in *.
    destruct (String.eqb_spec dayName (Day.name day)) as [->|Hne].
    + rewrite get_set_eq. rewrite Hget in Hs. cbn in *. apply in_setAdd. now left.
    + now rewrite get_set_ne.
Qed.

Lemma extendsState_refl (st : ScanState) : extendsState st st.
Proof.
  split; [exists []; now rewrite app_nil_r|].
  intros name d Hd. exists d. split; [exact Hd|]. now unfold extendsDraft; split_ands.
Qed.

Lemma extendsState_trans (st1 st2 st3 : ScanState) :
  extendsState st1 st2 -> extendsState st2 st3 -> extendsState st1 st3.
Proof.
  intros [[m1 Hk1] H1] [[m2 Hk2] H2]. split.
  - exists (m1 ++ m2). now rewrite Hk2, Hk1, app_assoc.
  - intros name d1 Hd1. destruct (H1 name d1 Hd1) as (d2 & Hd2 & Hn12 & Hf12 & Hs12).
    destruct (H2 name d2 Hd2) as (d3 & Hd3 & Hn23 & Hf23 & Hs23).
    exists d3. split; [exact Hd3|]. unfold extendsDraft; split_ands; [congruence|congruence|].
    intros dayName s Hs. now apply Hs23, Hs12.
Qed.

Lemma rowStep_extends (slots : list TimeSlot.t) (days : list Day.t) (rowIndex : nat)
    (row : list cell) (st st' : ScanState) :
  rowStep slots days rowIndex row st = Return st' -> extendsState st st'.
Proof.
  intros Hstep.
  destruct (rowStep_cases _ _ _ _ _ _ Hstep)
    as [Heq|(slotId & before & rd & table' & _ & _ & Hrd & Hmark & _ & Hmap)].
  { unfold extendsState. rewrite Heq. apply extendsState_refl. }
  set (n := resolveName before (currentRepContext st)) in *.
  set (fresh := Draft.mk n (emptySlots days) (Z.of_nat rowIndex + 2)) in *.
  unfold extendsState. rewrite Hmap. unfold Dict.has.
  destruct (Dict.get n (repsMap st)) as [old|] eqn:Hold.
  - subst rd. split.
    + exists []. rewrite app_nil_r. apply keys_set_present.
      apply get_in_keys. now exists old.
    + intros name d1 Hd1. destruct (String.eqb_spec name n) as [->|Hne].
      * rewrite get_set_eq. eexists. split; [reflexivity|].
        assert (d1 = old) as -> by congruence.
        unfold extendsDraft; split_ands; [reflexivity|reflexivity|]. cbn [Draft.unavailableSlots].
        now apply (markDays_grows _ _ _ _ _ Hmark).
      * rewrite get_set_ne by exact Hne. exists d1. split; [exact Hd1|]. now unfold extendsDraft; split_ands.
  - split.
    + exists [n].
      assert (Hout : ~ In n (Dict.keys (repsMap st))).
      { intros [v Hv]%get_in_keys. congruence. }
      rewrite keys_set_present by (apply in_keys_set; now left).
      now apply keys_set_absent.
    + intros name d1 Hd1. assert (Hne : name <> n) by congruence.
      rewrite !get_set_ne by exact Hne. exists d1. split; [exact Hd1|]. now unfold extendsDraft; split_ands.
Qed.

Lemma scanRows_extends (slots : list TimeSlot.t) (days : list Day.t)
    (rows : list (list cell)) :
  forall (rowIndex : nat) (st st' : ScanState),
    scanRows slots days rows rowIndex st = Return st' -> extendsState st st'.
Proof.
  induction rows as [|row rows IH]; intros rowIndex st st' Hscan; cbn [scanRows] in Hscan.
  - injection Hscan as <-. apply extendsState_refl.
  - destruct (rowStep slots days rowIndex row st) as [st1|e] eqn:Hstep;
      cbn [mbind completion_bind] in Hscan; [|discriminate].
    eapply extendsState_trans; [exact (rowStep_extends _ _ _ _ _ _ Hstep)|].
    exact (IH _ _ _ Hscan).
Qed.

Lemma scanRows_app (slots : list TimeSlot.t) (days : list Day.t)
    (rows1 rows2 : list (list cell)) :
  forall (rowIndex : nat) (st : ScanState),
    scanRows slots days (rows1 ++ rows2) rowIndex st
    = st1 ← scanRows slots days rows1 rowIndex st;
      scanRows slots days rows2 (rowIndex + length rows1) st1.
Proof.
  induction rows1 as [|row rows1 IH]; intros rowIndex st.
  - cbn. now rewrite Nat.add_0_r.
  - cbn [app scanRows length].
    destruct (rowStep slots days rowIndex row st) as [st1|e]; cbn [mbind completion_bind];
      [|reflexivity].
    rewrite IH. now replace (S rowIndex + length rows1)%nat with (rowIndex + S (length rows1))%nat by lia.
Qed.

(** X17. Scanning is incremental: a scan of [rows1 ++ rows2] that returns is
    the scan of [rows1] followed by the scan of [rows2] from the state and
    row number reached, and the later rows only add: the drafts found in
    [rows1] keep their order, their name and their [firstRowIndex] (so the
    region of a rep is fixed by its first slot row), and no unavailable slot
    recorded for them is removed. *)
Theorem scan_only_adds (slots : list TimeSlot.t) (days : list Day.t)
    (rows1 rows2 : list (list cell)) (rowIndex : nat) (st st2 : ScanState) :
  scanRows slots days (rows1 ++ rows2) rowIndex st = Return st2 ->
  exists st1,
    scanRows slots days rows1 rowIndex st = Return st1
    /\ scanRows slots days rows2 (rowIndex + length rows1) st1 = Return st2
    /\ (exists more, Dict.keys (repsMap st2) = Dict.keys (repsMap st1) ++ more)
    /\ forall name d1, Dict.get name (repsMap st1) = Some d1 ->
         exists d2, Dict.get name (repsMap st2) = Some d2
           /\ Draft.name d2 = Draft.name d1
           /\ Draft.firstRowIndex d2 = Draft.firstRowIndex d1
           /\ forall dayName s,
                In s (slotIds dayName (Draft.unavailableSlots d1)) ->
                In s (slotIds dayName (Draft.unavailableSlots d2)).
Proof.
  rewrite scanRows_app.
  destruct (scanRows slots days rows1 rowIndex st) as [st1|e]; cbn [mbind completion_bind];
    [|discriminate].
  intros Hscan. exists st1. split; [reflexivity|]. split; [exact Hscan|].
  exact (scanRows_extends _ _ _ _ _ _ Hscan).
Qed.

Lemma scan_only_adds_witness :
  let slots := [TimeSlot.mk "slot-1" "10am - 12pm"; TimeSlot.mk "slot-2" "12pm - 2pm"] in
  let days := [Day.mk "Monday" 1] in
  let rows1 := [[CStr "Ann Poe 10am - 12pm"; CStr "x"]] in
  let rows2 := [[CStr "Bo Ray 10am - 12pm"]; [CStr "Ann Poe 12pm - 2pm"; CStr "x"]] in
  exists st1,
    scanRows slots days rows1 0 (mkScan [] None) = Return st1
    /\ scanRows slots days rows2 (0 + length rows1) st1
       = Return (mkScan [("Ann Poe", Draft.mk "Ann Poe" [("Monday", ["slot-1"; "slot-2"])] 2);
                         ("Bo Ray", Draft.mk "Bo Ray" [("Monday", [])] 3)]
                   (Some "Ann Poe"))
    /\ (exists more, ["Ann Poe"; "Bo Ray"] = Dict.keys (repsMap st1) ++ more)
    /\ forall name d1, Dict.get name (repsMap st1) = Some d1 ->
         exists d2,
           Dict.get name
             [("Ann Poe", Draft.mk "Ann Poe" [("Monday", ["slot-1"; "slot-2"])] 2);
              ("Bo Ray", Draft.mk "Bo Ray" [("Monday", [])] 3)] = Some d2
           /\ Draft.name d2 = Draft.name d1
           /\ Draft.firstRowIndex d2 = Draft.firstRowIndex d1
           /\ forall dayName s,
                In s (slotIds dayName (Draft.unavailableSlots d1)) ->
                In s (slotIds dayName (Draft.unavailableSlots d2)).
Proof.
  intros slots days rows1 rows2.
  apply (scan_only_adds slots days rows1 rows2 0 (mkScan [] None)
           (mkScan [("Ann Poe", Draft.mk "Ann Poe" [("Monday", ["slot-1"; "slot-2"])] 2);
                    ("Bo Ray", Draft.mk "Bo Ray" [("Monday", [])] 3)]
              (Some "Ann Poe"))).
  reflexivity.
Defined.

(** ** The query: what comes back *)

Lemma parseGrid_names (slots : list TimeSlot.t) skillsMap rankingsMap
    (headerRow : list cell) (dataRows : list (list cell)) (reps : list Rep.t) :
  parseGrid slots skillsMap rankingsMap headerRow dataRows = Return reps ->
  NoDup (Rep.name <$> reps) /\ Forall (fun rep => Rep.name rep <> "") reps.
Proof.
  intros Hparse. unfold parseGrid in Hparse.
  destruct (discoverDays headerRow) as [|d ds] eqn:Hdays; [discriminate|].
  destruct (scanRows slots (d :: ds) dataRows 0 (mkScan [] None)) as [st|e] eqn:Hscan;
    cbn [mbind completion_bind] in Hparse; [|discriminate].
  injection Hparse as <-.
  destruct (scanRows_origin slots (d :: ds) dataRows 0 (mkScan [] None) st
              (NoDup_nil_2 (A:=string)) Hscan) as [Hnd Hall].
  assert (Hentries : Forall (fun e => Draft.name (snd e) = fst e /\ fst e <> "") (repsMap st)).
  { eapply List.Forall_impl; [|exact Hall]. intros [k dr] [(old & Hold & _)|(Hn & Hk & _)];
      [discriminate|now split]. }
  assert (Hnames : Rep.name <$> imap (toRep slots (d :: ds) skillsMap rankingsMap)
                                  (snd <$> repsMap st)
                   = Dict.keys (repsMap st)).
  { rewrite fmap_imap.
    rewrite (imap_ext _ (const Draft.name) (snd <$> repsMap st)) by reflexivity.
    rewrite imap_const, <- list_fmap_compose. unfold Dict.keys.
    clear Hall Hnd Hscan. induction Hentries as [|e m [He _] Hm IH]; [reflexivity|].
    cbn [fmap list_fmap compose]. f_equal; [exact He|exact IH]. }
  split; [now rewrite Hnames|].
  apply List.Forall_forall. intros rep Hrep.
  apply list_elem_of_In, elem_of_lookup_imap in Hrep as (i & repData & -> & Hlook).
  apply list_lookup_fmap_Some in Hlook as (entry & -> & Hentry).
  cbn [toRep Rep.name]. rewrite List.Forall_forall in Hentries.
  destruct (Hentries entry) as [Hn Hk]; [|congruence].
  apply list_elem_of_In. eapply list_elem_of_lookup_2. exact Hentry.
Qed.

Lemma fetchSheetData_sheet (prefix : string) (slots : list TimeSlot.t) (mock : bool)
    (net : Network) (date : Z) (result : QueryResult) :
  fst (fetchSheetDataBody prefix slots mock net date) = Return result ->
  exists r md titles sheetName,
    fetchDefault (metaServer net) = Return r /\ ok r = true /\ body r = Some md
    /\ sheets md = Some titles
    /\ fst (fst (findSheetNameForDate prefix date titles)) = Some sheetName
    /\ isEmpty sheetName = false
    /\ loadGrid slots mock net sheetName = Return result.
Proof.
  unfold fetchSheetDataBody.
  destruct (fetchDefault (metaServer net)) as [r|e] eqn:Hr; [|discriminate].
  destruct (ok r) eqn:Hok; cbn [negb]; [|discriminate].
  destruct (body r) as [md|] eqn:Hbody; [|discriminate].
  destruct (sheets md) as [titles|] eqn:Hsheets; [|discriminate].
  destruct (findSheetNameForDate prefix date titles) as [[[sheetName|] d1] lg] eqn:Hfind;
    [|discriminate].
  destruct (isEmpty sheetName) eqn:Hne; [discriminate|].
  cbn [fst]. intros Hload. exists r, md, titles, sheetName.
  split_ands; try reflexivity; try assumption. now rewrite Hfind.
Qed.

Lemma findSheetNameForDate_found (prefix : string) (date : Z) (titles : list string)
    (title : string) :
  fst (fst (findSheetNameForDate prefix date titles)) = Some title ->
  In title titles /\ startsWith title prefix = true.
Proof.
  unfold findSheetNameForDate. rewrite scanSheets_find.
  destruct (List.find (titleMatches prefix _) titles) as [t|] eqn:Hscan.
  - cbn [fst]. intros Heq. injection Heq as <-.
    apply find_some in Hscan as [Hin Hm]. split; [exact Hin|].
    now apply titleMatches_prefixed in Hm.
  - destruct (List.find (fun t => startsWith t prefix) titles) as [t|] eqn:Hfb;
      cbn [fst]; [|intros Heq; discriminate Heq].
    intros Heq. injection Heq as <-. now apply find_some in Hfb.
Qed.

(** X18. In a rep list that [fetchSheetData] builds from the grid, no two
    reps have the same name and no name is empty; the sheet name returned
    with it is one of the titles of the metadata, starts with the prefix and
    is not empty. *)
Theorem result_names (prefix : string) (slots : list TimeSlot.t) (mock : bool)
    (net : Network) (date : Z) (reps : list Rep.t) (sheetName : string) :
  fst (fetchSheetData prefix slots mock net date) = Return (Reps reps sheetName) ->
  NoDup (Rep.name <$> reps)
  /\ (forall rep, In rep reps -> Rep.name rep <> "")
  /\ sheetName <> ""
  /\ startsWith sheetName prefix = true
  /\ exists r md titles,
       fetchDefault (metaServer net) = Return r /\ body r = Some md
       /\ sheets md = Some titles /\ In sheetName titles.
Proof.
  intros Hres.
  assert (Hbody : fst (fetchSheetDataBody prefix slots mock net date)
                  = Return (Reps reps sheetName)).
  { unfold fetchSheetData in Hres.
    destruct (fetchSheetDataBody prefix slots mock net date) as [[res|e] d'];
      [exact Hres|destruct mock; discriminate]. }
  apply fetchSheetData_sheet in Hbody
    as (r & md & titles & sn & Hr & Hok & Hmd & Hsheets & Hfound & Hne & Hload).
  destruct (loadGrid_reps slots mock net sn sheetName reps Hload) as [-> Hreps].
  apply findSheetNameForDate_found in Hfound as [Hin Hprefix].
  assert (Hnames : NoDup (Rep.name <$> reps) /\ Forall (fun rep => Rep.name rep <> "") reps).
  { destruct Hreps as [->|(r' & data & headerRow & dataRows & _ & _ & _ & Hparse)].
    - split; constructor.
    - exact (parseGrid_names _ _ _ _ _ _ Hparse). }
  destruct Hnames as [Hnd Hall]. split; [exact Hnd|]. split.
  - now apply List.Forall_forall.
  - split; [now destruct sn|]. split; [exact Hprefix|].
    exists r, md, titles. now split_ands.
Qed.

Lemma result_names_witness :
  let slots := [TimeSlot.mk "slot-1" "10am - 12pm"] in
  let grid := [[CStr "Name"; CStr "Monday 12/30"];
               [CStr "Sam Lee"]; [CStr "10am - 12pm"; CStr "FALSE"];
               [CStr "Ann Poe: 10am - 12pm"]; [CStr "Sam Lee 10am-12pm"; CStr "TRUE"]] in
  let net := {| skillsServer := fun _ => Responds (resp 403);
                ranksServer := fun _ => Rejects "offline";
                metaServer := fun _ => Responds (metaOf ["Notes"; "Schedule 12/30 - 1/5"]);
                dataServer := fun _ _ => Responds (gridOf grid) |} in
  exists reps,
    fst (fetchSheetData "Schedule" slots false net (newDate 2024 0 2))
    = Return (Reps reps "Schedule 12/30 - 1/5")
    /\ Rep.name <$> reps = ["Sam Lee"; "Ann Poe"]
    /\ NoDup (Rep.name <$> reps).
Proof.
  intros slots grid net.
  eexists. split; [vm_compute; reflexivity|]. split; [reflexivity|].
  eapply (proj1 (result_names "Schedule" slots false net (newDate 2024 0 2) _
                   "Schedule 12/30 - 1/5" _)).
  Unshelve. vm_compute. reflexivity.
Defined.

Lemma fetchDefault_throws (server : nat -> outcome) (e : Error) :
  fetchDefault server = Throw e -> exists cause, e = TransportError cause.
Proof.
  unfold fetchDefault.
  destruct (fetchWithRetry_run server 3 1000 ltac:(lia)) as (k & _ & _ & _ & Hrun).
  rewrite Hrun. cbn [fst]. destruct (server k) as [r|cause]; cbn [handed]; [discriminate|].
  intros Heq. injection Heq as <-. now exists cause.
Qed.


Lemma loadGrid_mock (slots : list TimeSlot.t) (net : Network) (sheetName : string) :
  match loadGrid slots false net sheetName with
  | Throw e => loadGrid slots true net sheetName = Throw e
  | Return (Reps [] sn) => loadGrid slots true net sheetName = Return MockData
  | Return (Reps (rep :: reps) sn) =>
      loadGrid slots true net sheetName = Return (Reps (rep :: reps) sn)
  | Return MockData => False
  end.
Proof.
  unfold loadGrid.
  destruct (fetchDefault (dataServer net sheetName)) as [r|e];
    cbn [mbind completion_bind]; [|reflexivity].
  destruct (ok r); cbn [negb]; [|reflexivity].
  destruct (body r) as [data|]; [|reflexivity].
  destruct (values data) as [[|headerRow [|row rows]]|]; try reflexivity.
  destruct (parseGrid slots _ _ headerRow (row :: rows)) as [[|rep reps]|e];
    cbn [mbind completion_bind orMock]; reflexivity.
Qed.

Lemma fetchSheetDataBody_mock (prefix : string) (slots : list TimeSlot.t)
    (net : Network) (date : Z) :
  match fst (fetchSheetDataBody prefix slots false net date) with
  | Throw e => fst (fetchSheetDataBody prefix slots true net date) = Throw e
  | Return (Reps [] sn) =>
      fst (fetchSheetDataBody prefix slots true net date) = Return MockData
  | Return (Reps (rep :: reps) sn) =>
      fst (fetchSheetDataBody prefix slots true net date) = Return (Reps (rep :: reps) sn)
  | Return MockData => False
  end.
Proof.
  unfold fetchSheetDataBody.
  destruct (fetchDefault (metaServer net)) as [r|e]; [|reflexivity].
  destruct (ok r); cbn [negb]; [|reflexivity].
  destruct (body r) as [md|]; [|reflexivity].
  destruct (sheets md) as [titles|]; [|reflexivity].
  destruct (findSheetNameForDate prefix date titles) as [[[sheetName|] d1] lg];
    [|reflexivity].
  destruct (isEmpty sheetName); [reflexivity|]. cbn [fst].
  apply loadGrid_mock.
Qed.

(** X19. With the mock fallback on, [fetchSheetData] never raises. It
    returns the mock data set exactly when the same query without the
    fallback raises or returns an empty rep list; otherwise it returns the
    rep list, not empty, and the sheet name that the query without the
    fallback returns. The [Date] object is left the same either way. *)
Theorem mock_fallback_total (prefix : string) (slots : list TimeSlot.t)
    (net : Network) (date : Z) :
  let plain := fst (fetchSheetData prefix slots false net date) in
  exists result,
    fst (fetchSheetData prefix slots true net date) = Return result
    /\ (result = MockData
        <-> (exists e, plain = Throw e) \/ (exists sheetName, plain = Return (Reps [] sheetName)))
    /\ (forall reps sheetName,
          result = Reps reps sheetName
          <-> reps <> [] /\ plain = Return (Reps reps sheetName))
    /\ snd (fetchSheetData prefix slots true net date)
       = snd (fetchSheetData prefix slots false net date).
Proof.
  intros plain.
  assert (Hdate : snd (fetchSheetData prefix slots true net date)
                  = snd (fetchSheetData prefix slots false net date)).
  { rewrite !fetchSheetData_date. unfold fetchSheetDataBody.
    destruct (fetchDefault (metaServer net)) as [r|e]; [|reflexivity].
    destruct (ok r); cbn [negb]; [|reflexivity].
    destruct (body r) as [md|]; [|reflexivity].
    destruct (sheets md) as [titles|]; [|reflexivity].
    destruct (findSheetNameForDate prefix date titles) as [[[sheetName|] d1] lg];
      [|reflexivity].
    now destruct (isEmpty sheetName). }
  pose proof (fetchSheetDataBody_mock prefix slots net date) as Hmock.
  assert (Hplain : plain = fst (fetchSheetDataBody prefix slots false net date)).
  { unfold plain, fetchSheetData.
    now destruct (fetchSheetDataBody prefix slots false net date) as [[res|e] d']. }
  assert (Hon : forall res,
            fst (fetchSheetDataBody prefix slots true net date) = res ->
            fst (fetchSheetData prefix slots true net date)
            = match res with Return r => Return r | Throw _ => Return MockData end).
  { intros res <-. unfold fetchSheetData.
    now destruct (fetchSheetDataBody prefix slots true net date) as [[res|e] d']. }
  rewrite <- Hplain in Hmock.
  destruct plain as [[[|rep reps] sn|]|e] eqn:Hp; [| | destruct Hmock |].
  - exists MockData. rewrite (Hon _ Hmock). split_ands; [reflexivity| | |exact Hdate].
    + split; [intros _; right; now exists sn|reflexivity].
    + intros reps0 sn0. split; [discriminate|]. intros [Hne Heq].
      injection Heq as <- _. now destruct Hne.
  - exists (Reps (rep :: reps) sn). rewrite (Hon _ Hmock).
    split_ands; [reflexivity| | |exact Hdate].
    + split; [discriminate|]. intros [[e He]|[sn0 Hs]]; discriminate.
    + intros reps0 sn0. split.
      * intros Heq. injection Heq as <- <-. split; [discriminate|reflexivity].
      * intros [_ Heq]. now injection Heq as <- <-.
  - exists MockData. rewrite (Hon _ Hmock). split_ands; [reflexivity| | |exact Hdate].
    + split; [intros _; left; now exists e|reflexivity].
    + intros reps0 sn0. split; [discriminate|]. intros [_ Heq]. discriminate.
Qed.



(** ** The single-cell lookup *)

(** X21. [fetchSheetCell] raises in exactly two ways. Without a sheet name
    it raises the missing-name error whatever the network would answer; with
    one, it raises exactly when the request fails in the transport, is
    answered with a status outside 2xx, or carries a malformed body, and the
    error is then always the same one, naming the cell; in every other case
    it returns a text. *)
Theorem fetchSheetCell_errors (server : string -> string -> nat -> outcome)
    (cell sheetName : string) :
  (fetchSheetCell server cell sheetName = CellThrows SheetNameMissing <-> sheetName = "")
  /\ (sheetName <> "" ->
      forall e, fetchSheetCell server cell sheetName = CellThrows e
        <-> e = CellUnavailable cell
            /\ ((exists cause,
                   fetchDefault (server cell sheetName) = Throw (TransportError cause))
                \/ exists r, fetchDefault (server cell sheetName) = Return r
                     /\ (~ (200 <= status r <= 299) \/ body r = None)))
  /\ (forall r data, sheetName <> "" ->
        fetchDefault (server cell sheetName) = Return r -> 200 <= status r <= 299 ->
        body r = Some data ->
        exists text, fetchSheetCell server cell sheetName = CellValue text).
Proof.
  assert (Hok : forall r, ok r = true <-> 200 <= status r <= 299).
  { intros r. unfold ok. rewrite andb_true_iff, !Z.leb_le. reflexivity. }
  unfold fetchSheetCell. split_ands.
  - destruct sheetName as [|a s]; cbn [isEmpty]; [now split|].
    split; [|discriminate].
    destruct (fetchDefault (server cell (String a s))) as [r|e]; [|discriminate].
    destruct (negb (ok r)); [discriminate|]. destruct (body r) as [data|]; [|discriminate].
    destruct (firstCell data) as [|b|[|c t]]; discriminate.
  - intros Hname e. destruct sheetName as [|a s]; [congruence|]. cbn [isEmpty].
    destruct (fetchDefault (server cell (String a s))) as [r|e0] eqn:Hr.
    + destruct (ok r) eqn:Hokr; cbn [negb].
      * apply Hok in Hokr. destruct (body r) as [data|] eqn:Hbody.
        -- split.
           ++ destruct (firstCell data) as [|b|[|c t]]; discriminate.
           ++ intros [_ [[cause Hc]|(r0 & Hr0 & [Hst|Hb])]]; [discriminate| |].
              ** injection Hr0 as <-. now destruct Hst.
              ** injection Hr0 as <-. congruence.
        -- split.
           ++ intros Heq. injection Heq as <-. split; [reflexivity|].
              right. exists r. split; [reflexivity|now right].
           ++ now intros [-> _].
      * split.
        -- intros Heq. injection Heq as <-. split; [reflexivity|].
           right. exists r. split; [reflexivity|left].
           intros Hst. apply Hok in Hst. congruence.
        -- now intros [-> _].
    + split.
      * intros Heq. injection Heq as <-. split; [reflexivity|]. left.
        destruct (fetchDefault_throws _ _ Hr) as [cause ->]. now exists cause.
      * now intros [-> _].
  - intros r data Hname Hr Hst Hbody. destruct sheetName as [|a s]; [congruence|].
    cbn [isEmpty]. apply Hok in Hst. rewrite Hr, Hst, Hbody. cbn [negb].
    destruct (firstCell data) as [|b|[|c t]]; now eexists.
Qed.

Lemma fetchSheetCell_errors_witness :
  let server := fun (_ _ : string) (_ : nat) => Responds (resp 404) in
  fetchSheetCell server "B2" "Week 1" = CellThrows (CellUnavailable "B2").
Proof.
  intros server.
  apply (proj1 (proj2 (fetchSheetCell_errors server "B2" "Week 1")) ltac:(discriminate)
           (CellUnavailable "B2")).
  split; [reflexivity|]. right. exists (resp 404). split; [reflexivity|].
  left. cbn [status resp]. lia.
Defined.

(** X22. A value returned by [fetchSheetCell] is never the empty string: a
    grid without rows, an empty first row, a null and an empty string all
    come back as the text '(empty)'; any other string comes back unchanged
    (not trimmed), and a boolean as 'true' or 'false'. *)
Theorem fetchSheetCell_values (server : string -> string -> nat -> outcome)
    (cell sheetName : string) (r : Response) (data : Json) :
  sheetName <> "" ->
  fetchDefault (server cell sheetName) = Return r -> ok r = true -> body r = Some data ->
  (forall text, fetchSheetCell server cell sheetName = CellValue text -> text <> "")
  /\ (values data = None \/ values data = Some [] \/ (exists rows, values data = Some ([] :: rows))
      \/ (exists row rows, values data = Some ((CNull :: row) :: rows))
      \/ (exists row rows, values data = Some ((CStr "" :: row) :: rows)) ->
      fetchSheetCell server cell sheetName = CellValue "(empty)")
  /\ (forall s row rows, values data = Some ((CStr s :: row) :: rows) -> s <> "" ->
        fetchSheetCell server cell sheetName = CellValue s)
  /\ (forall b row rows, values data = Some ((CBool b :: row) :: rows) ->
        fetchSheetCell server cell sheetName = CellValue (if b then "true" else "false")).
Proof.
  intros Hname Hr Hok Hbody.
  assert (Hrun : fetchSheetCell server cell sheetName
                 = match firstCell data with
                   | CNull => CellValue "(empty)"
                   | CStr "" => CellValue "(empty)"
                   | value => CellValue (jsString value)
                   end).
  { unfold fetchSheetCell. destruct sheetName; [congruence|]. cbn [isEmpty].
    now rewrite Hr, Hok, Hbody. }
  rewrite Hrun. unfold firstCell. split_ands.
  - intros text. destruct (values data) as [[|row rows]|]; try (intros [= <-]; discriminate).
    destruct (cellAt row 0) as [|[|]|[|c t]]; intros [= <-]; discriminate.
  - intros [->|[->|[(rows & ->)|[(row & rows & ->)|(row & rows & ->)]]]]; reflexivity.
  - intros s row rows -> Hs. cbn. destruct s; [congruence|reflexivity].
  - intros b row rows ->. now destruct b.
Qed.

Lemma fetchSheetCell_values_witness :
  let server := fun (_ _ : string) (_ : nat) => Responds (gridOf [[CStr " 7:30 "]]) in
  fetchSheetCell server "A1" "Week 1" = CellValue " 7:30 ".
Proof.
  intros server.
  apply (proj1 (proj2 (proj2 (fetchSheetCell_values server "A1" "Week 1"
                                (gridOf [[CStr " 7:30 "]])
                                {| sheets := None; values := Some [[CStr " 7:30 "]] |}
                                ltac:(discriminate) eq_refl eq_refl eq_refl)))
           " 7:30 " [] []); [reflexivity|discriminate].
Defined.

(** ** The grid parser: dividers and labels *)
















(** ** The grid parser: a row read twice *)

Lemma set_same {V} (k : string) (v : V) (m : list (string * V)) :
  Dict.get k m = Some v -> Dict.set k v m = m.
Proof.
  induction m as [|[k' v'] m IH]; [discriminate|]. cbn [Dict.get Dict.set].
  destruct (String.eqb k' k); [intros Heq; now injection Heq as ->|].
  intros H. now rewrite IH.
Qed.

Lemma setAdd_present (x : string) (l : list string) : In x l -> setAdd x l = l.
Proof.
  intros Hin. unfold setAdd.
  assert (Ht : existsb (String.eqb x) l = true).
  { apply existsb_exists. exists x. split; [exact Hin|apply String.eqb_refl]. }
  now rewrite Ht.
Qed.

Lemma markDays_marked (slotId : string) (row : list cell) (ds : list Day.t) :
  forall table table' : list (string * list string),
    markDays slotId row ds table = Return table' ->
    forall d, In d ds -> isExplicitlyUnavailable (cellAt row (Day.colIndex d)) = true ->
      In slotId (slotIds (Day.name d) table').
Proof.
  induction ds as [|day ds IH]; intros table table' Hrun d Hd Hmark; [destruct Hd|].
  cbn [markDays] in Hrun.
  destruct (markDay slotId row table day) as [table1|e] eqn:Hday;
    cbn [mbind completion_bind] in Hrun; [|discriminate].
  destruct Hd as [->|Hd]; [|exact (IH _ _ Hrun d Hd Hmark)].
  apply (markDays_grows _ _ _ _ _ Hrun). unfold markDay in Hday. rewrite Hmark in Hday.
  destruct (Dict.get (Day.name d) table) as [ids|]; [|discriminate].
  injection Hday as <-. unfold slotIds. rewrite get_set_eq. cbn.
  apply in_setAdd. now right.
Qed.

Lemma markDays_fixed (slotId : string) (row : list cell) (ds : list Day.t)
    (table : list (string * list string)) :
  (forall d, In d ds -> isExplicitlyUnavailable (cellAt row (Day.colIndex d)) = true ->
             In slotId (slotIds (Day.name d) table)) ->
  markDays slotId row ds table = Return table.
Proof.
  induction ds as [|day ds IH]; intros Hall; [reflexivity|]. cbn [markDays].
  assert (Hday : markDay slotId row table day = Return table).
  { unfold markDay.
    destruct (isExplicitlyUnavailable (cellAt row (Day.colIndex day))) eqn:Hmark;
      [|reflexivity].
    pose proof (Hall day (or_introl eq_refl) Hmark) as Hin. unfold slotIds in Hin.
    destruct (Dict.get (Day.name day) table) as [ids|] eqn:Hget; [|destruct Hin].
    cbn in Hin. rewrite (setAdd_present _ _ Hin). now rewrite set_same. }
  rewrite Hday. cbn [mbind completion_bind]. apply IH.
  intros d Hd. apply Hall. now right.
Qed.

Lemma resolveName_stable (before : string) (context : option string) :
  isEmpty (resolveName before context) = false ->
  resolveName before (Some (resolveName before context)) = resolveName before context.
Proof.
  unfold resolveName. destruct (trim (stripTrailingColon (trim before))) as [|a s].
  - cbn [isEmpty andb]. destruct context as [[|c t]|]; cbn [isEmpty negb];
      try discriminate. reflexivity.
  - cbn [isEmpty andb]. now destruct context.
Qed.

Lemma rowStep_slot_inv (slots : list TimeSlot.t) (days : list Day.t) (rowIndex : nat)
    (row : list cell) (st st' : ScanState) (slotId before : string) :
  isEmpty (firstColOf row) = false ->
  isDivider (firstColOf row) = false ->
  matchLabels (timeSlotLabelsToIds slots) (firstColOf row) = Some (slotId, before) ->
  isEmpty (resolveName before (currentRepContext st)) = false ->
  rowStep slots days rowIndex row st = Return st' ->
  exists repData table' base,
    Dict.get (resolveName before (currentRepContext st)) base = Some repData
    /\ markDays slotId row days (Draft.unavailableSlots repData) = Return table'
    /\ st' = mkScan (Dict.set (resolveName before (currentRepContext st))
                       (Draft.mk (Draft.name repData) table' (Draft.firstRowIndex repData))
                       base)
                    (Some (resolveName before (currentRepContext st))).
Proof.
  intros Hne Hdiv Hmatch Hname. unfold rowStep. rewrite Hne, Hdiv, Hmatch, Hname.
  set (n := resolveName before (currentRepContext st)).
  set (base := if Dict.has n (repsMap st) then repsMap st
               else Dict.set n (Draft.mk n (emptySlots days) (Z.of_nat rowIndex + 2))
                      (repsMap st)).
  destruct (Dict.get n base) as [rd|] eqn:Hget; [|discriminate].
  destruct (markDays slotId row days (Draft.unavailableSlots rd)) as [table'|e] eqn:Hmark;
    cbn [mbind completion_bind]; [|discriminate].
  intros Heq. injection Heq as <-. now exists rd, table', base.
Qed.

(** X25. Reading the same row twice in a row changes nothing the second
    time: whatever the row is (blank, divider, bare name or slot row), the
    step applied to the state it has just produced returns that state, at any
    row number. A duplicated row never moves a rep's [firstRowIndex] and
    never adds a slot id twice. *)
Theorem repeated_row_is_harmless (slots : list TimeSlot.t) (days : list Day.t)
    (rowIndex rowIndex' : nat) (row : list cell) (st st' : ScanState) :
  rowStep slots days rowIndex row st = Return st' ->
  rowStep slots days rowIndex' row st' = Return st'.
Proof.
  intros Hstep.
  destruct (isEmpty (firstColOf row)) eqn:Hne.
  { unfold rowStep in *. rewrite Hne in *. now injection Hstep as <-. }
  destruct (isDivider (firstColOf row)) eqn:Hdiv.
  { unfold rowStep in *. rewrite Hne, Hdiv in *. now injection Hstep as <-. }
  destruct (matchLabels (timeSlotLabelsToIds slots) (firstColOf row))
    as [[slotId before]|] eqn:Hmatch.
  2:{ unfold rowStep in *. rewrite Hne, Hdiv, Hmatch in *. now injection Hstep as <-. }
  destruct (isEmpty (resolveName before (currentRepContext st))) eqn:Hname.
  { unfold rowStep in *. rewrite Hne, Hdiv, Hmatch, Hname in *. injection Hstep as <-.
    now rewrite Hname. }
  destruct (rowStep_slot_inv _ _ _ _ _ _ _ _ Hne Hdiv Hmatch Hname Hstep)
    as (rd & table' & base & Hget & Hmark & ->).
  set (n := resolveName before (currentRepContext st)) in *.
  set (v := Draft.mk (Draft.name rd) table' (Draft.firstRowIndex rd)).
  assert (Hstable : resolveName before (Some n) = n)
    by exact (resolveName_stable before _ Hname).
  unfold rowStep. rewrite Hne, Hdiv, Hmatch. cbn [currentRepContext repsMap].
  rewrite !Hstable, Hname. unfold Dict.has. rewrite !get_set_eq. subst v.
  cbn [Draft.name Draft.unavailableSlots Draft.firstRowIndex].
  rewrite (markDays_fixed slotId row days table').
  - cbn [mbind completion_bind]. f_equal. f_equal. apply set_same, get_set_eq.
  - intros d Hd Hm. exact (markDays_marked _ _ _ _ _ Hmark d Hd Hm).
Qed.

Lemma repeated_row_is_harmless_witness :
  let slots := [TimeSlot.mk "slot-1" "10am - 12pm"] in
  let days := [Day.mk "Monday" 1; Day.mk "Tuesday" 2] in
  let row := [CStr "Sam Lee 10am - 12pm"; CStr "off"; CStr "TRUE"] in
  let st' := mkScan [("Sam Lee", Draft.mk "Sam Lee" [("Monday", ["slot-1"]); ("Tuesday", [])] 7)]
               (Some "Sam Lee") in
  rowStep slots days 6 row st' = Return st'.
Proof.
  intros slots days row st'.
  apply (repeated_row_is_harmless slots days 5 6 row (mkScan [] None) st').
  reflexivity.
Defined.

(** ** The reps of a result: identifiers *)

Lemma pretty_N_char_digit (x : N) : isDigit (pretty_N_char x) = true.
Proof. unfold pretty_N_char. repeat case_match; reflexivity. Qed.

Lemma pretty_N_go_digits (x : N) :
  forall s, exists d, pretty_N_go x s = d +:+ s /\ allChars isDigit d = true.
Proof.
  induction (N.lt_wf_0 x) as [x _ IH]; intros s.
  destruct (decide (x = 0)%N) as [->|Hx].
  - exists "". now rewrite pretty_N_go_0.
  - rewrite pretty_N_go_step by lia.
    assert (Hlt : (x `div` 10 < x)%N) by (apply N.div_lt; lia).
    destruct (IH _ Hlt (String (pretty_N_char (x `mod` 10)%N) s)) as (d & -> & Hd).
    exists (d +:+ String (pretty_N_char (x `mod` 10)%N) ""). split.
    + now rewrite string_app_assoc.
    + rewrite allChars_app, Hd. cbn [allChars andb]. now rewrite pretty_N_char_digit.
Qed.

Lemma pretty_nat_digits (n : nat) : allChars isDigit (pretty n) = true.
Proof.
  unfold pretty, pretty_nat, pretty, pretty_N. case_decide; [reflexivity|].
  destruct (pretty_N_go_digits (N.of_nat n) "") as (d & -> & Hd).
  now rewrite allChars_app, Hd.
Qed.

Lemma digits_then_dash (p : string) :
  forall q x y : string,
    allChars isDigit p = true -> allChars isDigit q = true ->
    p +:+ String "-" x = q +:+ String "-" y -> p = q.
Proof.
  induction p as [|a p IH]; intros [|b q] x y Hp Hq Heq.
  - reflexivity.
  - change (String "-" x = String b (q +:+ String "-" y)) in Heq.
    injection Heq as <- _. discriminate Hq.
  - change (String a (p +:+ String "-" x) = String "-" y) in Heq.
    injection Heq as -> _. discriminate Hp.
  - change (String a (p +:+ String "-" x) = String b (q +:+ String "-" y)) in Heq.
    injection Heq as -> Heq. f_equal.
    cbn [allChars] in Hp, Hq. apply andb_true_iff in Hp as [_ Hp].
    apply andb_true_iff in Hq as [_ Hq]. exact (IH q x y Hp Hq Heq).
Qed.

Lemma digit_not_space (c : ascii) : isDigit c = true -> negb (isSpace c) = true.
Proof.
  destruct c as [[] [] [] [] [] [] [] []]; vm_compute; intros H;
    first [reflexivity | discriminate H].
Qed.

Lemma dashify_no_space (s : string) :
  forall inRun : bool, allChars (fun c => negb (isSpace c)) (dashify s inRun) = true.
Proof.
  induction s as [|c s IH]; intros inRun; [reflexivity|]. cbn [dashify].
  destruct (isSpace c) eqn:Hc.
  - destruct inRun; [apply IH|]. cbn [allChars]. now rewrite IH.
  - cbn [allChars]. now rewrite Hc, IH.
Qed.

(** X26. The reps of a result carry pairwise distinct ids. For a rep whose
    name is ASCII text, the id of the rep at position [i] is [rep-], the
    decimal numeral of [i + 1], a dash and the rep's name with every run of
    whitespace replaced by one dash, and it holds no whitespace. *)
Theorem rep_ids_distinct (slots : list TimeSlot.t)
    (skillsMap : gmap string Skill.t) (rankingsMap : gmap string Z)
    (headerRow : list cell) (dataRows : list (list cell)) (reps : list Rep.t) :
  parseGrid slots skillsMap rankingsMap headerRow dataRows = Return reps ->
  NoDup (Rep.id <$> reps)
  /\ (forall (i : nat) rep, reps !! i = Some rep -> asciiText (Rep.name rep) = true ->
        Rep.id rep = "rep-" +:+ pretty (i + 1)%nat +:+ "-" +:+ dashify (Rep.name rep) false)
  /\ (forall rep, In rep reps -> asciiText (Rep.name rep) = true ->
        allChars (fun c => negb (isSpace c)) (Rep.id rep) = true).
Proof.
  intros Hparse.
  assert (Hid : forall (i : nat) rep, reps !! i = Some rep ->
            Rep.id rep
            = "rep-" +:+ pretty (i + 1)%nat +:+ "-" +:+ dashify (Rep.name rep) false).
  { unfold parseGrid in Hparse.
    destruct (discoverDays headerRow) as [|d ds]; [discriminate|].
    destruct (scanRows slots (d :: ds) dataRows 0 (mkScan [] None)) as [st|e];
      cbn [mbind completion_bind] in Hparse; [|discriminate].
    injection Hparse as <-. intros i rep Hi. rewrite list_lookup_imap in Hi.
    destruct ((snd <$> repsMap st) !! i) as [repData|]; [|discriminate].
    injection Hi as <-. reflexivity. }
  split_ands.
  - apply NoDup_alt. intros i j x Hi Hj. rewrite list_lookup_fmap in Hi, Hj.
    destruct (reps !! i) as [ri|] eqn:Hri; [|discriminate].
    destruct (reps !! j) as [rj|] eqn:Hrj; [|discriminate].
    injection Hi as <-. injection Hj as Heq.
    rewrite (Hid _ _ Hri), (Hid _ _ Hrj) in Heq.
    injection Heq as Heq.
    apply digits_then_dash in Heq; try apply pretty_nat_digits.
    apply (inj pretty) in Heq. lia.
  - intros i rep Hi _. exact (Hid i rep Hi).
  - intros rep [i Hi]%list_elem_of_In%list_elem_of_lookup_1 _. rewrite (Hid _ _ Hi).
    rewrite !allChars_app, dashify_no_space.
    rewrite (allChars_impl isDigit _ _ digit_not_space (pretty_nat_digits _)).
    reflexivity.
Qed.

Lemma rep_ids_distinct_witness :
  let slots := [TimeSlot.mk "slot-1" "10am - 12pm"] in
  let sam := {| Rep.id := "rep-1-Sam-Lee"; Rep.name := "Sam Lee";
                Rep.availability := "Mon";
                Rep.unavailableSlots := [("Monday", [])];
                Rep.skills := None; Rep.zipCodes := None;
                Rep.region := PHX; Rep.salesRank := None |} in
  let ann := {| Rep.id := "rep-2-Ann-Mary-Roe"; Rep.name := "Ann  Mary Roe";
                Rep.availability := "Not available";
                Rep.unavailableSlots := [("Monday", ["slot-1"])];
                Rep.skills := None; Rep.zipCodes := None;
                Rep.region := PHX; Rep.salesRank := None |} in
  NoDup (Rep.id <$> [sam; ann])
  /\ (forall (i : nat) rep, [sam; ann] !! i = Some rep -> asciiText (Rep.name rep) = true ->
        Rep.id rep = "rep-" +:+ pretty (i + 1)%nat +:+ "-" +:+ dashify (Rep.name rep) false)
  /\ (forall rep, In rep [sam; ann] -> asciiText (Rep.name rep) = true ->
        allChars (fun c => negb (isSpace c)) (Rep.id rep) = true).
Proof.
  intros slots sam ann.
  apply (rep_ids_distinct slots ∅ ∅ [CStr "Rep"; CStr "Monday 10/27"]
           [[CStr "Sam Lee 10am - 12pm"; CStr "TRUE"];
            [CStr "Ann  Mary Roe 10am - 12pm"; CStr "off"]]
           [sam; ann]).
  vm_compute. reflexivity.
Defined.

(** ** The reps of a result: the availability summary *)

Lemma short_list_leaves_free (slots : list TimeSlot.t) (ids : list string) :
  NoDup (TimeSlot.id <$> slots) -> catalogIds slots ids ->
  (length ids <? length slots)%nat
  = existsb (fun slot => negb (existsb (String.eqb (TimeSlot.id slot)) ids)) slots.
Proof.
  intros Hslots [Hnd Hids].
  destruct (existsb _ slots) eqn:Hfree.
  - apply existsb_exists in Hfree as (slot & Hslot & Hout).
    apply Nat.ltb_lt. rewrite <- (length_fmap TimeSlot.id slots). unfold lt.
    change (S (length ids)) with (length (TimeSlot.id slot :: ids)).
    apply NoDup_incl_length.
    + constructor; [|now apply NoDup_ListNoDup].
      intros Hin. apply negb_true_iff in Hout.
      assert (Hex : existsb (String.eqb (TimeSlot.id slot)) ids = true)
        by (apply existsb_exists; exists (TimeSlot.id slot); split;
            [exact Hin|apply String.eqb_refl]).
      congruence.
    + intros s [<-|Hs]; [now apply in_map|].
      destruct (Hids s Hs) as (slot' & Hslot' & <-). now apply in_map.
  - apply Nat.ltb_ge. rewrite <- (length_fmap TimeSlot.id slots).
    apply NoDup_incl_length; [now apply NoDup_ListNoDup|].
    intros s Hs. apply in_map_iff in Hs as (slot & <- & Hslot).
    destruct (existsb (String.eqb (TimeSlot.id slot)) ids) eqn:Hin.
    + apply existsb_exists in Hin as (s & Hs & Heq). apply String.eqb_eq in Heq.
      now subst s.
    + assert (Hex : existsb (fun slot => negb (existsb (String.eqb (TimeSlot.id slot)) ids))
                      slots = true)
        by (apply existsb_exists; exists slot; split; [exact Hslot|now rewrite Hin]).
      congruence.
Qed.

Lemma slotIds_catalog (slots : list TimeSlot.t) (table : list (string * list string))
    (dayName : string) :
  Forall (fun p => catalogIds slots (snd p)) table ->
  catalogIds slots (slotIds dayName table).
Proof.
  intros Hall. unfold slotIds. destruct (Dict.get dayName table) as [ids|] eqn:Hget.
  - apply entry_of_get in Hget. rewrite List.Forall_forall in Hall.
    exact (Hall _ Hget).
  - split; [apply NoDup_nil_2|intros s []].
Qed.

Lemma availabilityOf_free (slots : list TimeSlot.t) (days : list Day.t) (repData : Draft.t) :
  NoDup (TimeSlot.id <$> slots) ->
  Forall (fun p => catalogIds slots (snd p)) (Draft.unavailableSlots repData) ->
  availabilityOf slots days repData
  = let joined := join ", " (map (fun d => substring0 3 (Day.name d))
                               (freeDays slots (Draft.unavailableSlots repData) days)) in
    if isEmpty joined then "Not available" else joined.
Proof.
  intros Hslots Hall. unfold availabilityOf. cbv zeta.
  assert (Heq : omap (fun day =>
                   if (match Dict.get (Day.name day) (Draft.unavailableSlots repData) with
                       | Some ids => length ids
                       | None => 0%nat
                       end <? length slots)%nat
                   then Some (substring0 3 (Day.name day)) else None) days
                = map (fun d => substring0 3 (Day.name d))
                    (freeDays slots (Draft.unavailableSlots repData) days)).
  { unfold freeDays. induction days as [|d days IH]; [reflexivity|].
    cbn [omap list_omap List.filter]. rewrite IH.
    assert (Hd : (match Dict.get (Day.name d) (Draft.unavailableSlots repData) with
                  | Some ids => length ids
                  | None => 0%nat
                  end <? length slots)%nat
                 = freeSlot slots (Draft.unavailableSlots repData) (Day.name d)).
    { unfold freeSlot.
      rewrite <- (short_list_leaves_free slots _ Hslots
                    (slotIds_catalog slots _ (Day.name d) Hall)).
      unfold slotIds. now destruct (Dict.get _ _). }
    rewrite Hd. now destruct (freeSlot _ _ _). }
  now rewrite Heq.
Qed.

Lemma day_name_initial (headerRow : list cell) (d : Day.t) :
  In d (discoverDays headerRow) ->
  exists c s, Day.name d = String c s /\ toUpperChar c <> "N"%char.
Proof.
  intros Hd. apply daysFrom_spec in Hd as (i & cell & _ & _ & _ & _ & Hmatch).
  apply matchDay_weekday in Hmatch as (_ & w & Hw & Hup).
  destruct (Day.name d) as [|c s].
  - exfalso. repeat (destruct Hw as [<-|Hw]; [discriminate Hup|]). destruct Hw.
  - exists c, s. split; [reflexivity|].
    repeat (destruct Hw as [<-|Hw];
            [injection Hup as Hc _; rewrite Hc; intros Hn; discriminate Hn|]).
    destruct Hw.
Qed.

Lemma join_initial (sep : string) (c : ascii) (s : string) (rest : list string) :
  exists t, join sep (String c s :: rest) = String c t.
Proof.
  destruct rest as [|p rest]; [now exists s|].
  exists (s +:+ sep +:+ join sep (p :: rest)). reflexivity.
Qed.

(** X27. The availability summary of a rep, for a catalog of time slots with
    distinct ids: the days listed are the discovered day columns on which at
    least one configured slot is not marked unavailable, in column order, each
    by the first three characters of its name and separated by a comma and a
    space; the summary reads 'Not available' exactly when no day has a free
    slot. *)
Theorem availability_summary (slots : list TimeSlot.t)
    (skillsMap : gmap string Skill.t) (rankingsMap : gmap string Z)
    (headerRow : list cell) (dataRows : list (list cell))
    (reps : list Rep.t) (rep : Rep.t) :
  NoDup (TimeSlot.id <$> slots) ->
  parseGrid slots skillsMap rankingsMap headerRow dataRows = Return reps ->
  In rep reps ->
  let free := freeDays slots (Rep.unavailableSlots rep) (discoverDays headerRow) in
  (free = [] <-> Rep.availability rep = "Not available")
  /\ (free <> [] ->
      Rep.availability rep = join ", " (map (fun d => substring0 3 (Day.name d)) free))
  /\ (forall d, In d free
        <-> In d (discoverDays headerRow)
            /\ exists slot, In slot slots
                 /\ ~ In (TimeSlot.id slot)
                        (slotIds (Day.name d) (Rep.unavailableSlots rep))).
Proof.
  intros Hslots Hparse Hrep free.
  assert (Hav : Rep.availability rep
                = let joined := join ", " (map (fun d => substring0 3 (Day.name d)) free) in
                  if isEmpty joined then "Not available" else joined).
  { unfold parseGrid in Hparse.
    destruct (discoverDays headerRow) as [|d ds] eqn:Hdays; [discriminate|].
    destruct (scanRows slots (d :: ds) dataRows 0 (mkScan [] None)) as [st|e] eqn:Hscan;
      cbn [mbind completion_bind] in Hparse; [|discriminate].
    injection Hparse as <-.
    pose proof (scanRows_catalog slots (d :: ds) dataRows 0 (mkScan [] None) st
                  (List.Forall_nil _) Hscan) as Hall.
    apply list_elem_of_In, elem_of_lookup_imap in Hrep as (i & repData & -> & Hlook).
    apply list_lookup_fmap_Some in Hlook as (entry & -> & Hentry).
    rewrite List.Forall_forall in Hall.
    assert (Hin : In entry (repsMap st)).
    { apply list_elem_of_In. eapply list_elem_of_lookup_2. exact Hentry. }
    subst free. cbn [toRep Rep.availability Rep.unavailableSlots].
    exact (availabilityOf_free slots (d :: ds) (snd entry) Hslots (Hall entry Hin)). }
  assert (Hfree : forall d, In d free -> In d (discoverDays headerRow)).
  { intros d Hd. now apply filter_In in Hd as [Hd _]. }
  cbv zeta in Hav. split_ands.
  - split.
    + intros Hnone. now rewrite Hav, Hnone.
    + intros Hnot. destruct free as [|d rest] eqn:Hlist; [reflexivity|]. exfalso.
      destruct (day_name_initial headerRow d (Hfree d (or_introl eq_refl)))
        as (c & s & Hname & Hc).
      cbn [map] in Hav. rewrite Hname in Hav.
      change (substring0 3 (String c s)) with (String c (substring0 2 s)) in Hav.
      destruct (join_initial ", " c (substring0 2 s)
                  (map (fun d => substring0 3 (Day.name d)) rest)) as (t & Ht).
      rewrite Ht in Hav. cbn [isEmpty] in Hav. rewrite Hav in Hnot.
      injection Hnot as -> _. now apply Hc.
  - intros Hsome. destruct free as [|d rest] eqn:Hlist; [now destruct Hsome|].
    destruct (day_name_initial headerRow d (Hfree d (or_introl eq_refl)))
      as (c & s & Hname & Hc).
    rewrite Hav. cbn [map]. rewrite Hname.
    change (substring0 3 (String c s)) with (String c (substring0 2 s)).
    destruct (join_initial ", " c (substring0 2 s)
                (map (fun d => substring0 3 (Day.name d)) rest)) as (t & Ht).
    now rewrite Ht.
  - intros d. subst free. unfold freeDays. rewrite filter_In. unfold freeSlot.
    split.
    + intros [Hd Hex]. split; [exact Hd|].
      apply existsb_exists in Hex as (slot & Hslot & Hout). exists slot.
      split; [exact Hslot|]. intros Hin. apply negb_true_iff in Hout.
      assert (Hex : existsb (String.eqb (TimeSlot.id slot))
                      (slotIds (Day.name d) (Rep.unavailableSlots rep)) = true)
        by (apply existsb_exists; exists (TimeSlot.id slot); split;
            [exact Hin|apply String.eqb_refl]).
      congruence.
    + intros [Hd (slot & Hslot & Hout)]. split; [exact Hd|].
      apply existsb_exists. exists slot. split; [exact Hslot|].
      apply negb_true_iff.
      destruct (existsb _ (slotIds (Day.name d) (Rep.unavailableSlots rep))) eqn:Hin;
        [|reflexivity].
      apply existsb_exists in Hin as (s & Hs & Heq). apply String.eqb_eq in Heq.
      subst s. now destruct Hout.
Qed.

Lemma availability_summary_witness :
  let slots := [TimeSlot.mk "slot-1" "10am - 12pm"; TimeSlot.mk "slot-2" "1pm - 3pm"] in
  let headerRow := [CStr "Rep"; CStr "Monday 10/27"; CStr "tuesday 10/28";
                    CStr "Wednesday 10/29"] in
  let rep := {| Rep.id := "rep-1-Sam-Lee"; Rep.name := "Sam Lee";
                Rep.availability := "Mon, Wed";
                Rep.unavailableSlots :=
                  [("Monday", ["slot-1"]); ("tuesday", ["slot-1"; "slot-2"]);
                   ("Wednesday", [])];
                Rep.skills := None; Rep.zipCodes := None;
                Rep.region := PHX; Rep.salesRank := None |} in
  let free := freeDays slots (Rep.unavailableSlots rep) (discoverDays headerRow) in
  (free = [] <-> Rep.availability rep = "Not available")
  /\ (free <> [] ->
      Rep.availability rep = join ", " (map (fun d => substring0 3 (Day.name d)) free))
  /\ (forall d, In d free
        <-> In d (discoverDays headerRow)
            /\ exists slot, In slot slots
                 /\ ~ In (TimeSlot.id slot)
                        (slotIds (Day.name d) (Rep.unavailableSlots rep))).
Proof.
  intros slots headerRow rep.
  apply (availability_summary slots ∅ ∅ headerRow
           [[CStr "Sam Lee 10am - 12pm"; CStr "off"; CStr "off"; CStr ""];
            [CStr "1pm - 3pm"; CStr "TRUE"; CStr "booked"; CStr ""]]
           [rep] rep).
  - apply NoDup_ListNoDup. repeat constructor; cbn; intuition discriminate.
  - vm_compute. reflexivity.
  - now left.
Defined.

(** ** The reps of a result: rank and skills *)

Lemma fetchSalesRankings_lookup (server : nat -> outcome) (response : Response)
    (data : Json) (rows : list (list cell)) (key : string) (r : Z) :
  fetchDefault server = Return response -> ok response = true ->
  body response = Some data -> values data = Some rows ->
  fetchSalesRankings server !! key = Some r
  <-> exists (i : nat) row,
        rows !! i = Some row /\ rankedKey row = Some key /\ r = Z.of_nat i + 1
        /\ forall (j : nat) row', (j < i)%nat -> rows !! j = Some row' ->
             rankedKey row' <> Some key.
Proof.
  intros Hr Hok Hbody Hvalues.
  assert (Hmap : fetchSalesRankings server = readRankRows rows 0 ∅).
  { unfold fetchSalesRankings. now rewrite Hr, Hok, Hbody, Hvalues. }
  rewrite Hmap, readRankRows_lookup, lookup_empty. split.
  - intros [H|(_ & i & row & Hi & Hk & -> & Hfirst)]; [discriminate|].
    exists i, row. split_ands; [exact Hi|exact Hk|lia|exact Hfirst].
  - intros (i & row & Hi & Hk & -> & Hfirst). right. split; [reflexivity|].
    exists i, row. split_ands; [exact Hi|exact Hk|lia|exact Hfirst].
Qed.

Lemma parseGrid_attributes (slots : list TimeSlot.t)
    (skillsMap : gmap string Skill.t) (rankingsMap : gmap string Z)
    (headerRow : list cell) (dataRows : list (list cell))
    (reps : list Rep.t) (rep : Rep.t) :
  parseGrid slots skillsMap rankingsMap headerRow dataRows = Return reps ->
  In rep reps ->
  Rep.skills rep = Skill.skills <$> skillsMap !! normalizeName (Rep.name rep)
  /\ Rep.zipCodes rep = Skill.zipCodes <$> skillsMap !! normalizeName (Rep.name rep)
  /\ Rep.salesRank rep = rankingsMap !! normalizeName (Rep.name rep).
Proof.
  intros Hparse Hrep. unfold parseGrid in Hparse.
  destruct (discoverDays headerRow) as [|d ds]; [discriminate|].
  destruct (scanRows slots (d :: ds) dataRows 0 (mkScan [] None)) as [st|e];
    cbn [mbind completion_bind] in Hparse; [|discriminate].
  injection Hparse as <-.
  apply list_elem_of_In, elem_of_lookup_imap in Hrep as (i & repData & -> & _).
  now split_ands.
Qed.

Lemma fetchSheetData_attributes (prefix : string) (slots : list TimeSlot.t) (mock : bool)
    (net : Network) (date : Z) (reps : list Rep.t) (sheetName : string) (rep : Rep.t) :
  fst (fetchSheetData prefix slots mock net date) = Return (Reps reps sheetName) ->
  In rep reps ->
  Rep.skills rep
  = Skill.skills <$> fetchRepSkills (skillsServer net) !! normalizeName (Rep.name rep)
  /\ Rep.zipCodes rep
     = Skill.zipCodes <$> fetchRepSkills (skillsServer net) !! normalizeName (Rep.name rep)
  /\ Rep.salesRank rep
     = fetchSalesRankings (ranksServer net) !! normalizeName (Rep.name rep).
Proof.
  intros Hres Hrep. apply fetchSheetData_reps in Hres.
  destruct (loadGrid_reps slots mock net sheetName sheetName reps Hres)
    as [_ [->|(r & data & headerRow & dataRows & _ & _ & _ & Hparse)]];
    [destruct Hrep|].
  exact (parseGrid_attributes _ _ _ _ _ _ _ Hparse Hrep).
Qed.

(** X28. The rank a query attaches to a rep whose name is ASCII text: when
    the ranking request is answered with rows whose names are ASCII text, the
    rep has sales rank [r] exactly when row [r - 1] of the ranking is the
    first one ranked under the rep's normalized name. Two such reps of the
    result with the same rank have the same normalized name, and two such
    reps whose names hold the same letters and digits, whatever the case,
    the spacing and the punctuation, get the same rank, skills and zip
    codes. *)
Theorem rank_of_rep (prefix : string) (slots : list TimeSlot.t) (mock : bool)
    (net : Network) (date : Z) (reps : list Rep.t) (sheetName : string)
    (response : Response) (data : Json) (rows : list (list cell)) (rep : Rep.t) :
  fst (fetchSheetData prefix slots mock net date) = Return (Reps reps sheetName) ->
  fetchDefault (ranksServer net) = Return response -> ok response = true ->
  body response = Some data -> values data = Some rows ->
  Forall (fun row => asciiCell (cellAt row 0) = true) rows ->
  In rep reps ->
  asciiText (Rep.name rep) = true ->
  (forall r,
      Rep.salesRank rep = Some r
      <-> exists (i : nat) row,
            rows !! i = Some row
            /\ rankedKey row = Some (normalizeName (Rep.name rep))
            /\ r = Z.of_nat i + 1
            /\ forall (j : nat) row', (j < i)%nat -> rows !! j = Some row' ->
                 rankedKey row' <> Some (normalizeName (Rep.name rep)))
  /\ (forall rep' r, In rep' reps -> asciiText (Rep.name rep') = true ->
        Rep.salesRank rep = Some r -> Rep.salesRank rep' = Some r ->
        normalizeName (Rep.name rep') = normalizeName (Rep.name rep))
  /\ (forall rep', In rep' reps -> asciiText (Rep.name rep') = true ->
        filterChars isKeyChar (toLowerCase (Rep.name rep'))
        = filterChars isKeyChar (toLowerCase (Rep.name rep)) ->
        Rep.salesRank rep' = Rep.salesRank rep
        /\ Rep.skills rep' = Rep.skills rep
        /\ Rep.zipCodes rep' = Rep.zipCodes rep).
Proof.
  intros Hres Hr Hok Hbody Hvalues _ Hrep _.
  destruct (fetchSheetData_attributes _ _ _ _ _ _ _ _ Hres Hrep) as (Hskills & Hzips & Hrank).
  split_ands.
  - intros r. rewrite Hrank.
    exact (fetchSalesRankings_lookup _ _ _ _ _ _ Hr Hok Hbody Hvalues).
  - intros rep' r Hrep' _ H1 H2.
    destruct (fetchSheetData_attributes _ _ _ _ _ _ _ _ Hres Hrep') as (_ & _ & Hrank').
    rewrite Hrank in H1. rewrite Hrank' in H2.
    apply (fetchSalesRankings_lookup _ _ _ _ _ _ Hr Hok Hbody Hvalues)
      in H1 as (i & row & Hi & Hk & -> & _).
    apply (fetchSalesRankings_lookup _ _ _ _ _ _ Hr Hok Hbody Hvalues)
      in H2 as (i' & row' & Hi' & Hk' & Heq & _).
    assert (i' = i) by lia. subst i'. rewrite Hi in Hi'. injection Hi' as <-.
    rewrite Hk in Hk'. now injection Hk'.
  - intros rep' Hrep' _ Hsame.
    assert (Hkey : normalizeName (Rep.name rep') = normalizeName (Rep.name rep))
      by (rewrite !normalizeName_keyOf; exact Hsame).
    destruct (fetchSheetData_attributes _ _ _ _ _ _ _ _ Hres Hrep')
      as (Hskills' & Hzips' & Hrank').
    rewrite Hskills, Hzips, Hrank, Hskills', Hzips', Hrank', Hkey. now split_ands.
Qed.

Lemma rank_of_rep_witness :
  let slots := [TimeSlot.mk "slot-1" "10am - 12pm"] in
  let grid := [[CStr "Name"; CStr "Monday 12/30"];
               [CStr "Sam Lee 10am - 12pm"; CStr ""];
               [CStr "SAM-lee 10am - 12pm"; CStr "off"]] in
  let rows := [[CStr "Sales Order totals"]; [CStr "Ann Roe"]; [CStr "sam lee"];
               [CStr "Sam Lee"]] in
  let net := {| skillsServer := fun _ => Rejects "offline";
                ranksServer := fun _ => Responds (gridOf rows);
                metaServer := fun _ => Responds (metaOf ["Schedule 12/30 - 1/5"]);
                dataServer := fun _ _ => Responds (gridOf grid) |} in
  let sam := {| Rep.id := "rep-1-Sam-Lee"; Rep.name := "Sam Lee";
                Rep.availability := "Mon";
                Rep.unavailableSlots := [("Monday", [])];
                Rep.skills := None; Rep.zipCodes := None;
                Rep.region := PHX; Rep.salesRank := Some 3 |} in
  let sam' := {| Rep.id := "rep-2-SAM-lee"; Rep.name := "SAM-lee";
                 Rep.availability := "Not available";
                 Rep.unavailableSlots := [("Monday", ["slot-1"])];
                 Rep.skills := None; Rep.zipCodes := None;
                 Rep.region := PHX; Rep.salesRank := Some 3 |} in
  (forall r,
      Rep.salesRank sam = Some r
      <-> exists (i : nat) row,
            rows !! i = Some row
            /\ rankedKey row = Some (normalizeName (Rep.name sam))
            /\ r = Z.of_nat i + 1
            /\ forall (j : nat) row', (j < i)%nat -> rows !! j = Some row' ->
                 rankedKey row' <> Some (normalizeName (Rep.name sam)))
  /\ (forall rep' r, In rep' [sam; sam'] -> asciiText (Rep.name rep') = true ->
        Rep.salesRank sam = Some r -> Rep.salesRank rep' = Some r ->
        normalizeName (Rep.name rep') = normalizeName (Rep.name sam))
  /\ (forall rep', In rep' [sam; sam'] -> asciiText (Rep.name rep') = true ->
        filterChars isKeyChar (toLowerCase (Rep.name rep'))
        = filterChars isKeyChar (toLowerCase (Rep.name sam)) ->
        Rep.salesRank rep' = Rep.salesRank sam
        /\ Rep.skills rep' = Rep.skills sam
        /\ Rep.zipCodes rep' = Rep.zipCodes sam).
Proof.
  intros slots grid rows net sam sam'.
  apply (rank_of_rep "Schedule" slots false net (newDate 2024 0 2) [sam; sam']
           "Schedule 12/30 - 1/5" (gridOf rows)
           {| sheets := None; values := Some rows |} rows sam).
  - vm_compute. reflexivity.
  - reflexivity.
  - reflexivity.
  - reflexivity.
  - reflexivity.
  - repeat constructor.
  - now left.
  - reflexivity.
Defined.
